(** * system-metrics: collector, alert router and ingestion store

    A shallow embedding of the Python sources

      - [metric_collector/collector.py]  (class MetricCollector),
      - [alerts/slack_webhook.py]        (class AlertManager),
      - [cloud_ingestion/server.py]      (pydantic models, MetricsDatabase,
                                          the /ingest endpoint),

    followed by the properties of the specification that concern them.

    Conventions of the embedding.
      - Python numbers are exact rationals ([Q]); the comparisons of the
        sources are exact on finite floats and ints, so nothing is lost
        there.  NaN and booleans are not represented.
      - [datetime] values are integers, microseconds since the epoch;
        [total_seconds()] is the exact quotient by 10^6.
      - Dictionaries whose values are heterogeneous ([Dict[str, Any]]) are
        association lists of dynamically typed values ([pyval]); the
        dictionaries the program uses as finite maps are stdpp [gmap]s.
      - Exceptions are data: fallible code returns a [result].
      - The outside world (wall clock, network, what psutil reports) is an
        oracle, a [world] record of functions indexed by the number of
        earlier calls; the program state counts the calls made so far and
        keeps the trace of observable effects. *)

From Stdlib Require Import ZArith QArith Qround Qabs Qminmax String Ascii List
  Bool Lia Lqa DecimalString Sorted Permutation.
From stdpp Require Import base option list gmap strings.
Import ListNotations.

Local Open Scope string_scope.
Local Open Scope Z_scope.

(** ** Python values, exceptions *)

Module Py.

(* No induction over values is needed: the sources only inspect them to a
   fixed depth. *)
#[local] Unset Elimination Schemes.
Inductive pyval : Type :=
| VNone
| VNum (q : Q)
| VStr (s : string)
| VList (l : list pyval)
| VDict (d : list (string * pyval)).
#[local] Set Elimination Schemes.

(** The subclasses of [Exception] that the sources raise or catch.
    [RequestException] stands for [requests.exceptions.RequestException]
    and all its subclasses (timeouts, refused connections, the [HTTPError]
    of [raise_for_status]). *)
Inductive exn : Type :=
| AttributeError
| TypeError
| ValueError
| RequestException
| SqliteError
| HTTPException (status_code : Z)
| OverflowError
| OSError.

Inductive result (A : Type) : Type :=
| Ok (a : A)
| Raise (e : exn).
Arguments Ok {A} a.
Arguments Raise {A} e.

Definition bind {A B} (r : result A) (k : A -> result B) : result B :=
  match r with
  | Ok a => k a
  | Raise e => Raise e
  end.

(** Outcome of a call into the outside world, such as [requests.post(...)]
    followed by [raise_for_status()]. *)
Inductive outcome : Type :=
| Returns
| Raises (e : exn).

(** [key in d] and [d[key]] / [d.get(key)] on a dynamically typed dict. *)
Fixpoint dict_get (d : list (string * pyval)) (key : string) : option pyval :=
  match d with
  | [] => None
  | (k, v) :: d' => if String.eqb k key then Some v else dict_get d' key
  end.

(** [x > y] on two numbers. *)
Definition Qgtb (x y : Q) : bool :=
  match (x ?= y)%Q with
  | Gt => true
  | _ => false
  end.

(** [x < y] on two numbers. *)
Definition Qltb (x y : Q) : bool := Qgtb y x.

(** Builtins of the Python runtime that the sources call and whose results
    only ever end up inside message texts or as dictionary keys. *)
Class Builtins : Type := {
  (** [f"{x:.1f}"] *)
  fmt_1f : Q -> string;
  (** [str(v)], as used by [f"{v}"] *)
  py_str : pyval -> string;
  (** [hash(s)] on a string *)
  py_hash : string -> Z;
}.

End Py.
Export Py.

Notation "x <- r ;; k" := (Py.bind r (fun x => k))
  (at level 100, r at next level, right associativity, only parsing).

(** ** metric_collector/collector.py *)

Module Collector.

(** The effective configuration, after [_load_config] and the [.get]
    defaults of the call sites. *)
Record config : Type := {
  thresholds : gmap string Q;        (* config['thresholds'] *)
  alerts_enabled : bool;             (* alerts.enabled, default True *)
  cooldown_minutes : Q;              (* alerts.cooldown_minutes, default 5 *)
  channels : list string;            (* alerts.channels, default ['log'] *)
  slack_webhook_url : option string; (* alerts.slack_webhook_url *)
  max_retries : Z;                   (* endpoint.max_retries, default 3 *)
  retry_delay : Q;                   (* endpoint.retry_delay, default 5 *)
  interval_seconds : Q;              (* interval_seconds *)
}.

(** The environment of a collector process. *)
Record world : Type := {
  hostname : string;                      (* _get_hostname() *)
  utcnow : nat -> Z;                      (* n-th datetime.utcnow(), in us *)
  time_time : nat -> Q;                   (* n-th time.time(), in seconds *)
  collect_metrics : nat -> list (string * pyval);
                                          (* n-th collect_metrics() *)
  endpoint_post : nat -> outcome;    (* n-th POST to the endpoint *)
  slack_post : nat -> outcome;       (* n-th POST to the Slack hook *)
  running_at : nat -> bool;               (* self.running at the n-th loop test *)
  os_sleep : Q -> outcome;           (* the platform's sleep call on a long
                                        delay *)
}.

(** Observable effects, in the order in which they happen: the calls of
    the logger (one constructor per call site, with the values it prints),
    the outbound requests and the sleeps. *)
Inductive event : Type :=
| LogAlert (message : string)             (* warning, line 250: "ALERT: ..." *)
| LogSlackNotConfigured                   (* error, line 269 *)
| LogEmailAlert (message : string)        (* info, line 284 *)
| LogChannelFailed (channel : string) (e : exn)      (* error, line 263 *)
| SlackPost (text : string)               (* requests.post(webhook_url, ...) *)
| EndpointPost (payload : list (string * pyval))
                                          (* requests.post(endpoint.url, ...) *)
| LogSent (attempt : Z)                   (* info, line 313 *)
| LogNetworkError (attempt : Z) (e : exn) (* warning, line 318 *)
| LogGaveUp                               (* error, line 322 *)
| LogUnexpected (e : exn)                 (* error, line 325 *)
| Sleep (seconds : Q)                     (* time.sleep(seconds) returned *)
| LogSlow (elapsed_time : Q)              (* warning, line 350 *)
| LogLoopError (e : exn)                  (* error, line 357 *)
| LogStopped.                             (* info, line 360 *)

Record state : Type := {
  alert_cooldown : gmap Z Z;  (* self.alert_cooldown: hash(message) -> last fired *)
  n_utcnow : nat;             (* calls made so far, per oracle *)
  n_time : nat;
  n_collect : nat;
  n_post : nat;
  n_slack : nat;
  n_loop : nat;
  trace : list event;
}.

Definition initial_state : state :=
  {| alert_cooldown := ∅; n_utcnow := 0; n_time := 0; n_collect := 0;
     n_post := 0; n_slack := 0; n_loop := 0; trace := [] |}.

Definition emit (e : event) (st : state) : state :=
  {| alert_cooldown := alert_cooldown st; n_utcnow := n_utcnow st;
     n_time := n_time st; n_collect := n_collect st; n_post := n_post st;
     n_slack := n_slack st; n_loop := n_loop st; trace := (trace st ++ [e])%list |}.

Definition set_cooldown (key now : Z) (st : state) : state :=
  {| alert_cooldown := <[key := now]> (alert_cooldown st);
     n_utcnow := n_utcnow st; n_time := n_time st; n_collect := n_collect st;
     n_post := n_post st; n_slack := n_slack st; n_loop := n_loop st;
     trace := trace st |}.

Definition tick_utcnow (st : state) : state :=
  {| alert_cooldown := alert_cooldown st; n_utcnow := S (n_utcnow st);
     n_time := n_time st; n_collect := n_collect st; n_post := n_post st;
     n_slack := n_slack st; n_loop := n_loop st; trace := trace st |}.

Definition tick_time (st : state) : state :=
  {| alert_cooldown := alert_cooldown st; n_utcnow := n_utcnow st;
     n_time := S (n_time st); n_collect := n_collect st; n_post := n_post st;
     n_slack := n_slack st; n_loop := n_loop st; trace := trace st |}.

Definition tick_collect (st : state) : state :=
  {| alert_cooldown := alert_cooldown st; n_utcnow := n_utcnow st;
     n_time := n_time st; n_collect := S (n_collect st); n_post := n_post st;
     n_slack := n_slack st; n_loop := n_loop st; trace := trace st |}.

Definition tick_post (st : state) : state :=
  {| alert_cooldown := alert_cooldown st; n_utcnow := n_utcnow st;
     n_time := n_time st; n_collect := n_collect st; n_post := S (n_post st);
     n_slack := n_slack st; n_loop := n_loop st; trace := trace st |}.

Definition tick_slack (st : state) : state :=
  {| alert_cooldown := alert_cooldown st; n_utcnow := n_utcnow st;
     n_time := n_time st; n_collect := n_collect st; n_post := n_post st;
     n_slack := S (n_slack st); n_loop := n_loop st; trace := trace st |}.

Definition tick_loop (st : state) : state :=
  {| alert_cooldown := alert_cooldown st; n_utcnow := n_utcnow st;
     n_time := n_time st; n_collect := n_collect st; n_post := n_post st;
     n_slack := n_slack st; n_loop := S (n_loop st); trace := trace st |}.

Section WithEnvironment.

Context `{py : Builtins}.
Variable cfg : config.
Variable w : world.

(** *** check_alerts: the threshold blocks *)

(** The three scalar families share one shape in the source
    (lines 203-206, 209-212, 226-229); [label] is the text of the message. *)
Definition check_scalar (key label : string)
    (metrics : list (string * pyval)) : result (list string) :=
  match thresholds cfg !! key, dict_get metrics key with
  | Some limit, Some family =>
      match family with
      | VDict d =>
          match default (VNum 0) (dict_get d "percent") with
          | VNum percent =>
              if Qgtb percent limit
              then Ok [label ++ fmt_1f percent ++ "% (threshold: "
                         ++ py_str (VNum limit) ++ "%)"]
              else Ok []
          | _ => Raise TypeError     (* '>' between a non-number and a number *)
          end
      | _ => Raise AttributeError    (* no .get on a non-dict *)
      end
  | _, _ => Ok []
  end.

Definition check_cpu := check_scalar "cpu" "High CPU usage: ".
Definition check_memory := check_scalar "memory" "High memory usage: ".
Definition check_swap := check_scalar "swap" "High swap usage: ".

(** One iteration of [for disk in metrics['disk']]. *)
Definition check_mount (disk_threshold : Q) (disk : pyval)
    : result (list string) :=
  match disk with
  | VDict d =>
      match dict_get d "percent" with
      | Some (VNum percent) =>
          if Qgtb percent disk_threshold
          then Ok ["High disk usage on "
                     ++ py_str (default (VStr "unknown") (dict_get d "mountpoint"))
                     ++ ": " ++ fmt_1f percent ++ "% (threshold: "
                     ++ py_str (VNum disk_threshold) ++ "%)"]
          else Ok []
      | Some _ => Raise TypeError
      | None => Ok []               (* 'percent' not in disk *)
      end
  | _ => Ok []                      (* not isinstance(disk, dict) *)
  end.

Fixpoint check_mounts (disk_threshold : Q) (disks : list pyval)
    : result (list string) :=
  match disks with
  | [] => Ok []
  | disk :: rest =>
      here <- check_mount disk_threshold disk ;;
      later <- check_mounts disk_threshold rest ;;
      Ok (here ++ later)%list
  end.

(** What [for disk in v] iterates over: the items of a list, the keys of a
    dict, the characters of a string; numbers and None are not iterable. *)
Definition py_iter (v : pyval) : result (list pyval) :=
  match v with
  | VList l => Ok l
  | VDict d => Ok (map (fun kv => VStr (fst kv)) d)
  | VStr s => Ok (map (fun c => VStr (String c EmptyString)) (list_ascii_of_string s))
  | VNum _ | VNone => Raise TypeError
  end.

Definition check_disk (metrics : list (string * pyval)) : result (list string) :=
  match thresholds cfg !! "disk", dict_get metrics "disk" with
  | Some disk_threshold, Some v =>
      disks <- py_iter v ;;
      check_mounts disk_threshold disks
  | _, _ => Ok []
  end.

(** The value of [alerts_triggered] when the loop at line 232 is reached. *)
Definition alerts_triggered (metrics : list (string * pyval))
    : result (list string) :=
  a_cpu <- check_cpu metrics ;;
  a_mem <- check_memory metrics ;;
  a_disk <- check_disk metrics ;;
  a_swap <- check_swap metrics ;;
  Ok (a_cpu ++ a_mem ++ a_disk ++ a_swap)%list.

(** *** _send_alert and its channels *)

(** [time.sleep(seconds)] turns the length into a signed 64-bit count of
    nanoseconds, rounding away from zero, and raises [OverflowError] when it
    does not fit; then it raises [ValueError] on a negative length; then it
    hands the delay to the operating system.  A delay of up to
    [sleep_always] seconds is slept on every platform; a longer one can be
    refused there ([select] on BSD beyond 10^8 seconds, [clock_nanosleep] on
    Linux for a deadline that the monotonic clock cannot hold, both
    [OSError]), which [os_sleep] decides. *)
Definition sleep_always : Q := 100000000.

Definition sleep_check (seconds : Q) : result unit :=
  if Qgtb (seconds * 1000000000) 9223372036854775807
     || Qltb (seconds * 1000000000) (-9223372036854775808)
  then Raise OverflowError
  else if Qltb seconds 0 then Raise ValueError
  else if Qgtb seconds sleep_always then
    match os_sleep w seconds with
    | Returns => Ok tt
    | Raises e => Raise e
    end
  else Ok tt.

Definition time_sleep (seconds : Q) (st : state) : state * result unit :=
  match sleep_check seconds with
  | Ok _ => (emit (Sleep seconds) st, Ok tt)
  | Raise e => (st, Raise e)
  end.

(** [(current_time - last).total_seconds() / 60] *)
Definition minutes_between (current_time last : Z) : Q :=
  (inject_Z (current_time - last) / 1000000 / 60)%Q.

(** [_send_slack_alert]; the emoji that starts the text is left out. *)
Definition _send_slack_alert (message : string) (st : state)
    : state * result unit :=
  match slack_webhook_url cfg with
  | None | Some "" =>
      (emit LogSlackNotConfigured st, Ok tt)
  | Some _ =>
      let outcome := slack_post w (n_slack st) in
      let st := emit (SlackPost ("ALERT from " ++ hostname w ++ ": " ++ message))
                  (tick_slack st) in
      match outcome with
      | Returns => (st, Ok tt)
      | Raises e => (st, Raise e)
      end
  end.

Definition _send_email_alert (message : string) (st : state)
    : state * result unit :=
  (emit (LogEmailAlert message) st, Ok tt).

(** One iteration of [for channel in alert_channels], with its
    [try ... except Exception]. *)
Definition send_channel (message : string) (st : state) (channel : string)
    : state :=
  let '(st, r) :=
    if String.eqb channel "slack" then _send_slack_alert message st
    else if String.eqb channel "email" then _send_email_alert message st
    else (st, Ok tt) in
  match r with
  | Ok _ => st
  | Raise e => emit (LogChannelFailed channel e) st
  end.

(** The test of lines 242-245. *)
Definition in_cooldown (cooldown_key current_time : Z) (st : state) : bool :=
  match alert_cooldown st !! cooldown_key with
  | Some last =>
      Qltb (minutes_between current_time last) (cooldown_minutes cfg)
  | None => false
  end.

Definition _send_alert (st : state) (message : string) : state :=
  let cooldown_key := py_hash message in
  let current_time := utcnow w (n_utcnow st) in
  let st := tick_utcnow st in
  if in_cooldown cooldown_key current_time st then st
  else
    let st := set_cooldown cooldown_key current_time st in
    let st := emit (LogAlert message) st in
    fold_left (send_channel message) (channels cfg) st.

(** What [_send_alert] hands back to its caller, [None] standing for
    Python's [None] and [Some b] for a truth value: the [return] of
    line 245 carries no value, and the body ends after the channel loop
    without a [return]. *)
Definition _send_alert_returns (st : state) (message : string)
    : option bool :=
  let cooldown_key := py_hash message in
  let current_time := utcnow w (n_utcnow st) in
  let st := tick_utcnow st in
  if in_cooldown cooldown_key current_time st then None
  else None.

(** *** check_alerts *)

Definition check_alerts (metrics : list (string * pyval)) (st : state)
    : state * result unit :=
  if negb (alerts_enabled cfg) then (st, Ok tt)
  else
    match alerts_triggered metrics with
    | Raise e => (st, Raise e)
    | Ok alerts => (fold_left _send_alert alerts st, Ok tt)
    end.

(** *** send_metrics *)

(** The body of the [try] of one attempt (lines 293-315).  The debug line
    314 encodes the payload that [requests.post] has just encoded. *)
Definition attempt_body (attempt : Z) (st : state) : state * result unit :=
  let metrics := collect_metrics w (n_collect st) in
  let st := tick_collect st in
  let '(st, r) := check_alerts metrics st in
  match r with
  | Raise e => (st, Raise e)
  | Ok _ =>
      let payload :=
        [("hostname", default (VStr (hostname w)) (dict_get metrics "hostname"));
         ("metrics", VDict metrics)] in
      let outcome := endpoint_post w (n_post st) in
      let st := emit (EndpointPost payload) (tick_post st) in
      match outcome with
      | Raises e => (st, Raise e)
      | Returns => (emit (LogSent attempt) st, Ok tt)
      end
  end.

(** [for attempt in range(max_retries)], from iteration [attempt] on, with
    [remaining] iterations left. *)
Fixpoint attempts_from (remaining : nat) (attempt : Z) (st : state)
    : state * result bool :=
  match remaining with
  | O => (st, Ok false)
  | S remaining' =>
      let '(st, r) := attempt_body attempt st in
      match r with
      | Ok _ => (st, Ok true)
      | Raise RequestException =>
          let st := emit (LogNetworkError attempt RequestException) st in
          if (attempt <? max_retries cfg - 1)%Z then
            let '(st, slept) := time_sleep (retry_delay cfg) st in
            match slept with
            | Ok _ => attempts_from remaining' (attempt + 1) st
            | Raise e => (st, Raise e)     (* raised inside the handler *)
            end
          else
            attempts_from remaining' (attempt + 1) (emit LogGaveUp st)
      | Raise e => (emit (LogUnexpected e) st, Ok false)
      end
  end.

Definition send_metrics (st : state) : state * result bool :=
  attempts_from (Z.to_nat (max_retries cfg)) 0 st.

(** *** run *)

(** [max(a, b)] on two numbers: the first maximal argument. *)
Definition py_max (a b : Q) : Q := if Qgtb b a then b else a.

(** The body of the [try] of one loop iteration (lines 338-351). *)
Definition cycle_body (st : state) : state * result unit :=
  let start_time := time_time w (n_time st) in
  let st := tick_time st in
  let '(st, r) := send_metrics st in
  match r with
  | Raise e => (st, Raise e)
  | Ok success =>
      let elapsed_time := (time_time w (n_time st) - start_time)%Q in
      let st := tick_time st in
      let sleep_time := py_max 0 (interval_seconds cfg - elapsed_time)%Q in
      if Qgtb sleep_time 0 then time_sleep sleep_time st
      else (emit (LogSlow elapsed_time) st, Ok tt)
  end.

(** One loop iteration with its [except Exception] handler.  The handler
    for [KeyboardInterrupt] has nothing to catch here: the constructor
    installs its own SIGINT handler, and [exn] holds [Exception]s only. *)
Definition cycle (st : state) : state :=
  let '(st, r) := cycle_body st in
  match r with
  | Ok _ => st
  | Raise e => fst (time_sleep 5 (emit (LogLoopError e) st))
  end.

(** [while self.running: ...], for at most [fuel] tests of the flag. *)
Fixpoint run (fuel : nat) (st : state) : state :=
  match fuel with
  | O => st
  | S fuel' =>
      let running := running_at w (n_loop st) in
      let st := tick_loop st in
      if running then run fuel' (cycle st)
      else emit LogStopped st
  end.

End WithEnvironment.

End Collector.

(** ** alerts/slack_webhook.py

    The module imports [MimeText] and [MimeMultipart] from the [email]
    package, which names them [MIMEText] and [MIMEMultipart]; the embedding
    follows the bodies of the methods. *)

Module AlertManager.

(** [self.config], with the [.get] defaults applied. *)
Record config : Type := {
  cooldown_minutes : Q;               (* default 5 *)
  channels : list string;             (* default ['log'] *)
  slack_webhook_url : option string;
  webhook_url : option string;
  email_complete : bool;              (* all five SMTP keys are present *)
}.

Record world : Type := {
  utcnow : nat -> Z;                  (* n-th datetime.utcnow(), in us *)
  network : nat -> outcome;           (* n-th outbound delivery (HTTP or SMTP) *)
}.

(** [alert_data] *)
Record alert : Type := {
  timestamp : Z;
  hostname : string;
  alert_type : string;
  message : string;
  value : option Q;
  threshold : option Q;
  severity : string;
}.

Inductive event : Type :=
| LogCooldownSkip (alert_type hostname : string)  (* logger.debug, line 41 *)
| LogAlert (a : alert)                            (* _log_alert: logger.log *)
| LogSent (channel : string)                      (* "... alert sent successfully" *)
| LogUnknownChannel (channel : string)            (* logger.warning, line 73 *)
| LogSendFailed (channel : string) (e : exn)      (* logger.error, line 75 *)
| SlackPost (a : alert)
| SmtpSend (a : alert)
| WebhookPost (a : alert).

Record state : Type := {
  alert_history : gmap string Z;   (* "hostname:alert_type" -> last fired *)
  n_utcnow : nat;
  n_network : nat;
  trace : list event;
}.

Definition initial_state : state :=
  {| alert_history := ∅; n_utcnow := 0; n_network := 0; trace := [] |}.

Definition emit (e : event) (st : state) : state :=
  {| alert_history := alert_history st; n_utcnow := n_utcnow st;
     n_network := n_network st; trace := (trace st ++ [e])%list |}.

Definition set_history (key : string) (now : Z) (st : state) : state :=
  {| alert_history := <[key := now]> (alert_history st);
     n_utcnow := n_utcnow st; n_network := n_network st; trace := trace st |}.

Definition tick_utcnow (st : state) : state :=
  {| alert_history := alert_history st; n_utcnow := S (n_utcnow st);
     n_network := n_network st; trace := trace st |}.

Definition tick_network (st : state) : state :=
  {| alert_history := alert_history st; n_utcnow := n_utcnow st;
     n_network := S (n_network st); trace := trace st |}.

(** [f"{hostname}:{alert_type}"] *)
Definition history_key (alert_type hostname : string) : string :=
  hostname ++ ":" ++ alert_type.

Section WithEnvironment.

Variable cfg : config.
Variable w : world.

(** The clock is read only when the key is present. *)
Definition _is_in_cooldown (alert_type hostname : string) (st : state)
    : state * bool :=
  match alert_history st !! history_key alert_type hostname with
  | Some last =>
      let now := utcnow w (n_utcnow st) in
      (tick_utcnow st,
       Qltb (inject_Z (now - last) / 1000000) (cooldown_minutes cfg * 60)%Q)
  | None => (st, false)
  end.

Definition _update_alert_history (alert_type hostname : string) (st : state)
    : state :=
  set_history (history_key alert_type hostname) (utcnow w (n_utcnow st))
    (tick_utcnow st).

Definition _log_alert (a : alert) (st : state) : state * result unit :=
  (emit (LogAlert a) st, Ok tt).

(** An outbound call: consumes one answer of the network oracle. *)
Definition outbound (sent : event) (channel : string) (st : state)
    : state * result unit :=
  let answer := network w (n_network st) in
  let st := emit sent (tick_network st) in
  match answer with
  | Returns => (emit (LogSent channel) st, Ok tt)
  | Raises e => (st, Raise e)
  end.

Definition _send_slack_alert (a : alert) (st : state) : state * result unit :=
  match slack_webhook_url cfg with
  | None | Some "" => (st, Raise ValueError)
  | Some _ =>
      (* "ts": int(datetime.utcnow().timestamp()) reads the clock *)
      outbound (SlackPost a) "slack" (tick_utcnow st)
  end.

Definition _send_email_alert (a : alert) (st : state) : state * result unit :=
  if email_complete cfg then outbound (SmtpSend a) "email" st
  else (st, Raise ValueError).

Definition _send_webhook_alert (a : alert) (st : state) : state * result unit :=
  match webhook_url cfg with
  | None | Some "" => (st, Raise ValueError)
  | Some _ => outbound (WebhookPost a) "webhook" st
  end.

(** One iteration of [for channel in channels] (lines 62-76); the second
    component is the variable [success]. *)
Definition send_channel (a : alert) (acc : state * bool) (channel : string)
    : state * bool :=
  let '(st, success) := acc in
  let '(st, r) :=
    if String.eqb channel "slack" then _send_slack_alert a st
    else if String.eqb channel "email" then _send_email_alert a st
    else if String.eqb channel "webhook" then _send_webhook_alert a st
    else if String.eqb channel "log" then _log_alert a st
    else (emit (LogUnknownChannel channel) st, Ok tt) in
  match r with
  | Ok _ => (st, success)
  | Raise e => (emit (LogSendFailed channel e) st, false)
  end.

Definition send_alert (alert_type message hostname : string)
    (value threshold : option Q) (severity : string) (st : state)
    : state * bool :=
  let '(st, cooling) := _is_in_cooldown alert_type hostname st in
  if cooling then (emit (LogCooldownSkip alert_type hostname) st, false)
  else
    let st := _update_alert_history alert_type hostname st in
    let alert_data :=
      {| timestamp := utcnow w (n_utcnow st); hostname := hostname;
         alert_type := alert_type; message := message; value := value;
         threshold := threshold; severity := severity |} in
    let st := tick_utcnow st in
    fold_left (send_channel alert_data) (channels cfg) (st, true).

End WithEnvironment.

End AlertManager.

(** ** cloud_ingestion/server.py *)

Module Server.

(** *** The pydantic models

    A record holds a request body that has the shape of the model; [valid]
    is the conjunction of the [Field] constraints and validators declared
    on it. *)

Definition between_0_100 (x : Q) : bool := Qle_bool 0 x && Qle_bool x 100.

Module CPUMetrics.
Record t : Type := {
  percent : Q;                  (* ge=0, le=100 *)
  count : Z;                    (* gt=0 *)
  count_logical : Z;            (* gt=0 *)
  load_avg : option (list Q);
}.
Definition valid (m : t) : bool :=
  between_0_100 (percent m) && (0 <? count m) && (0 <? count_logical m).
End CPUMetrics.

Module MemoryMetrics.
Record t : Type := {
  total : Z;                    (* gt=0 *)
  available : Z;                (* ge=0 *)
  percent : Q;                  (* ge=0, le=100 *)
  used : Z;                     (* ge=0 *)
  free : Z;                     (* ge=0 *)
  buffers : Z;                  (* default 0, ge=0 *)
  cached : Z;                   (* default 0, ge=0 *)
}.
Definition valid (m : t) : bool :=
  (0 <? total m) && (0 <=? available m) && between_0_100 (percent m)
  && (0 <=? used m) && (0 <=? free m) && (0 <=? buffers m)
  && (0 <=? cached m).
End MemoryMetrics.

Module SwapMetrics.
Record t : Type := {
  total : Z;                    (* ge=0 *)
  used : Z;                     (* ge=0 *)
  free : Z;                     (* ge=0 *)
  percent : Q;                  (* ge=0, le=100 *)
}.
Definition valid (m : t) : bool :=
  (0 <=? total m) && (0 <=? used m) && (0 <=? free m)
  && between_0_100 (percent m).
End SwapMetrics.

Module DiskMetrics.
Record t : Type := {
  device : string;
  mountpoint : string;
  fstype : string;
  total : Z;                    (* gt=0 *)
  used : Z;                     (* ge=0 *)
  free : Z;                     (* ge=0 *)
  percent : Q;                  (* ge=0, le=100 *)
}.
Definition valid (m : t) : bool :=
  (0 <? total m) && (0 <=? used m) && (0 <=? free m)
  && between_0_100 (percent m).
End DiskMetrics.

Module NetworkMetrics.
Record t : Type := {
  bytes_sent : Z;               (* ge=0 *)
  bytes_recv : Z;               (* ge=0 *)
  packets_sent : Z;             (* ge=0 *)
  packets_recv : Z;             (* ge=0 *)
  errin : Z;                    (* default 0, ge=0 *)
  errout : Z;                   (* default 0, ge=0 *)
  dropin : Z;                   (* default 0, ge=0 *)
  dropout : Z;                  (* default 0, ge=0 *)
}.
Definition valid (m : t) : bool :=
  (0 <=? bytes_sent m) && (0 <=? bytes_recv m) && (0 <=? packets_sent m)
  && (0 <=? packets_recv m) && (0 <=? errin m) && (0 <=? errout m)
  && (0 <=? dropin m) && (0 <=? dropout m).
End NetworkMetrics.

Module ProcessMetrics.
Record t : Type := {
  pid : Z;
  name : string;
  cpu_percent : Q;              (* ge=0 *)
  memory_percent : Q;           (* ge=0, le=100 *)
}.
Definition valid (m : t) : bool :=
  Qle_bool 0 (cpu_percent m) && between_0_100 (memory_percent m).
End ProcessMetrics.

(** [datetime.fromisoformat]; [None] stands for its [ValueError]. *)
Class IsoParser : Type := {
  fromisoformat : string -> option Z;
}.

(** [v.replace('Z', '+00:00')] *)
Fixpoint replace_Z (v : string) : string :=
  match v with
  | EmptyString => EmptyString
  | String c rest =>
      if Ascii.eqb c "Z"%char then "+00:00" ++ replace_Z rest
      else String c (replace_Z rest)
  end.

Module SystemMetrics.
Record t : Type := {
  timestamp : string;
  hostname : string;
  cpu : CPUMetrics.t;
  memory : MemoryMetrics.t;
  swap : SwapMetrics.t;
  disk : list DiskMetrics.t;
  network : option NetworkMetrics.t;
  top_processes : option (list ProcessMetrics.t);
  error : option string;
}.
Definition validate_timestamp `{parser : IsoParser} (v : string) : bool :=
  match fromisoformat (replace_Z v) with
  | Some _ => true
  | None => false               (* ValueError('Invalid timestamp format') *)
  end.
Definition valid `{parser : IsoParser} (m : t) : bool :=
  validate_timestamp (timestamp m)
  && CPUMetrics.valid (cpu m) && MemoryMetrics.valid (memory m)
  && SwapMetrics.valid (swap m) && forallb DiskMetrics.valid (disk m)
  && match network m with
     | Some n => NetworkMetrics.valid n
     | None => true
     end
  && match top_processes m with
     | Some ps => forallb ProcessMetrics.valid ps
     | None => true
     end.
End SystemMetrics.

Module MetricsPayload.
Record t : Type := {
  hostname : string;            (* min_length=1, max_length=255 *)
  metrics : SystemMetrics.t;
}.
Definition valid `{parser : IsoParser} (p : t) : bool :=
  (1 <=? String.length (hostname p))%nat
  && (String.length (hostname p) <=? 255)%nat
  && SystemMetrics.valid (metrics p).
End MetricsPayload.

(** [json.dumps] at the three call sites of [store_metrics]; [Raise]
    stands for the exception of an object that cannot be encoded. *)
Class JsonEncoder : Type := {
  dumps_disks : list DiskMetrics.t -> result string;
  dumps_network : NetworkMetrics.t -> result string;
  dumps_payload : MetricsPayload.t -> result string;
}.

(** *** MetricsDatabase over SQLite *)

(** A row of table [metrics]. *)
Record row : Type := {
  id : Z;
  timestamp : string;
  hostname : string;
  cpu_percent : Q;
  memory_percent : Q;
  memory_total : Z;
  memory_used : Z;
  swap_percent : Q;
  disk_data : string;
  network_data : option string;
  raw_data : string;
  created_at : Z;
}.

(** The content of the database file: the table, and the AUTOINCREMENT
    counter that SQLite keeps in [sqlite_sequence]. *)
Record database : Type := {
  rows : list row;
  sequence : Z;
}.

(** An open connection: what is on disk, and what the connection sees,
    which includes its own uncommitted changes. *)
Record connection : Type := {
  on_disk : database;
  in_transaction : database;
}.

(** Which of the SQLite calls of one operation fail, and the clock of the
    database engine. *)
Record environment : Type := {
  connect_fails : bool;
  execute_fails : bool;
  commit_fails : bool;
  current_timestamp : Z;
}.

Definition connect (db : database) : connection :=
  {| on_disk := db; in_transaction := db |}.

Definition rollback (conn : connection) : connection :=
  {| on_disk := on_disk conn; in_transaction := on_disk conn |}.

Definition close (conn : connection) : database := on_disk conn.

Definition commit (env : environment) (conn : connection)
    : connection * result unit :=
  if commit_fails env then (conn, Raise SqliteError)
  else ({| on_disk := in_transaction conn;
           in_transaction := in_transaction conn |}, Ok tt).

(** [conn.execute("INSERT INTO metrics (...) VALUES (...)", ...)]; [make]
    builds the row from the id and the default of [created_at]. *)
Definition execute_insert (env : environment) (make : Z -> Z -> row)
    (conn : connection) : connection * result unit :=
  if execute_fails env then (conn, Raise SqliteError)
  else
    let db := in_transaction conn in
    let new_id := sequence db + 1 in
    ({| on_disk := on_disk conn;
        in_transaction :=
          {| rows := (rows db ++ [make new_id (current_timestamp env)])%list;
             sequence := new_id |} |},
     Ok tt).

(** The context manager [_get_connection] around the body of a [with]. *)
Definition _get_connection {A} (env : environment) (db : database)
    (body : connection -> connection * result A) : database * result A :=
  if connect_fails env then (db, Raise SqliteError)   (* conn is None *)
  else
    let '(conn, r) := body (connect db) in
    match r with
    | Ok a => (close conn, Ok a)                       (* finally *)
    | Raise e => (close (rollback conn), Raise e)      (* except, finally *)
    end.

Section WithLibrary.

Context `{parser : IsoParser} `{encoder : JsonEncoder}.

(** The body of the [with] blocks of [store_metrics] (lines 172-199). *)
Definition store_body (env : environment) (payload : MetricsPayload.t)
    (conn : connection) : connection * result bool :=
  let metrics := MetricsPayload.metrics payload in
  match dumps_disks (SystemMetrics.disk metrics) with
  | Raise e => (conn, Raise e)
  | Ok disk_data =>
      match
        match SystemMetrics.network metrics with
        | Some n => x <- dumps_network n ;; Ok (Some x)
        | None => Ok None
        end
      with
      | Raise e => (conn, Raise e)
      | Ok network_data =>
        match dumps_payload payload with
        | Raise e => (conn, Raise e)
        | Ok raw_data =>
          let make new_id now :=
            {| id := new_id;
               timestamp := SystemMetrics.timestamp metrics;
               hostname := MetricsPayload.hostname payload;
               cpu_percent := CPUMetrics.percent (SystemMetrics.cpu metrics);
               memory_percent :=
                 MemoryMetrics.percent (SystemMetrics.memory metrics);
               memory_total :=
                 MemoryMetrics.total (SystemMetrics.memory metrics);
               memory_used := MemoryMetrics.used (SystemMetrics.memory metrics);
               swap_percent := SwapMetrics.percent (SystemMetrics.swap metrics);
               disk_data := disk_data;
               network_data := network_data;
               raw_data := raw_data;
               created_at := now |} in
          let '(conn, r) := execute_insert env make conn in
          match r with
          | Raise e => (conn, Raise e)
          | Ok _ =>
              let '(conn, r) := commit env conn in
              match r with
              | Raise e => (conn, Raise e)
              | Ok _ => (conn, Ok true)
              end
          end
        end
      end
  end.

Definition store_metrics (env : environment) (payload : MetricsPayload.t)
    (db : database) : database * bool :=
  let '(db, r) := _get_connection env db (store_body env payload) in
  match r with
  | Ok b => (db, b)
  | Raise _ => (db, false)       (* except Exception: log, return False *)
  end.

(** *** The /ingest endpoint *)

Record server : Type := {
  db : database;
  store_calls : nat;             (* calls of db.store_metrics so far *)
}.

(** The request body as FastAPI sees it. *)
Inductive body : Type :=
| NotAPayload                    (* not JSON, or not of the shape *)
| Payload (p : MetricsPayload.t).

(** The body of the [try] of the endpoint function (lines 302-309). *)
Definition ingest_try (env : environment) (payload : MetricsPayload.t)
    (srv : server) : server * result string :=
  let '(db', success) := store_metrics env payload (db srv) in
  let srv := {| db := db'; store_calls := S (store_calls srv) |} in
  if success then (srv, Ok "Metrics stored successfully")
  else (srv, Raise (HTTPException 500)).

(** The endpoint function: the [try] under its [except Exception], which
    also catches the HTTPException raised inside. *)
Definition ingest_metrics (env : environment) (payload : MetricsPayload.t)
    (srv : server) : server * result string :=
  let '(srv, r) := ingest_try env payload srv in
  match r with
  | Ok response => (srv, Ok response)
  | Raise _ => (srv, Raise (HTTPException 400))
  end.

(** The status of the response that FastAPI builds from the result of an
    endpoint function. *)
Definition status_of (r : result string) : Z :=
  match r with
  | Ok _ => 200
  | Raise (HTTPException code) => code
  | Raise _ => 500
  end.

(** POST /ingest: FastAPI parses and validates the body against
    [MetricsPayload] and answers 422 without calling the endpoint function
    when that fails. *)
Definition post_ingest (env : environment) (b : body) (srv : server)
    : server * Z :=
  match b with
  | NotAPayload => (srv, 422)
  | Payload p =>
      if MetricsPayload.valid p then
        let '(srv, r) := ingest_metrics env p srv in (srv, status_of r)
      else (srv, 422)
  end.

End WithLibrary.

End Server.

(** ** Concrete instances for the examples *)

Module Concrete.

(** Decimal digits of a non-negative integer. *)
Definition decimal (z : Z) : string :=
  NilZero.string_of_uint (N.to_uint (Z.to_N z)).

(** Nearest integer of a non-negative number, ties to even. *)
Definition round_half_even (x : Q) : Z :=
  let f := Qfloor x in
  let r := (x - inject_Z f)%Q in
  match (r ?= 1 # 2)%Q with
  | Lt => f
  | Gt => f + 1
  | Eq => if Z.even f then f else f + 1
  end.

(** [f"{q:.1f}"]: exact on the rational value of the float. *)
Definition format_1f (q : Q) : string :=
  let tenths := round_half_even (Qabs q * 10)%Q in
  (if Qltb q 0 then "-" else "")
    ++ decimal (tenths / 10) ++ "." ++ decimal (tenths mod 10).

(** [str(v)]: exact on strings, None and integer-valued numbers, which is
    all the examples print; other values get a placeholder. *)
Definition str (v : pyval) : string :=
  match v with
  | VNone => "None"
  | VStr s => s
  | VNum q =>
      let r := Qred q in
      if (Qden r =? 1)%positive then
        (if Qnum r <? 0 then "-" else "") ++ decimal (Z.abs (Qnum r))
      else format_1f q
  | VList _ => "[...]"
  | VDict _ => "{...}"
  end.

(** A deterministic stand-in for [hash]: CPython salts the hash of strings
    per process, so a run is determined only up to which strings it
    separates. *)
Definition poly_hash (s : string) : Z :=
  fold_left (fun h c => (h * 31 + Z.of_nat (nat_of_ascii c)) mod (2 ^ 61 - 1))
    (list_ascii_of_string s) 7.

Definition builtins : Builtins :=
  {| fmt_1f := format_1f; py_str := str; py_hash := poly_hash |}.

(** The thresholds and alert settings of the test configuration. *)
Definition test_config : Collector.config :=
  {| Collector.thresholds :=
       <["cpu" := 80%Q]> (<["memory" := 85%Q]> (<["disk" := 90%Q]>
         (<["swap" := 50%Q]> ∅)));
     Collector.alerts_enabled := true;
     Collector.cooldown_minutes := 5;
     Collector.channels := ["log"];
     Collector.slack_webhook_url := None;
     Collector.max_retries := 3;
     Collector.retry_delay := 1;
     Collector.interval_seconds := 30 |}.

Definition with_alerts_disabled (cfg : Collector.config) : Collector.config :=
  {| Collector.thresholds := Collector.thresholds cfg;
     Collector.alerts_enabled := false;
     Collector.cooldown_minutes := Collector.cooldown_minutes cfg;
     Collector.channels := Collector.channels cfg;
     Collector.slack_webhook_url := Collector.slack_webhook_url cfg;
     Collector.max_retries := Collector.max_retries cfg;
     Collector.retry_delay := Collector.retry_delay cfg;
     Collector.interval_seconds := Collector.interval_seconds cfg |}.

Definition with_delivery (n : Z) (delay : Q) (cfg : Collector.config)
    : Collector.config :=
  {| Collector.thresholds := Collector.thresholds cfg;
     Collector.alerts_enabled := Collector.alerts_enabled cfg;
     Collector.cooldown_minutes := Collector.cooldown_minutes cfg;
     Collector.channels := Collector.channels cfg;
     Collector.slack_webhook_url := Collector.slack_webhook_url cfg;
     Collector.max_retries := n;
     Collector.retry_delay := delay;
     Collector.interval_seconds := Collector.interval_seconds cfg |}.

Definition with_interval (T : Q) (cfg : Collector.config)
    : Collector.config :=
  {| Collector.thresholds := Collector.thresholds cfg;
     Collector.alerts_enabled := Collector.alerts_enabled cfg;
     Collector.cooldown_minutes := Collector.cooldown_minutes cfg;
     Collector.channels := Collector.channels cfg;
     Collector.slack_webhook_url := Collector.slack_webhook_url cfg;
     Collector.max_retries := Collector.max_retries cfg;
     Collector.retry_delay := Collector.retry_delay cfg;
     Collector.interval_seconds := T |}.

(** An endpoint that always answers, and the endpoint of the retry test:
    two transport-level errors, then success. *)
Definition always_up : nat -> outcome := fun _ => Returns.

Definition flaky : nat -> outcome :=
  fun n => if (n <? 2)%nat then Raises RequestException else Returns.

(** A host whose clocks advance by one second per reading, that reports
    [snapshot] at every collection, and whose endpoint answers the n-th
    POST with [answers n]. *)
Definition host (snapshot : list (string * pyval)) (answers : nat -> outcome)
    : Collector.world :=
  {| Collector.hostname := "web-1";
     Collector.utcnow := fun n => Z.of_nat n * 1000000;
     Collector.time_time := fun n => inject_Z (Z.of_nat n);
     Collector.collect_metrics := fun _ => snapshot;
     Collector.endpoint_post := answers;
     Collector.slack_post := fun _ => Returns;
     Collector.running_at := fun _ => true;
     Collector.os_sleep := fun _ => Returns |}.

(** The same host with clocks that advance by ten minutes per reading. *)
Definition slow_host (snapshot : list (string * pyval))
    (answers : nat -> outcome) : Collector.world :=
  {| Collector.hostname := "web-1";
     Collector.utcnow := fun n => Z.of_nat n * 600000000;
     Collector.time_time := fun n => inject_Z (Z.of_nat n * 600);
     Collector.collect_metrics := fun _ => snapshot;
     Collector.endpoint_post := answers;
     Collector.slack_post := fun _ => Returns;
     Collector.running_at := fun _ => true;
     Collector.os_sleep := fun _ => Returns |}.

Definition cpu_at (percent : Q) : list (string * pyval) :=
  [("cpu", VDict [("percent", VNum percent)])].

Definition two_mounts : list (string * pyval) :=
  [("disk", VList [VDict [("mountpoint", VStr "/"); ("percent", VNum 95)];
                   VDict [("mountpoint", VStr "/home"); ("percent", VNum 50)]])].

(** An AlertManager with a Slack channel that lacks its URL, followed by
    the log channel; its clock advances by one minute per reading. *)
Definition router_config : AlertManager.config :=
  {| AlertManager.cooldown_minutes := 5;
     AlertManager.channels := ["slack"; "log"];
     AlertManager.slack_webhook_url := None;
     AlertManager.webhook_url := None;
     AlertManager.email_complete := false |}.

Definition router_world : AlertManager.world :=
  {| AlertManager.utcnow := fun n => Z.of_nat n * 60000000;
     AlertManager.network := fun _ => Returns |}.

(** The same router with a clock that advances by ten minutes per reading. *)
Definition slow_router_world : AlertManager.world :=
  {| AlertManager.utcnow := fun n => Z.of_nat n * 600000000;
     AlertManager.network := fun _ => Returns |}.

(** *** The ingestion server *)

Definition is_digit (c : ascii) : bool :=
  (48 <=? nat_of_ascii c)%nat && (nat_of_ascii c <=? 57)%nat.

(** A stand-in for [datetime.fromisoformat] that looks at the date only:
    it accepts the texts that start with [YYYY-MM-DD]. *)
Definition date_prefix (v : string) : option Z :=
  match list_ascii_of_string v with
  | y1 :: y2 :: y3 :: y4 :: d1 :: m1 :: m2 :: d2 :: a1 :: a2 :: _ =>
      if forallb is_digit [y1; y2; y3; y4; m1; m2; a1; a2]
         && Ascii.eqb d1 "-" && Ascii.eqb d2 "-"
      then Some 0 else None
  | _ => None
  end.

Definition iso_parser : Server.IsoParser :=
  {| Server.fromisoformat := date_prefix |}.

Definition json_encoder : Server.JsonEncoder :=
  {| Server.dumps_disks := fun _ => Ok "[disks]";
     Server.dumps_network := fun _ => Ok "{network}";
     Server.dumps_payload := fun _ => Ok "{payload}" |}.

(** The payload of the ingestion tests. *)
Definition sample_metrics (stamp : string) (cpu_percent : Q)
    : Server.SystemMetrics.t :=
  {| Server.SystemMetrics.timestamp := stamp;
     Server.SystemMetrics.hostname := "test-host";
     Server.SystemMetrics.cpu :=
       {| Server.CPUMetrics.percent := cpu_percent;
          Server.CPUMetrics.count := 4;
          Server.CPUMetrics.count_logical := 8;
          Server.CPUMetrics.load_avg := None |};
     Server.SystemMetrics.memory :=
       {| Server.MemoryMetrics.total := 8589934592;
          Server.MemoryMetrics.available := 4294967296;
          Server.MemoryMetrics.percent := 50;
          Server.MemoryMetrics.used := 4294967296;
          Server.MemoryMetrics.free := 4294967296;
          Server.MemoryMetrics.buffers := 0;
          Server.MemoryMetrics.cached := 0 |};
     Server.SystemMetrics.swap :=
       {| Server.SwapMetrics.total := 0;
          Server.SwapMetrics.used := 0;
          Server.SwapMetrics.free := 0;
          Server.SwapMetrics.percent := 0 |};
     Server.SystemMetrics.disk :=
       [{| Server.DiskMetrics.device := "/dev/sda1";
           Server.DiskMetrics.mountpoint := "/";
           Server.DiskMetrics.fstype := "ext4";
           Server.DiskMetrics.total := 107374182400;
           Server.DiskMetrics.used := 53687091200;
           Server.DiskMetrics.free := 53687091200;
           Server.DiskMetrics.percent := 50 |}];
     Server.SystemMetrics.network := None;
     Server.SystemMetrics.top_processes := None;
     Server.SystemMetrics.error := None |}.

Definition sample_payload (stamp : string) (cpu_percent : Q)
    : Server.MetricsPayload.t :=
  {| Server.MetricsPayload.hostname := "test-host";
     Server.MetricsPayload.metrics := sample_metrics stamp cpu_percent |}.

Definition good : Server.MetricsPayload.t :=
  sample_payload "2024-01-01T12:00:00+00:00" (91 # 2).

Definition healthy : Server.environment :=
  {| Server.connect_fails := false; Server.execute_fails := false;
     Server.commit_fails := false; Server.current_timestamp := 1700000000 |}.

Definition commit_broken : Server.environment :=
  {| Server.connect_fails := false; Server.execute_fails := false;
     Server.commit_fails := true; Server.current_timestamp := 1700000000 |}.

Definition empty_server : Server.server :=
  {| Server.db := {| Server.rows := []; Server.sequence := 0 |};
     Server.store_calls := 0 |}.

End Concrete.

(** ** Vocabulary of the statements *)

Module Spec.

Import Collector.

Inductive scalar_family : Type := Cpu | Memory | Swap.

Definition family_key (f : scalar_family) : string :=
  match f with
  | Cpu => "cpu"
  | Memory => "memory"
  | Swap => "swap"
  end.

Definition family_label (f : scalar_family) : string :=
  match f with
  | Cpu => "High CPU usage: "
  | Memory => "High memory usage: "
  | Swap => "High swap usage: "
  end.

Section WithBuiltins.

Context `{py : Builtins}.

(** The messages that one call of [check_alerts] appends to
    [alerts_triggered] for a family: none when the call returns at the
    test of line 196, the result of the family's block otherwise. *)
Definition triggered_scalar (cfg : config) (f : scalar_family)
    (metrics : list (string * pyval)) : result (list string) :=
  if negb (alerts_enabled cfg) then Ok []
  else check_scalar cfg (family_key f) (family_label f) metrics.

Definition triggered_disk (cfg : config) (metrics : list (string * pyval))
    : result (list string) :=
  if negb (alerts_enabled cfg) then Ok [] else check_disk cfg metrics.

(** The four families of [check_alerts]. *)
Inductive family : Type :=
| Scalar (f : scalar_family)
| Disk.

Definition key_of (fam : family) : string :=
  match fam with
  | Scalar f => family_key f
  | Disk => "disk"
  end.

Definition triggered (cfg : config) (fam : family)
    (metrics : list (string * pyval)) : result (list string) :=
  match fam with
  | Scalar f => triggered_scalar cfg f metrics
  | Disk => triggered_disk cfg metrics
  end.

Definition scalar_message (f : scalar_family) (percent limit : Q) : string :=
  family_label f ++ fmt_1f percent ++ "% (threshold: "
    ++ py_str (VNum limit) ++ "%)".

(** The [percent] of a mount entry that has one. *)
Definition mount_percent (disk : pyval) : option pyval :=
  match disk with
  | VDict d => dict_get d "percent"
  | _ => None
  end.

(** A mount entry whose [percent], if any, is a number. *)
Definition mount_typed (disk : pyval) : bool :=
  match mount_percent disk with
  | Some (VNum _) | None => true
  | Some _ => false
  end.

Definition over_threshold (limit : Q) (disk : pyval) : bool :=
  match mount_percent disk with
  | Some (VNum percent) => Qgtb percent limit
  | _ => false
  end.

Definition disk_message (limit : Q) (disk : pyval) : string :=
  match disk with
  | VDict d =>
      match dict_get d "percent" with
      | Some (VNum percent) =>
          "High disk usage on "
            ++ py_str (default (VStr "unknown") (dict_get d "mountpoint"))
            ++ ": " ++ fmt_1f percent ++ "% (threshold: "
            ++ py_str (VNum limit) ++ "%)"
      | _ => ""
      end
  | _ => ""
  end.

End WithBuiltins.

Section DeliveryVocabulary.

Context `{py : Builtins}.

(** Whether the alert check of an attempt raises: [check_alerts] raises
    exactly when alerting is enabled and a threshold block raises. *)
Definition evaluation (cfg : config) (metrics : list (string * pyval))
    : result unit :=
  if negb (alerts_enabled cfg) then Ok tt
  else
    match alerts_triggered cfg metrics with
    | Ok _ => Ok tt
    | Raise e => Raise e
    end.

(** What the attempt that makes the [i_collect]-th call of
    [collect_metrics] and, if it gets that far, the [i_post]-th POST ends
    in. *)
Definition attempt_result (cfg : config) (w : world) (i_collect i_post : nat)
    : result unit :=
  match evaluation cfg (collect_metrics w i_collect) with
  | Raise e => Raise e
  | Ok _ =>
      match endpoint_post w i_post with
      | Returns => Ok tt
      | Raises e => Raise e
      end
  end.

(** The first [j] attempts from [st] on all end in a transport-level
    error. *)
Definition transport_failures (cfg : config) (w : world) (st : state)
    (j : nat) : Prop :=
  forall i, (i < j)%nat ->
    attempt_result cfg w (n_collect st + i) (n_post st + i)
    = Raise RequestException.

End DeliveryVocabulary.

(** The counters of the delivery path, which alerting leaves alone. *)
Definition same_delivery_counters (st st' : state) : Prop :=
  n_post st' = n_post st /\ n_collect st' = n_collect st
  /\ n_time st' = n_time st /\ n_loop st' = n_loop st.

(** The alerts that a trace of the collector shows as logged. *)
Definition logged_alert (e : event) : option string :=
  match e with
  | LogAlert message => Some message
  | _ => None
  end.

(** The channel that an event of the collector shows as attempted: the two
    channels with an effect of their own are slack and email. *)
Definition channel_attempt (e : event) : option string :=
  match e with
  | SlackPost _ | LogSlackNotConfigured => Some "slack"
  | LogEmailAlert _ => Some "email"
  | _ => None
  end.

Definition has_effect (channel : string) : bool :=
  String.eqb channel "slack" || String.eqb channel "email".

(** The time that a trace shows as slept. *)
Definition slept (tr : list event) : Q :=
  fold_right (fun e total => match e with
                             | Sleep seconds => (seconds + total)%Q
                             | _ => total
                             end) 0%Q tr.

(** The channel that an event of the AlertManager closes, and whether its
    send succeeded: every iteration of the channel loop ends in exactly one
    such event. *)
Definition channel_result (e : AlertManager.event) : option (string * bool) :=
  match e with
  | AlertManager.LogSent channel => Some (channel, true)
  | AlertManager.LogAlert _ => Some ("log", true)
  | AlertManager.LogUnknownChannel channel => Some (channel, true)
  | AlertManager.LogSendFailed channel _ => Some (channel, false)
  | _ => None
  end.

(** The deliveries in a trace of the AlertManager. *)
Definition delivery (e : AlertManager.event) : bool :=
  match e with
  | AlertManager.LogAlert _ | AlertManager.SlackPost _
  | AlertManager.SmtpSend _ | AlertManager.WebhookPost _ => true
  | _ => false
  end.

(** The time that an unsuppressed [send_alert] writes into the history: the
    clock reading of [_update_alert_history]. *)
Definition fired_at (cfg : AlertManager.config) (w : AlertManager.world)
    (alert_type hostname : string) (st : AlertManager.state) : Z :=
  AlertManager.utcnow w
    (AlertManager.n_utcnow
       (fst (AlertManager._is_in_cooldown cfg w alert_type hostname st))).

(** Seconds between two clock readings. *)
Definition seconds_between (now last : Z) : Q :=
  (inject_Z (now - last) / 1000000)%Q.

(** *** The ingestion server *)

Section ServerVocabulary.

Import Server.
Context `{parser : IsoParser} `{encoder : JsonEncoder}.

(** The three encodings of [store_metrics] all succeed. *)
Definition encodes (payload : MetricsPayload.t) : bool :=
  match dumps_disks (SystemMetrics.disk (MetricsPayload.metrics payload)),
        match SystemMetrics.network (MetricsPayload.metrics payload) with
        | Some n => dumps_network n
        | None => Ok ""
        end,
        dumps_payload payload
  with
  | Ok _, Ok _, Ok _ => true
  | _, _, _ => false
  end.

(** One of the SQLite calls of the operation fails. *)
Definition write_fails (env : environment) : bool :=
  connect_fails env || execute_fails env || commit_fails env.

Definition out_of_range (x : Q) : Prop := (x < 0)%Q \/ (100 < x)%Q.

(** The validation failures that the interface description lists, field by
    field as the models declare them. *)
Inductive listed_failure (p : MetricsPayload.t) : Prop :=
| cpu_percent_out_of_range :
    out_of_range (CPUMetrics.percent (SystemMetrics.cpu (MetricsPayload.metrics p))) ->
    listed_failure p
| memory_percent_out_of_range :
    out_of_range
      (MemoryMetrics.percent (SystemMetrics.memory (MetricsPayload.metrics p))) ->
    listed_failure p
| swap_percent_out_of_range :
    out_of_range (SwapMetrics.percent (SystemMetrics.swap (MetricsPayload.metrics p))) ->
    listed_failure p
| disk_percent_out_of_range (d : DiskMetrics.t) :
    In d (SystemMetrics.disk (MetricsPayload.metrics p)) ->
    out_of_range (DiskMetrics.percent d) ->
    listed_failure p
| memory_total_not_positive :
    MemoryMetrics.total (SystemMetrics.memory (MetricsPayload.metrics p)) <= 0 ->
    listed_failure p
| disk_total_not_positive (d : DiskMetrics.t) :
    In d (SystemMetrics.disk (MetricsPayload.metrics p)) ->
    DiskMetrics.total d <= 0 ->
    listed_failure p
| swap_total_negative :
    SwapMetrics.total (SystemMetrics.swap (MetricsPayload.metrics p)) < 0 ->
    listed_failure p
| timestamp_unparseable :
    fromisoformat
      (replace_Z (SystemMetrics.timestamp (MetricsPayload.metrics p))) = None ->
    listed_failure p.

(** The request body does not pass FastAPI's validation. *)
Definition fails_validation (b : body) : Prop :=
  match b with
  | NotAPayload => True
  | Payload p => MetricsPayload.valid p = false
  end.

Definition client_error (status : Z) : Prop := 400 <= status < 500.

End ServerVocabulary.

End Spec.

(** ** cloud_ingestion/server.py: the read path and retention *)

Module Queries.

Import Server.

(** What the queries need from SQLite.  [datetime_seconds] is the value of
    [datetime(?)] on the ISO text of a Python datetime (given in
    microseconds), in the unit of [created_at]; [order_by_created_desc] is
    [ORDER BY created_at DESC], whose order among equal keys SQL leaves
    open; [avg] is [AVG] over a non-empty REAL column, a floating-point
    sum. *)
Class Engine : Type := {
  datetime_seconds : Z -> Z;
  order_by_created_desc : list row -> list row;
  avg : list Q -> Q;
}.

(** The range of [datetime], in microseconds since the epoch, and of the
    days of a [timedelta]. *)
Definition datetime_min : Z := -62135596800000000.
Definition datetime_max : Z := 253402300799999999.
Definition timedelta_max_days : Z := 999999999.

(** [timedelta(hours=h)] and [timedelta(days=d)], in microseconds; [None]
    stands for OverflowError. *)
Definition timedelta_hours (h : Z) : option Z :=
  if (- timedelta_max_days <=? h / 24) && (h / 24 <=? timedelta_max_days)
  then Some (h * 3600000000) else None.

Definition timedelta_days (d : Z) : option Z :=
  if (- timedelta_max_days <=? d) && (d <=? timedelta_max_days)
  then Some (d * 86400000000) else None.

(** [now - delta] on a datetime; [None] stands for OverflowError. *)
Definition datetime_sub (now delta : Z) : option Z :=
  if (datetime_min <=? now - delta) && (now - delta <=? datetime_max)
  then Some (now - delta) else None.

(** [datetime.utcnow() - timedelta(hours=hours)] *)
Definition since_time (now hours : Z) : option Z :=
  match timedelta_hours hours with
  | Some delta => datetime_sub now delta
  | None => None
  end.

(** [datetime.utcnow() - timedelta(days=days_to_keep)] *)
Definition cutoff_date (now days_to_keep : Z) : option Z :=
  match timedelta_days days_to_keep with
  | Some delta => datetime_sub now delta
  | None => None
  end.

(** [MAX] over a column: NULL on no row. *)
Definition max_of (column : list Q) : option Q :=
  match column with
  | [] => None
  | x :: rest => Some (fold_left (fun m y => if Qgtb y m then y else m) rest x)
  end.

(** The row that [get_summary_stats] returns. *)
Record summary : Type := {
  total_records : nat;
  avg_cpu : option Q;
  max_cpu : option Q;
  avg_memory : option Q;
  max_memory : option Q;
  avg_swap : option Q;
  max_swap : option Q;
}.

Section WithEngine.

Context `{engine : Engine}.

(** The exception of the date arithmetic, in CPython OverflowError; every
    handler that meets it is an [except Exception], so that what follows
    holds whichever exception it is. *)
Variable OverflowError : exn.

(** [datetime(created_at) > datetime(?)] *)
Definition in_window (since : Z) (r : row) : bool :=
  datetime_seconds since <? created_at r.

(** [datetime(created_at) < datetime(?)] *)
Definition older_than (cutoff : Z) (r : row) : bool :=
  created_at r <? datetime_seconds cutoff.

(** The [WHERE] clause chosen by [if hostname:]: None and the empty string
    select the query without the hostname test. *)
Definition selected (hostname : option string) (since : Z) (r : row) : bool :=
  match hostname with
  | None | Some "" => in_window since r
  | Some h => String.eqb (Server.hostname r) h && in_window since r
  end.

Definition get_recent_metrics (env : environment) (now : Z)
    (hostname : option string) (hours : Z) (db : database) : list row :=
  let '(_, r) :=
    _get_connection env db
      (fun conn =>
         match since_time now hours with
         | None => (conn, Raise OverflowError)
         | Some since =>
             if execute_fails env then (conn, Raise SqliteError)
             else
               (conn,
                Ok (firstn 1000
                      (order_by_created_desc
                         (List.filter (selected hostname since)
                            (rows (in_transaction conn))))))
         end) in
  match r with
  | Ok metrics => metrics
  | Raise _ => []               (* except Exception: log, return [] *)
  end.

Definition avg_of (column : list Q) : option Q :=
  match column with
  | [] => None
  | _ => Some (avg column)
  end.

(** [None] stands for the empty dict of the [except] clause. *)
Definition get_summary_stats (env : environment) (now : Z)
    (hostname : option string) (hours : Z) (db : database) : option summary :=
  let '(_, r) :=
    _get_connection env db
      (fun conn =>
         match since_time now hours with
         | None => (conn, Raise OverflowError)
         | Some since =>
             if execute_fails env then (conn, Raise SqliteError)
             else
               let found :=
                 List.filter (selected hostname since)
                   (rows (in_transaction conn)) in
               (conn,
                Ok {| total_records := length found;
                      avg_cpu := avg_of (map cpu_percent found);
                      max_cpu := max_of (map cpu_percent found);
                      avg_memory := avg_of (map memory_percent found);
                      max_memory := max_of (map memory_percent found);
                      avg_swap := avg_of (map swap_percent found);
                      max_swap := max_of (map swap_percent found) |})
         end) in
  match r with
  | Ok stats => Some stats
  | Raise _ => None
  end.

(** The body of the [with] blocks of [cleanup_old_data] (lines 268-281). *)
Definition cleanup_body (env : environment) (now days_to_keep : Z)
    (conn : connection) : connection * result nat :=
  match cutoff_date now days_to_keep with
  | None => (conn, Raise OverflowError)
  | Some cutoff =>
      if execute_fails env then (conn, Raise SqliteError)
      else
        let before := in_transaction conn in
        let deleted_count :=
          length (List.filter (older_than cutoff) (rows before)) in
        let conn :=
          {| on_disk := on_disk conn;
             in_transaction :=
               {| rows := List.filter (fun r => negb (older_than cutoff r))
                            (rows before);
                  sequence := sequence before |} |} in
        let '(conn, r) := commit env conn in
        match r with
        | Raise e => (conn, Raise e)
        | Ok _ => (conn, Ok deleted_count)
        end
  end.

Definition cleanup_old_data (env : environment) (now days_to_keep : Z)
    (db : database) : database * nat :=
  let '(db, r) := _get_connection env db (cleanup_body env now days_to_keep) in
  match r with
  | Ok deleted_count => (db, deleted_count)
  | Raise _ => (db, 0%nat)      (* except Exception: log, return 0 *)
  end.

(** *** The read and cleanup endpoints: status and body *)

(** GET /metrics (lines 322-331): the handler for 500 has nothing to catch,
    [get_recent_metrics] returns in every case. *)
Definition get_metrics (env : environment) (now : Z)
    (hostname : option string) (hours : Z) (srv : server)
    : Z * (nat * list row) :=
  let metrics := get_recent_metrics env now hostname hours (db srv) in
  (200, (length metrics, metrics)).

(** GET /metrics/summary (lines 340-350) *)
Definition get_metrics_summary (env : environment) (now : Z)
    (hostname : option string) (hours : Z) (srv : server)
    : Z * option summary :=
  (200, get_summary_stats env now hostname hours (db srv)).

(** POST /cleanup (lines 364-373) *)
Definition cleanup_data (env : environment) (now days_to_keep : Z)
    (srv : server) : server * (Z * nat) :=
  let '(db', deleted_count) := cleanup_old_data env now days_to_keep (db srv) in
  ({| db := db'; store_calls := store_calls srv |}, (200, deleted_count)).

End WithEngine.

(** The database that [_init_database] creates. *)
Definition empty_database : database := {| rows := []; sequence := 0 |}.

(** Ids are handed out in increasing order and never exceed the counter of
    [sqlite_sequence]. *)
Definition well_formed (db : database) : Prop :=
  StronglySorted (fun r1 r2 => id r1 < id r2) (rows db)
  /\ Forall (fun r => 0 < id r <= sequence db) (rows db)
  /\ 0 <= sequence db.

(** A mutating operation of the store, with what the world gives it. *)
Inductive operation : Type :=
| Store (env : environment) (payload : MetricsPayload.t)
| Cleanup (env : environment) (now days_to_keep : Z).

Section Operations.

Context `{encoder : JsonEncoder} `{engine : Engine}.
Variable OverflowError : exn.

Definition apply_operation (db : database) (op : operation) : database :=
  match op with
  | Store env payload => fst (store_metrics env payload db)
  | Cleanup env now days_to_keep =>
      fst (cleanup_old_data OverflowError env now days_to_keep db)
  end.

(** The operations one after the other, as the lock serialises them. *)
Definition apply_operations (db : database) (ops : list operation) : database :=
  fold_left apply_operation ops db.

End Operations.

(** A request that can change the store, with what the world gives it. *)
Inductive request : Type :=
| PostIngest (env : environment) (b : body)
| PostCleanup (env : environment) (now days_to_keep : Z).

Section Requests.

Context `{parser : IsoParser} `{encoder : JsonEncoder} `{engine : Engine}.
Variable OverflowError : exn.

Definition handle (srv : server) (req : request) : server :=
  match req with
  | PostIngest env b => fst (post_ingest env b srv)
  | PostCleanup env now days_to_keep =>
      fst (cleanup_data OverflowError env now days_to_keep srv)
  end.

Definition handle_all (srv : server) (reqs : list request) : server :=
  fold_left handle reqs srv.

End Requests.

(** The bounds that the models of lines 38-105 put on the columns of a
    row. *)
Definition in_range (r : row) : Prop :=
  (0 <= cpu_percent r)%Q /\ (cpu_percent r <= 100)%Q
  /\ (0 <= memory_percent r)%Q /\ (memory_percent r <= 100)%Q
  /\ (0 <= swap_percent r)%Q /\ (swap_percent r <= 100)%Q
  /\ 0 < memory_total r /\ 0 <= memory_used r
  /\ (1 <= String.length (hostname r) <= 255)%nat.

(** What SQL promises of [ORDER BY created_at DESC]. *)
Definition orders_newest_first `{engine : Engine} : Prop :=
  (forall l, Permutation (order_by_created_desc l) l)
  /\ (forall l, StronglySorted (fun r1 r2 => created_at r2 <= created_at r1)
                  (order_by_created_desc l)).

(** The calls of a read all go through. *)
Definition readable (env : environment) : Prop :=
  connect_fails env = false /\ execute_fails env = false.

(** The calls of a write all go through. *)
Definition writable (env : environment) : Prop :=
  connect_fails env = false /\ execute_fails env = false
  /\ commit_fails env = false.

End Queries.

(** ** metric_collector/collector.py: _load_config *)

Module Loader.

(** [key in text] on two strings: [key] occurs in [text]. *)
Fixpoint is_substring (key text : string) : bool :=
  String.prefix key text
  || match text with
     | EmptyString => false
     | String _ rest => is_substring key rest
     end.

(** [key in v]: a key of a dict, an item of a list, a part of a string;
    [None] stands for the TypeError on a value that is no container. *)
Definition py_contains (key : string) (v : pyval) : option bool :=
  match v with
  | VDict d => Some (match dict_get d key with
                     | Some _ => true
                     | None => false
                     end)
  | VList l =>
      Some (existsb (fun x => match x with
                              | VStr s => String.eqb s key
                              | _ => false
                              end) l)
  | VStr s => Some (is_substring key s)
  | VNum _ | VNone => None
  end.

Definition required_sections : list string :=
  ["endpoint"; "interval_seconds"; "thresholds"].

(** The loop of lines 43-45; [None] stands for an exception, the ValueError
    of a missing section or the TypeError of [py_contains]. *)
Fixpoint check_required (config : pyval) (sections : list string)
    : option unit :=
  match sections with
  | [] => Some tt
  | section :: rest =>
      match py_contains section config with
      | Some true => check_required config rest
      | Some false | None => None
      end
  end.

(** [d.setdefault(key, value)] on the items of a dict. *)
Definition setdefault (key : string) (value : pyval)
    (d : list (string * pyval)) : list (string * pyval) :=
  match dict_get d key with
  | Some _ => d
  | None => (d ++ [(key, value)])%list
  end.

(** How [_load_config] ends: with the configuration, or in [sys.exit]. *)
Inductive loaded : Type :=
| Config (config : list (string * pyval))
| Exit (code : Z).

Section WithDefaults.

(** The two literals of lines 48-57; they hold booleans, which [pyval] does
    not have, and nothing below looks inside them. *)
Variable default_alerts : pyval.
Variable default_metrics : pyval.

(** The body of the [try].  [file] is what lines 34-39 find: no file, a
    file that cannot be read as YAML, or the parsed document. *)
Definition load_body (file : option (option pyval))
    : option (list (string * pyval)) :=
  match file with
  | None => None                         (* FileNotFoundError *)
  | Some None => None                    (* open or yaml.safe_load raises *)
  | Some (Some config) =>
      match check_required config required_sections with
      | None => None
      | Some _ =>
          match config with
          | VDict d =>
              Some (setdefault "metrics" default_metrics
                      (setdefault "alerts" default_alerts d))
          | _ => None                    (* no setdefault on a non-dict *)
          end
      end
  end.

Definition _load_config (file : option (option pyval)) : loaded :=
  match load_body file with
  | Some config => Config config
  | None => Exit 1                       (* except Exception: print, exit *)
  end.

End WithDefaults.

End Loader.

(** ** Vocabulary of the collector's runs *)

Module Progress.

Import Collector.

(** The length of a sleep that a trace shows. *)
Definition pause (e : event) : option Q :=
  match e with
  | Sleep seconds => Some seconds
  | _ => None
  end.

(** [st'] is a later state of the process that was in [st]: what has
    happened is still in the trace, and every key of the cooldown map is
    still there. *)
Definition continues (st st' : state) : Prop :=
  (exists new, trace st' = (trace st ++ new)%list)
  /\ forall key, is_Some (alert_cooldown st !! key) ->
                 is_Some (alert_cooldown st' !! key).

(** [st'] is a later state within the loop iteration of [st]. *)
Definition advances (st st' : state) : Prop :=
  continues st st' /\ n_loop st' = n_loop st.

(** The readings [lo], ..., [hi - 1] of the clock lie within one cooldown
    window of each other. *)
Definition quiet (cfg : config) (w : world) (lo hi : nat) : Prop :=
  forall i j, (lo <= i < hi)%nat -> (lo <= j < hi)%nat ->
    (minutes_between (utcnow w j) (utcnow w i) < cooldown_minutes cfg)%Q.

(** Every entry of the cooldown map lies within the window at each of
    these readings. *)
Definition all_recent (cfg : config) (w : world) (lo hi : nat) (st : state)
    : Prop :=
  forall key last j,
    alert_cooldown st !! key = Some last -> (lo <= j < hi)%nat ->
    (minutes_between (utcnow w j) last < cooldown_minutes cfg)%Q.

(** The label that opens the disk messages, and the alerts of a list
    that open with a given label.  The four labels differ at their sixth
    character, so that no message opens with the label of another
    family. *)
Definition disk_label : string := "High disk usage on ".

Definition labelled (label : string) (alerts : list string) : list string :=
  List.filter (String.prefix label) alerts.

End Progress.

(** ** Further instances and vocabulary *)

Module Samples.

Import Server Queries.

(** Insertion of a row into a list that is ordered newest first; equal keys
    keep their order of arrival. *)
Fixpoint insert_desc (r : row) (sorted : list row) : list row :=
  match sorted with
  | [] => [r]
  | x :: rest =>
      if created_at x <? created_at r then r :: x :: rest
      else x :: insert_desc r rest
  end.

Definition sort_desc (l : list row) : list row :=
  fold_right insert_desc [] l.

Definition mean (column : list Q) : Q :=
  (fold_right Qplus 0 column / inject_Z (Z.of_nat (length column)))%Q.

(** An engine that reads datetimes by dropping the fraction of the second,
    orders by insertion and averages exactly. *)
Definition engine : Engine :=
  {| datetime_seconds := fun t => t / 1000000;
     order_by_created_desc := sort_desc;
     avg := mean |}.

(** A row of host [host] with cpu at [cpu], created at second [created]. *)
Definition row_of (key : Z) (host : string) (cpu : Q) (created : Z) : row :=
  {| id := key; timestamp := "2024-01-01T12:00:00"; hostname := host;
     cpu_percent := cpu; memory_percent := 50; memory_total := 8589934592;
     memory_used := 4294967296; swap_percent := 0; disk_data := "[]";
     network_data := None; raw_data := "{}"; created_at := created |}.

(** Three rows of two hosts, one second apart. *)
Definition three_rows : database :=
  {| rows := [row_of 1 "a" 50 1700000000; row_of 2 "b" 60 1700000001;
              row_of 3 "a" 70 1700000002];
     sequence := 3 |}.

(** A reading of the clock, in microseconds, one hour after these rows. *)
Definition an_hour_later : Z := 1700003600000000.

Definition select_broken : environment :=
  {| connect_fails := false; execute_fails := true; commit_fails := false;
     current_timestamp := 1700003600 |}.

Definition later : environment :=
  {| connect_fails := false; execute_fails := false; commit_fails := false;
     current_timestamp := 1700003600 |}.

(** A reading of the clock one day and one second after the first of the
    three rows. *)
Definition a_day_later : Z := 1700086401000000.

(** Requests and operations on the store, one after the other. *)
Definition empty_then_store : list operation :=
  [Cleanup later 1800000000000000 0; Store Concrete.healthy Concrete.good].

Definition ingest_and_clean : list request :=
  [PostIngest Concrete.commit_broken (Payload Concrete.good);
   PostIngest Concrete.healthy (Payload Concrete.good);
   PostCleanup later a_day_later 1;
   PostIngest later (Payload Concrete.good)].

(** A configuration document with the three required sections only. *)
Definition minimal_document : list (string * pyval) :=
  [("endpoint", VDict [("url", VStr "http://localhost:8000/ingest")]);
   ("interval_seconds", VNum 30);
   ("thresholds", VDict [("cpu", VNum 80)])].

(** A snapshot whose memory block holds a text where a number belongs. *)
Definition bad_memory : list (string * pyval) :=
  [("cpu", VDict [("percent", VNum 95)]);
   ("memory", VDict [("percent", VStr "high")])].

(** The endpoint that never answers. *)
Definition always_down : nat -> outcome := fun _ => Raises RequestException.

(** A host that runs for two tests of its flag and is then told to stop. *)
Definition stopping_host : Collector.world :=
  {| Collector.hostname := "web-1";
     Collector.utcnow := fun n => Z.of_nat n * 1000000;
     Collector.time_time := fun n => inject_Z (Z.of_nat n);
     Collector.collect_metrics := fun _ => [];
     Collector.endpoint_post := fun _ => Returns;
     Collector.slack_post := fun _ => Returns;
     Collector.running_at := fun n => (n <? 2)%nat;
     Collector.os_sleep := fun _ => Returns |}.

(** A collector that is to alert through a webhook, through Slack (no URL
    configured) and through the log. *)
Definition three_channels : Collector.config :=
  {| Collector.thresholds := Collector.thresholds Concrete.test_config;
     Collector.alerts_enabled := true;
     Collector.cooldown_minutes := 5;
     Collector.channels := ["webhook"; "slack"; "log"];
     Collector.slack_webhook_url := None;
     Collector.max_retries := 3;
     Collector.retry_delay := 1;
     Collector.interval_seconds := 30 |}.

(** A router whose channel names are all misspelt. *)
Definition misspelt_router : AlertManager.config :=
  {| AlertManager.cooldown_minutes := 5;
     AlertManager.channels := ["Slack"; "mail"];
     AlertManager.slack_webhook_url := None;
     AlertManager.webhook_url := None;
     AlertManager.email_complete := false |}.

End Samples.

(** * Properties *)

(** ** Arithmetic of the comparisons *)

Lemma Qgtb_true (x y : Q) : Qgtb x y = true <-> (y < x)%Q.
Proof.
  unfold Qgtb. rewrite Qgt_alt.
  destruct (x ?= y)%Q; split; congruence.
Qed.

Lemma Qgtb_false (x y : Q) : Qgtb x y = false <-> (x <= y)%Q.
Proof.
  unfold Qgtb. rewrite Qle_alt.
  destruct (x ?= y)%Q; split; congruence.
Qed.

Lemma Qltb_true (x y : Q) : Qltb x y = true <-> (x < y)%Q.
Proof. apply Qgtb_true. Qed.

Lemma Qltb_false (x y : Q) : Qltb x y = false <-> (y <= x)%Q.
Proof. apply Qgtb_false. Qed.

(** The formatter of the examples prints what Python prints. *)
Example format_1f_samples :
  map Concrete.format_1f [85%Q; 171 # 2; 1 # 4; 3 # 4; 0%Q; 100%Q; (-1) # 20]%Q
  = ["85.0"; "85.5"; "0.2"; "0.8"; "0.0"; "100.0"; "-0.0"].
Proof. vm_compute. reflexivity. Qed.

(** ** The threshold evaluator *)

Section Evaluator.

Import Collector Spec.
Context `{py : Builtins}.
Variable cfg : config.
Variable w : world.

(** [check_alerts] sends, in this order, what the four families trigger. *)
Lemma check_alerts_by_family metrics st :
  check_alerts cfg w metrics st =
  match
    (a_cpu <- triggered cfg (Scalar Cpu) metrics ;;
     a_mem <- triggered cfg (Scalar Memory) metrics ;;
     a_disk <- triggered cfg Disk metrics ;;
     a_swap <- triggered cfg (Scalar Swap) metrics ;;
     Ok (a_cpu ++ a_mem ++ a_disk ++ a_swap)%list)
  with
  | Ok alerts => (fold_left (_send_alert cfg w) alerts st, Ok tt)
  | Raise e => (st, Raise e)
  end.
Proof.
  unfold check_alerts, triggered, triggered_scalar, triggered_disk.
  destruct (alerts_enabled cfg); simpl; reflexivity.
Qed.

Lemma check_scalar_present key label metrics limit d p :
  thresholds cfg !! key = Some limit ->
  dict_get metrics key = Some (VDict d) ->
  dict_get d "percent" = Some (VNum p) ->
  check_scalar cfg key label metrics =
  if Qgtb p limit
  then Ok [label ++ fmt_1f p ++ "% (threshold: " ++ py_str (VNum limit) ++ "%)"]
  else Ok [].
Proof.
  intros Hlimit Hfamily Hpercent. unfold check_scalar.
  rewrite Hlimit, Hfamily, Hpercent. reflexivity.
Qed.

Lemma check_scalar_absent key label metrics :
  thresholds cfg !! key = None \/ dict_get metrics key = None ->
  check_scalar cfg key label metrics = Ok [].
Proof.
  intros [Hnone | Hnone]; unfold check_scalar; rewrite Hnone.
  - reflexivity.
  - destruct (thresholds cfg !! key); reflexivity.
Qed.

Lemma check_disk_absent metrics :
  thresholds cfg !! "disk" = None \/ dict_get metrics "disk" = None ->
  check_disk cfg metrics = Ok [].
Proof.
  intros [Hnone | Hnone]; unfold check_disk; rewrite Hnone.
  - reflexivity.
  - destruct (thresholds cfg !! "disk"); reflexivity.
Qed.

Lemma check_mount_typed limit disk :
  mount_typed disk = true ->
  check_mount limit disk =
  Ok (if over_threshold limit disk then [disk_message limit disk] else []).
Proof.
  unfold mount_typed, over_threshold, mount_percent, check_mount, disk_message.
  destruct disk as [| q | s | l | d]; try reflexivity.
  destruct (dict_get d "percent") as [[| p | s | l | d'] |];
    try discriminate; try reflexivity.
  intros _. destruct (Qgtb p limit); reflexivity.
Qed.

Lemma check_mounts_typed limit mounts :
  forallb mount_typed mounts = true ->
  check_mounts limit mounts =
  Ok (map (disk_message limit) (List.filter (over_threshold limit) mounts)).
Proof.
  induction mounts as [| disk rest IH]; intros Htyped; simpl.
  - reflexivity.
  - simpl in Htyped. apply andb_prop in Htyped as [Hdisk Hrest].
    rewrite (check_mount_typed _ _ Hdisk), (IH Hrest). simpl.
    destruct (over_threshold limit disk); reflexivity.
Qed.

(** The threshold blocks raise nothing but the errors of a badly typed
    snapshot; in particular no transport-level error. *)
Ltac block_error Hr :=
  repeat match type of Hr with
         | context [match ?x with _ => _ end] => destruct x
         end;
  try discriminate Hr; inversion Hr; discriminate.

Lemma check_scalar_error key label metrics e :
  check_scalar cfg key label metrics = Raise e -> e <> RequestException.
Proof. intros Hr. unfold check_scalar in Hr. block_error Hr. Qed.

Lemma check_mount_error limit disk e :
  check_mount limit disk = Raise e -> e <> RequestException.
Proof. intros Hr. unfold check_mount in Hr. block_error Hr. Qed.

Lemma check_mounts_error limit disks e :
  check_mounts limit disks = Raise e -> e <> RequestException.
Proof.
  induction disks as [| disk rest IH]; cbn; [discriminate |].
  destruct (check_mount limit disk) as [here |] eqn:Hhere; cbn.
  - destruct (check_mounts limit rest); cbn; [discriminate |].
    intros Hr. inversion Hr; subst. apply IH. reflexivity.
  - intros Hr. inversion Hr; subst. eapply check_mount_error, Hhere.
Qed.

Lemma check_disk_error metrics e :
  check_disk cfg metrics = Raise e -> e <> RequestException.
Proof.
  unfold check_disk.
  destruct (thresholds cfg !! "disk"); [| discriminate].
  destruct (dict_get metrics "disk") as [v |]; [| discriminate].
  destruct v; cbn; try (intros Hr; inversion Hr; discriminate);
    apply check_mounts_error.
Qed.

Lemma alerts_triggered_error metrics e :
  alerts_triggered cfg metrics = Raise e -> e <> RequestException.
Proof.
  unfold alerts_triggered, check_cpu, check_memory, check_swap.
  destruct (check_scalar cfg "cpu" _ metrics) eqn:Hcpu; cbn;
    [| intros Hr; inversion Hr; subst; eapply check_scalar_error, Hcpu].
  destruct (check_scalar cfg "memory" _ metrics) eqn:Hmem; cbn;
    [| intros Hr; inversion Hr; subst; eapply check_scalar_error, Hmem].
  destruct (check_disk cfg metrics) eqn:Hdisk; cbn;
    [| intros Hr; inversion Hr; subst; eapply check_disk_error, Hdisk].
  destruct (check_scalar cfg "swap" _ metrics) eqn:Hswap; cbn;
    [discriminate |].
  intros Hr; inversion Hr; subst; eapply check_scalar_error, Hswap.
Qed.

(** C9.  A family whose key is missing from the thresholds, or whose field
    is missing from the snapshot, is skipped: its block triggers no alert
    and raises nothing. *)
Theorem absent_family_skipped (fam : family)
    (metrics : list (string * pyval)) :
  thresholds cfg !! key_of fam = None \/ dict_get metrics (key_of fam) = None ->
  triggered cfg fam metrics = Ok [].
Proof.
  intros Habsent. destruct fam as [f |]; simpl;
    unfold triggered_scalar, triggered_disk;
    destruct (alerts_enabled cfg); simpl; try reflexivity.
  - apply check_scalar_absent, Habsent.
  - apply check_disk_absent, Habsent.
Qed.

End Evaluator.

Section EvaluatorExamples.

Import Collector Spec.

(** The snapshot that [collect_metrics] returns when collection failed has
    none of the four families. *)
Lemma absent_family_skipped_witness :
  let metrics := [("timestamp", VStr "2024-01-01T00:00:00+00:00");
                  ("hostname", VStr "web-1"); ("error", VStr "boom")] in
  (thresholds Concrete.test_config !! "cpu" = None
   \/ dict_get metrics "cpu" = None)
  /\ triggered (py := Concrete.builtins) Concrete.test_config (Scalar Cpu) metrics
     = Ok [].
Proof.
  simpl. split.
  - right. reflexivity.
  - apply (absent_family_skipped (py := Concrete.builtins) Concrete.test_config
             (Scalar Cpu)).
    right. reflexivity.
Defined.

(** A scalar family that is present without [percent] is not skipped: the
    source reads [.get('percent', 0)] and compares 0 with the threshold. *)
Example missing_percent_compared_as_zero :
  let cfg :=
    {| thresholds := <["cpu" := (-1)%Q]> ∅; alerts_enabled := true;
       cooldown_minutes := 5; channels := ["log"]; slack_webhook_url := None;
       max_retries := 3; retry_delay := 1; interval_seconds := 30 |} in
  triggered (py := Concrete.builtins) cfg (Scalar Cpu) [("cpu", VDict [])]
  = Ok ["High CPU usage: 0.0% (threshold: -1%)"].
Proof. vm_compute. reflexivity. Qed.

End EvaluatorExamples.

(** ** The AlertManager router *)

Section Router.

Import Spec.
Import AlertManager.
Variable cfg : config.
Variable w : world.

Lemma send_channel_effect (a : alert) (st : state) (success : bool)
    (channel : string) :
  exists new ok,
    trace (fst (send_channel cfg w a (st, success) channel)) = (trace st ++ new)%list
    /\ omap channel_result new = [(channel, ok)]
    /\ snd (send_channel cfg w a (st, success) channel) = success && ok
    /\ alert_history (fst (send_channel cfg w a (st, success) channel))
       = alert_history st.
Proof.
  unfold send_channel.
  destruct (String.eqb_spec channel "slack") as [-> | _].
  { unfold _send_slack_alert, outbound.
    destruct (slack_webhook_url cfg) as [[| c url] |]; simpl.
    - exists [LogSendFailed "slack" ValueError], false.
      rewrite andb_false_r. auto.
    - destruct (network w (n_network st)) as [| e]; simpl.
      + exists [SlackPost a; LogSent "slack"], true.
        rewrite andb_true_r, <- app_assoc. auto.
      + exists [SlackPost a; LogSendFailed "slack" e], false.
        rewrite andb_false_r, <- app_assoc. auto.
    - exists [LogSendFailed "slack" ValueError], false.
      rewrite andb_false_r. auto. }
  destruct (String.eqb_spec channel "email") as [-> | _].
  { unfold _send_email_alert, outbound.
    destruct (email_complete cfg); simpl.
    - destruct (network w (n_network st)) as [| e]; simpl.
      + exists [SmtpSend a; LogSent "email"], true.
        rewrite andb_true_r, <- app_assoc. auto.
      + exists [SmtpSend a; LogSendFailed "email" e], false.
        rewrite andb_false_r, <- app_assoc. auto.
    - exists [LogSendFailed "email" ValueError], false.
      rewrite andb_false_r. auto. }
  destruct (String.eqb_spec channel "webhook") as [-> | _].
  { unfold _send_webhook_alert, outbound.
    destruct (webhook_url cfg) as [[| c url] |]; simpl.
    - exists [LogSendFailed "webhook" ValueError], false.
      rewrite andb_false_r. auto.
    - destruct (network w (n_network st)) as [| e]; simpl.
      + exists [WebhookPost a; LogSent "webhook"], true.
        rewrite andb_true_r, <- app_assoc. auto.
      + exists [WebhookPost a; LogSendFailed "webhook" e], false.
        rewrite andb_false_r, <- app_assoc. auto.
    - exists [LogSendFailed "webhook" ValueError], false.
      rewrite andb_false_r. auto. }
  destruct (String.eqb_spec channel "log") as [-> | _]; simpl.
  - exists [LogAlert a], true. rewrite andb_true_r. auto.
  - exists [LogUnknownChannel channel], true. rewrite andb_true_r. auto.
Qed.

(** The loop over the channels handles each of them once, in order, whatever
    the earlier ones did; [success] ends false exactly when one failed. *)
Lemma channel_loop_effect (a : alert) (chans : list string) :
  forall (st : state) (success : bool),
  exists new,
    trace (fst (fold_left (send_channel cfg w a) chans (st, success)))
    = (trace st ++ new)%list
    /\ map fst (omap channel_result new) = chans
    /\ snd (fold_left (send_channel cfg w a) chans (st, success))
       = success && forallb snd (omap channel_result new)
    /\ alert_history (fst (fold_left (send_channel cfg w a) chans (st, success)))
       = alert_history st.
Proof.
  induction chans as [| channel rest IH]; intros st success; cbn [fold_left].
  - exists []. cbn [fst snd omap list_omap forallb map].
    rewrite app_nil_r, andb_true_r. auto.
  - destruct (send_channel_effect a st success channel)
      as (new1 & ok & Htrace1 & Hres1 & Hsucc1 & Hhist1).
    destruct (send_channel cfg w a (st, success) channel) as [st1 success1]
      eqn:Hstep.
    cbn [fst snd] in *. subst success1.
    destruct (IH st1 (success && ok)) as (new2 & Htrace2 & Hres2 & Hsucc2 & Hhist2).
    exists (new1 ++ new2)%list.
    rewrite Htrace2, Htrace1, Hsucc2, Hhist2, Hhist1, omap_app, Hres1.
    cbn [app map fst snd forallb].
    rewrite Hres2, <- app_assoc, andb_assoc. auto.
Qed.

Lemma send_alert_suppressed alert_type message hostname value threshold
    severity (st : state) :
  snd (_is_in_cooldown cfg w alert_type hostname st) = true ->
  send_alert cfg w alert_type message hostname value threshold severity st
  = (emit (LogCooldownSkip alert_type hostname) (tick_utcnow st), false).
Proof.
  unfold send_alert, _is_in_cooldown.
  destruct (alert_history st !! history_key alert_type hostname); simpl.
  - intros ->. reflexivity.
  - discriminate.
Qed.

Lemma send_alert_unsuppressed alert_type message hostname value threshold
    severity (st : state) :
  snd (_is_in_cooldown cfg w alert_type hostname st) = false ->
  exists new,
    let out :=
      send_alert cfg w alert_type message hostname value threshold severity st in
    trace (fst out) = (trace st ++ new)%list
    /\ map fst (omap channel_result new) = channels cfg
    /\ snd out = forallb snd (omap channel_result new)
    /\ alert_history (fst out)
       = <[history_key alert_type hostname :=
             fired_at cfg w alert_type hostname st]> (alert_history st).
Proof.
  intros Hfree. unfold send_alert, fired_at.
  destruct (_is_in_cooldown cfg w alert_type hostname st) as [st0 cooling]
    eqn:Hcheck.
  cbn [fst snd] in *. subst cooling.
  assert (Hsame : trace st0 = trace st /\ alert_history st0 = alert_history st).
  { unfold _is_in_cooldown in Hcheck.
    destruct (alert_history st !! history_key alert_type hostname);
      inversion Hcheck; subst; auto. }
  destruct Hsame as [Htrace0 Hhist0].
  match goal with
  | |- context [fold_left ?f ?chans (?st1, true)] =>
      destruct (channel_loop_effect
                  {| timestamp :=
                       utcnow w (n_utcnow (_update_alert_history w alert_type
                                             hostname st0));
                     hostname := hostname; alert_type := alert_type;
                     message := message; value := value;
                     threshold := threshold; severity := severity |}
                  chans st1 true)
        as (new & Htrace & Hchans & Hsucc & Hhist)
  end.
  exists new. cbv zeta. rewrite Htrace, Hsucc, Hhist. cbn.
  rewrite Htrace0, Hhist0. auto.
Qed.

(** An alert that the AlertManager does not suppress is handed to every
    configured channel, in order, whether or not earlier channels failed;
    the history entry of its key is set to the firing time whatever the
    channels do; and the result is false exactly when at least one channel
    send failed. *)
Lemma send_alert_fan_out alert_type message hostname value
    threshold severity (st : state) :
  snd (_is_in_cooldown cfg w alert_type hostname st) = false ->
  exists new,
    let out :=
      send_alert cfg w alert_type message hostname value threshold severity st in
    trace (fst out) = (trace st ++ new)%list
    /\ map fst (omap channel_result new) = channels cfg
    /\ alert_history (fst out) !! history_key alert_type hostname
       = Some (fired_at cfg w alert_type hostname st)
    /\ (snd out = false <-> exists channel, In (channel, false) (omap channel_result new))
    /\ (snd out = true <-> forall r, In r (omap channel_result new) -> snd r = true).
Proof.
  intros Hfree.
  destruct (send_alert_unsuppressed alert_type message hostname value threshold
              severity st Hfree) as (new & Htrace & Hchans & Hsucc & Hhist).
  exists new. cbv zeta in *. rewrite Hhist, Hsucc, lookup_insert_eq.
  split; [exact Htrace |]. split; [exact Hchans |]. split; [reflexivity |].
  split.
  - rewrite <- not_true_iff_false, forallb_forall. split.
    + intros Hnot.
      destruct (existsb (fun r => negb (snd r)) (omap channel_result new))
        eqn:Hex.
      * apply existsb_exists in Hex as ([channel ok] & Hin & Hneg).
        destruct ok; [discriminate |]. eauto.
      * exfalso. apply Hnot. intros r Hin.
        destruct (snd r) eqn:Hr; [reflexivity |].
        assert (Hcontra : existsb (fun r => negb (snd r))
                            (omap channel_result new) = true).
        { apply existsb_exists. exists r. rewrite Hr. auto. }
        congruence.
    + intros [channel Hin] Hall. specialize (Hall _ Hin). discriminate.
  - apply forallb_forall.
Qed.

End Router.

(** ** The collector's own alert path *)

Section CollectorAlerts.

Import Collector Spec.
Context `{py : Builtins}.
Variable cfg : config.
Variable w : world.

Lemma collector_channel_effect (message : string) (st : state)
    (channel : string) :
  exists new,
    trace (send_channel cfg w message st channel) = (trace st ++ new)%list
    /\ omap channel_attempt new = (if has_effect channel then [channel] else [])
    /\ omap logged_alert new = []
    /\ alert_cooldown (send_channel cfg w message st channel) = alert_cooldown st
    /\ n_utcnow (send_channel cfg w message st channel) = n_utcnow st
    /\ same_delivery_counters st (send_channel cfg w message st channel).
Proof.
  unfold send_channel, has_effect, same_delivery_counters.
  destruct (String.eqb_spec channel "slack") as [-> | _].
  { unfold _send_slack_alert.
    destruct (slack_webhook_url cfg) as [[| c url] |]; cbn.
    - exists [LogSlackNotConfigured]. auto 10.
    - destruct (slack_post w (n_slack st)) as [| e]; cbn.
      + eexists [SlackPost _]. auto 10.
      + eexists [SlackPost _; LogChannelFailed "slack" e].
        rewrite <- app_assoc. auto 10.
    - exists [LogSlackNotConfigured]. auto 10. }
  destruct (String.eqb_spec channel "email") as [-> | _]; cbn.
  - eexists [LogEmailAlert _]. auto 10.
  - exists []. rewrite app_nil_r. auto 10.
Qed.

Lemma collector_channel_loop (message : string) (chans : list string) :
  forall st : state,
  exists new,
    trace (fold_left (send_channel cfg w message) chans st) = (trace st ++ new)%list
    /\ omap channel_attempt new = List.filter has_effect chans
    /\ omap logged_alert new = []
    /\ alert_cooldown (fold_left (send_channel cfg w message) chans st)
       = alert_cooldown st
    /\ n_utcnow (fold_left (send_channel cfg w message) chans st) = n_utcnow st
    /\ same_delivery_counters st (fold_left (send_channel cfg w message) chans st).
Proof.
  induction chans as [| channel rest IH]; intros st; cbn [fold_left List.filter].
  - exists []. rewrite app_nil_r. unfold same_delivery_counters. auto 10.
  - destruct (collector_channel_effect message st channel)
      as (new1 & Htrace1 & Hatt1 & Hlog1 & Hcool1 & Hnow1 & Hcnt1).
    destruct (IH (send_channel cfg w message st channel))
      as (new2 & Htrace2 & Hatt2 & Hlog2 & Hcool2 & Hnow2 & Hcnt2).
    exists (new1 ++ new2)%list.
    rewrite Htrace2, Htrace1, Hcool2, Hcool1, Hnow2, Hnow1.
    rewrite !omap_app, Hatt1, Hatt2, Hlog1, Hlog2, <- app_assoc.
    unfold same_delivery_counters in *.
    destruct Hcnt1 as (-> & -> & -> & ->) || idtac.
    destruct (has_effect channel); cbn; intuition congruence.
Qed.

Lemma _send_alert_suppressed (message : string) (st : state) :
  in_cooldown cfg (py_hash message) (utcnow w (n_utcnow st)) st = true ->
  _send_alert cfg w st message = tick_utcnow st.
Proof.
  intros Hcool. unfold _send_alert.
  change (in_cooldown cfg (py_hash message) (utcnow w (n_utcnow st))
            (tick_utcnow st))
    with (in_cooldown cfg (py_hash message) (utcnow w (n_utcnow st)) st).
  rewrite Hcool. reflexivity.
Qed.

Lemma _send_alert_fires (message : string) (st : state) :
  in_cooldown cfg (py_hash message) (utcnow w (n_utcnow st)) st = false ->
  exists new,
    trace (_send_alert cfg w st message)
    = (trace st ++ LogAlert message :: new)%list
    /\ omap channel_attempt new = List.filter has_effect (channels cfg)
    /\ omap logged_alert new = []
    /\ alert_cooldown (_send_alert cfg w st message)
       = <[py_hash message := utcnow w (n_utcnow st)]> (alert_cooldown st)
    /\ n_utcnow (_send_alert cfg w st message) = S (n_utcnow st)
    /\ same_delivery_counters st (_send_alert cfg w st message).
Proof.
  intros Hfree. unfold _send_alert.
  change (in_cooldown cfg (py_hash message) (utcnow w (n_utcnow st))
            (tick_utcnow st))
    with (in_cooldown cfg (py_hash message) (utcnow w (n_utcnow st)) st).
  rewrite Hfree.
  match goal with
  | |- context [fold_left _ _ ?st1] =>
      destruct (collector_channel_loop message (channels cfg) st1)
        as (new & Htrace & Hatt & Hlog & Hcool & Hnow & Hcnt)
  end.
  exists new. rewrite Htrace, Hcool, Hnow. cbn. rewrite <- app_assoc.
  unfold same_delivery_counters in *. cbn in Hcnt. auto 10.
Qed.

Lemma _send_alert_counters (message : string) (st : state) :
  same_delivery_counters st (_send_alert cfg w st message).
Proof.
  destruct (in_cooldown cfg (py_hash message) (utcnow w (n_utcnow st)) st)
    eqn:Hcool.
  - rewrite (_send_alert_suppressed _ _ Hcool).
    unfold same_delivery_counters. cbn. auto.
  - destruct (_send_alert_fires _ _ Hcool) as (new & _ & _ & _ & _ & _ & Hcnt).
    exact Hcnt.
Qed.

Lemma check_alerts_counters (metrics : list (string * pyval)) (st : state) :
  same_delivery_counters st (fst (check_alerts cfg w metrics st)).
Proof.
  unfold check_alerts.
  destruct (alerts_enabled cfg); cbn;
    [| unfold same_delivery_counters; auto].
  destruct (alerts_triggered cfg metrics) as [alerts | e]; cbn;
    [| unfold same_delivery_counters; auto].
  revert st. induction alerts as [| message rest IH]; intros st; cbn.
  - unfold same_delivery_counters; auto.
  - specialize (IH (_send_alert cfg w st message)).
    pose proof (_send_alert_counters message st) as Hone.
    unfold same_delivery_counters in *. intuition congruence.
Qed.

End CollectorAlerts.

(** ** Cooldown and fan-out, both routers *)

Section Cooldown.

Import Spec.
Context `{py : Builtins}.
Variable ccfg : Collector.config.
Variable cw : Collector.world.
Variable acfg : AlertManager.config.
Variable aw : AlertManager.world.

Lemma history_entry_checked alert_type hostname (st : AlertManager.state)
    (last : Z) :
  AlertManager.alert_history st !! AlertManager.history_key alert_type hostname
  = Some last ->
  AlertManager._is_in_cooldown acfg aw alert_type hostname st
  = (AlertManager.tick_utcnow st,
     Qltb (seconds_between
             (AlertManager.utcnow aw (AlertManager.n_utcnow st)) last)
       (AlertManager.cooldown_minutes acfg * 60)%Q).
Proof.
  intros Hlast. unfold AlertManager._is_in_cooldown. rewrite Hlast. reflexivity.
Qed.

(** C1, amended.  In the AlertManager the dedup key is (hostname,
    alert_type): after an alert of that identity has fired, a second one
    sent within the cooldown window, whatever its message, is suppressed
    (result false, history untouched, nothing delivered), and one sent once
    the window has elapsed is fanned out again and moves the history entry.
    In the collector the dedup key is the hash of the message text: after a
    message has been logged, the same message sent within the window leaves
    trace and cooldown map untouched, and sent once the window has elapsed
    it is logged a second time. *)
Theorem cooldown_suppresses_within_window :
  (forall alert_type hostname m1 v1 t1 s1 m2 v2 t2 s2 (st : AlertManager.state),
     snd (AlertManager._is_in_cooldown acfg aw alert_type hostname st) = false ->
     let first :=
       AlertManager.send_alert acfg aw alert_type m1 hostname v1 t1 s1 st in
     let second :=
       AlertManager.send_alert acfg aw alert_type m2 hostname v2 t2 s2
         (fst first) in
     let fired := fired_at acfg aw alert_type hostname st in
     let now := AlertManager.utcnow aw (AlertManager.n_utcnow (fst first)) in
     (exists new,
        AlertManager.trace (fst first) = (AlertManager.trace st ++ new)%list
        /\ map fst (omap channel_result new) = AlertManager.channels acfg)
     /\ ((seconds_between now fired < AlertManager.cooldown_minutes acfg * 60)%Q ->
         snd second = false
         /\ AlertManager.alert_history (fst second)
            = AlertManager.alert_history (fst first)
         /\ List.filter delivery (AlertManager.trace (fst second))
            = List.filter delivery (AlertManager.trace (fst first)))
     /\ ((AlertManager.cooldown_minutes acfg * 60 <= seconds_between now fired)%Q ->
         exists new,
           AlertManager.trace (fst second)
           = (AlertManager.trace (fst first) ++ new)%list
           /\ map fst (omap channel_result new) = AlertManager.channels acfg
           /\ AlertManager.alert_history (fst second)
                !! AlertManager.history_key alert_type hostname
              = Some (AlertManager.utcnow aw
                        (S (AlertManager.n_utcnow (fst first))))))
  /\
  (forall message (st : Collector.state),
     Collector.in_cooldown ccfg (py_hash message)
       (Collector.utcnow cw (Collector.n_utcnow st)) st = false ->
     let first := Collector._send_alert ccfg cw st message in
     let second := Collector._send_alert ccfg cw first message in
     let fired := Collector.utcnow cw (Collector.n_utcnow st) in
     let now := Collector.utcnow cw (S (Collector.n_utcnow st)) in
     omap logged_alert (Collector.trace first)
     = (omap logged_alert (Collector.trace st) ++ [message])%list
     /\ ((Collector.minutes_between now fired < Collector.cooldown_minutes ccfg)%Q ->
         Collector.trace second = Collector.trace first
         /\ Collector.alert_cooldown second = Collector.alert_cooldown first)
     /\ ((Collector.cooldown_minutes ccfg <= Collector.minutes_between now fired)%Q ->
         omap logged_alert (Collector.trace second)
         = (omap logged_alert (Collector.trace first) ++ [message])%list
         /\ Collector.alert_cooldown second !! py_hash message = Some now)).
Proof.
  split.
  - intros alert_type hostname m1 v1 t1 s1 m2 v2 t2 s2 st Hfree.
    cbv zeta.
    destruct (send_alert_unsuppressed acfg aw alert_type m1 hostname v1 t1 s1
                st Hfree) as (new1 & Htrace1 & Hchans1 & _ & Hhist1).
    cbv zeta in *.
    set (first := AlertManager.send_alert acfg aw alert_type m1 hostname v1 t1
                    s1 st) in *.
    assert (Hentry : AlertManager.alert_history (fst first)
                       !! AlertManager.history_key alert_type hostname
                     = Some (fired_at acfg aw alert_type hostname st))
      by (rewrite Hhist1; apply lookup_insert_eq).
    pose proof (history_entry_checked alert_type hostname (fst first) _ Hentry)
      as Hcheck.
    split; [eauto |]. split.
    + intros Hin. apply Qltb_true in Hin.
      rewrite (send_alert_suppressed acfg aw alert_type m2 hostname v2 t2 s2
                 (fst first)) by (rewrite Hcheck; exact Hin).
      cbn. rewrite List.filter_app. cbn. rewrite app_nil_r. auto.
    + intros Hout. apply Qltb_false in Hout.
      assert (Hfree2 : snd (AlertManager._is_in_cooldown acfg aw alert_type
                              hostname (fst first)) = false)
        by (rewrite Hcheck; exact Hout).
      destruct (send_alert_unsuppressed acfg aw alert_type m2 hostname v2 t2 s2
                  (fst first) Hfree2) as (new2 & Htrace2 & Hchans2 & _ & Hhist2).
      cbv zeta in *. exists new2.
      split; [exact Htrace2 |]. split; [exact Hchans2 |].
      rewrite Hhist2, lookup_insert_eq. unfold fired_at. rewrite Hcheck.
      reflexivity.
  - intros message st Hfree. cbv zeta.
    destruct (_send_alert_fires ccfg cw message st Hfree)
      as (new1 & Htrace1 & _ & Hlog1 & Hcool1 & Hnow1 & _).
    set (first := Collector._send_alert ccfg cw st message) in *.
    assert (Hcheck : Collector.in_cooldown ccfg (py_hash message)
                       (Collector.utcnow cw (Collector.n_utcnow first)) first
                     = Qltb (Collector.minutes_between
                               (Collector.utcnow cw (S (Collector.n_utcnow st)))
                               (Collector.utcnow cw (Collector.n_utcnow st)))
                         (Collector.cooldown_minutes ccfg)).
    { unfold Collector.in_cooldown.
      rewrite Hcool1, lookup_insert_eq, Hnow1. reflexivity. }
    split.
    + rewrite Htrace1, omap_app. cbn. rewrite Hlog1. reflexivity.
    + split.
      * intros Hin. apply Qltb_true in Hin.
        rewrite (_send_alert_suppressed ccfg cw message first)
          by (rewrite Hcheck; exact Hin).
        cbn. auto.
      * intros Hout. apply Qltb_false in Hout.
        assert (Hfree2 : Collector.in_cooldown ccfg (py_hash message)
                  (Collector.utcnow cw (Collector.n_utcnow first)) first = false)
          by (rewrite Hcheck; exact Hout).
        destruct (_send_alert_fires ccfg cw message first Hfree2)
          as (new2 & Htrace2 & _ & Hlog2 & Hcool2 & _ & _).
        rewrite Htrace2, Hcool2, omap_app, lookup_insert_eq, Hnow1. cbn.
        rewrite Hlog2. auto.
Qed.

(** C6, amended.  An alert that the AlertManager does not suppress is
    handed to every configured channel, in order, whether or not earlier
    channels failed; the history entry of its key is set to the firing time
    whatever the channels do; and the result is false exactly when at least
    one channel send failed and true otherwise.  An alert that the
    collector's [_send_alert] does not suppress is logged, and delivery is
    attempted, in order and whatever earlier channels did, for the
    configured channels named slack or email and for no other one; the
    cooldown entry of the message is set to the firing time whatever the
    channels do; and the call returns [None], not a truth value. *)
Theorem router_isolates_channel_failures :
  (forall alert_type message hostname value threshold severity
          (st : AlertManager.state),
     snd (AlertManager._is_in_cooldown acfg aw alert_type hostname st) = false ->
     exists new,
       let out :=
         AlertManager.send_alert acfg aw alert_type message hostname value
           threshold severity st in
       AlertManager.trace (fst out) = (AlertManager.trace st ++ new)%list
       /\ map fst (omap channel_result new) = AlertManager.channels acfg
       /\ AlertManager.alert_history (fst out)
            !! AlertManager.history_key alert_type hostname
          = Some (fired_at acfg aw alert_type hostname st)
       /\ (snd out = false <->
           exists channel, In (channel, false) (omap channel_result new))
       /\ (snd out = true <->
           forall r, In r (omap channel_result new) -> snd r = true))
  /\
  (forall message (st : Collector.state),
     Collector.in_cooldown ccfg (py_hash message)
       (Collector.utcnow cw (Collector.n_utcnow st)) st = false ->
     exists new,
       Collector.trace (Collector._send_alert ccfg cw st message)
       = (Collector.trace st ++ Collector.LogAlert message :: new)%list
       /\ omap channel_attempt new
          = List.filter has_effect (Collector.channels ccfg)
       /\ Collector.alert_cooldown (Collector._send_alert ccfg cw st message)
            !! py_hash message
          = Some (Collector.utcnow cw (Collector.n_utcnow st))
       /\ Collector._send_alert_returns ccfg cw st message = None).
Proof.
  split.
  - intros. apply send_alert_fan_out. assumption.
  - intros message st Hfree.
    destruct (_send_alert_fires ccfg cw message st Hfree)
      as (new & Htrace & Hatt & _ & Hcool & _ & _).
    exists new. rewrite Hcool, lookup_insert_eq.
    unfold Collector._send_alert_returns.
    change (Collector.in_cooldown ccfg (py_hash message)
              (Collector.utcnow cw (Collector.n_utcnow st))
              (Collector.tick_utcnow st))
      with (Collector.in_cooldown ccfg (py_hash message)
              (Collector.utcnow cw (Collector.n_utcnow st)) st).
    rewrite Hfree. auto.
Qed.

End Cooldown.

Section CooldownExamples.

Import Spec.

(** Slack has no URL and fails, the log channel is served all the same, and
    the result is false. *)
Example router_run :
  let out :=
    AlertManager.send_alert Concrete.router_config Concrete.router_world
      "cpu_high" "CPU usage is critically high" "test-server"
      (Some (191 # 2)) (Some 80%Q) "critical" AlertManager.initial_state in
  omap channel_result (AlertManager.trace (fst out))
  = [("slack", false); ("log", true)]
  /\ snd out = false
  /\ AlertManager.alert_history (fst out) !! "test-server:cpu_high" = Some 0.
Proof. vm_compute. auto. Qed.

Lemma router_isolates_channel_failures_witness :
  snd (AlertManager._is_in_cooldown Concrete.router_config
         Concrete.router_world "cpu_high" "test-server"
         AlertManager.initial_state) = false
  /\ exists new,
       let out :=
         AlertManager.send_alert Concrete.router_config Concrete.router_world
           "cpu_high" "CPU usage is critically high" "test-server"
           (Some (191 # 2)) (Some 80%Q) "critical" AlertManager.initial_state in
       AlertManager.trace (fst out)
       = (AlertManager.trace AlertManager.initial_state ++ new)%list
       /\ map fst (omap channel_result new)
          = AlertManager.channels Concrete.router_config
       /\ AlertManager.alert_history (fst out)
            !! AlertManager.history_key "cpu_high" "test-server"
          = Some (fired_at Concrete.router_config Concrete.router_world
                    "cpu_high" "test-server" AlertManager.initial_state)
       /\ (snd out = false <->
           exists channel, In (channel, false) (omap channel_result new))
       /\ (snd out = true <->
           forall r, In r (omap channel_result new) -> snd r = true).
Proof.
  assert (Hfree : snd (AlertManager._is_in_cooldown Concrete.router_config
                         Concrete.router_world "cpu_high" "test-server"
                         AlertManager.initial_state) = false)
    by (vm_compute; reflexivity).
  split; [exact Hfree |].
  exact (proj1 (router_isolates_channel_failures (py := Concrete.builtins)
                  Concrete.test_config (Concrete.host [] Concrete.always_up)
                  Concrete.router_config Concrete.router_world)
           "cpu_high" "CPU usage is critically high" "test-server"
           (Some (191 # 2)) (Some 80%Q) "critical" AlertManager.initial_state
           Hfree).
Defined.

(** The collector's router on an alert that it does not suppress.  With
    the channels webhook, slack and log, nothing is attempted for the
    webhook; and with the one channel log, where no send fails, the call
    returns [None] and not true. *)
Lemma router_isolates_channel_failures_counterexample :
  let w := Concrete.host [] Concrete.always_up in
  let message := "High CPU usage: 85.0% (threshold: 80%)" in
  Collector.in_cooldown Samples.three_channels
    (py_hash (Builtins := Concrete.builtins) message)
    (Collector.utcnow w 0) Collector.initial_state = false
  /\ Collector.channels Samples.three_channels = ["webhook"; "slack"; "log"]
  /\ Collector.trace
       (Collector._send_alert (py := Concrete.builtins) Samples.three_channels
          w Collector.initial_state message)
     = [Collector.LogAlert message; Collector.LogSlackNotConfigured]
  /\ Collector.channels Concrete.test_config = ["log"]
  /\ Collector.trace
       (Collector._send_alert (py := Concrete.builtins) Concrete.test_config
          w Collector.initial_state message)
     = [Collector.LogAlert message]
  /\ Collector._send_alert_returns (py := Concrete.builtins)
       Concrete.test_config w Collector.initial_state message
     = None
  /\ Collector._send_alert_returns (py := Concrete.builtins)
       Concrete.test_config w Collector.initial_state message
     <> Some true.
Proof.
  cbv zeta. split; [vm_compute; reflexivity |]. split; [reflexivity |].
  split; [vm_compute; reflexivity |]. split; [reflexivity |].
  split; [vm_compute; reflexivity |]. split; [vm_compute; reflexivity |].
  vm_compute. discriminate.
Qed.

Lemma cooldown_suppresses_within_window_witness :
  (* AlertManager: same identity, another message, two minutes later *)
  snd (AlertManager.send_alert Concrete.router_config Concrete.router_world
         "cpu_high" "CPU at 97%" "web-1" None None "warning"
         (fst (AlertManager.send_alert Concrete.router_config
                 Concrete.router_world "cpu_high" "CPU at 95%" "web-1" None
                 None "warning" AlertManager.initial_state)))
  = false
  (* collector: the same message, one second later *)
  /\ Collector.trace
       (Collector._send_alert (py := Concrete.builtins) Concrete.test_config
          (Concrete.host [] Concrete.always_up)
          (Collector._send_alert (py := Concrete.builtins) Concrete.test_config
             (Concrete.host [] Concrete.always_up) Collector.initial_state "disk full")
          "disk full")
     = [Collector.LogAlert "disk full"]
  (* collector: the same message, ten minutes later *)
  /\ omap logged_alert
       (Collector.trace
          (Collector._send_alert (py := Concrete.builtins) Concrete.test_config
             (Concrete.slow_host [] Concrete.always_up)
             (Collector._send_alert (py := Concrete.builtins)
                Concrete.test_config (Concrete.slow_host [] Concrete.always_up)
                Collector.initial_state "disk full")
             "disk full"))
     = ["disk full"; "disk full"].
Proof.
  split; [| split].
  - refine (proj1 (proj1 (proj2 (proj1
              (cooldown_suppresses_within_window (py := Concrete.builtins)
                 Concrete.test_config (Concrete.host [] Concrete.always_up)
                 Concrete.router_config Concrete.router_world)
              "cpu_high" "web-1" "CPU at 95%" None None "warning"
              "CPU at 97%" None None "warning" AlertManager.initial_state _))
              _)).
    + vm_compute. reflexivity.
    + vm_compute. reflexivity.
  - refine (eq_trans (proj1 (proj1 (proj2 (proj2
              (cooldown_suppresses_within_window (py := Concrete.builtins)
                 Concrete.test_config (Concrete.host [] Concrete.always_up)
                 Concrete.router_config Concrete.router_world)
              "disk full" Collector.initial_state _)) _)) _).
    + vm_compute. reflexivity.
    + vm_compute. reflexivity.
    + vm_compute. reflexivity.
  - refine (eq_trans (proj1 (proj2 (proj2 (proj2
              (cooldown_suppresses_within_window (py := Concrete.builtins)
                 Concrete.test_config (Concrete.slow_host [] Concrete.always_up)
                 Concrete.router_config Concrete.router_world)
              "disk full" Collector.initial_state _)) _)) _).
    + vm_compute. reflexivity.
    + vm_compute. discriminate.
    + vm_compute. reflexivity.
Defined.

(** The collector keys its cooldown on the hash of the message, and the
    message carries the reading: two cpu alerts of one host, one second
    apart under a five-minute cooldown, are both logged. *)
Lemma cooldown_by_identity_counterexample :
  let cfg := Concrete.test_config in
  let w := Concrete.host [] Concrete.always_up in
  let st1 :=
    fst (Collector.check_alerts (py := Concrete.builtins) cfg w
           (Concrete.cpu_at 85) Collector.initial_state) in
  let st2 :=
    fst (Collector.check_alerts (py := Concrete.builtins) cfg w
           (Concrete.cpu_at 90) st1) in
  (Collector.minutes_between (Collector.utcnow w 1) (Collector.utcnow w 0)
   < Collector.cooldown_minutes cfg)%Q
  /\ omap logged_alert (Collector.trace st2)
     = ["High CPU usage: 85.0% (threshold: 80%)";
        "High CPU usage: 90.0% (threshold: 80%)"].
Proof.
  cbv zeta. split.
  - vm_compute. reflexivity.
  - vm_compute. reflexivity.
Qed.

End CooldownExamples.

(** ** Delivery with retry *)

Section Delivery.

Import Collector Spec.
Context `{py : Builtins}.
Variable cfg : config.
Variable w : world.

Lemma check_alerts_result (metrics : list (string * pyval)) (st : state) :
  snd (check_alerts cfg w metrics st) = evaluation cfg metrics.
Proof.
  unfold check_alerts, evaluation.
  destruct (alerts_enabled cfg); cbn; [| reflexivity].
  destruct (alerts_triggered cfg metrics); reflexivity.
Qed.

(** What one attempt does to the counters, and how it ends. *)
Lemma attempt_body_spec (attempt : Z) (st : state) :
  let out := attempt_body cfg w attempt st in
  snd out = attempt_result cfg w (n_collect st) (n_post st)
  /\ n_collect (fst out) = S (n_collect st)
  /\ n_post (fst out)
     = match evaluation cfg (collect_metrics w (n_collect st)) with
       | Ok _ => S (n_post st)
       | Raise _ => n_post st
       end.
Proof.
  cbv zeta. unfold attempt_body, attempt_result.
  pose proof (check_alerts_result (collect_metrics w (n_collect st))
                (tick_collect st)) as Hres.
  pose proof (check_alerts_counters cfg w (collect_metrics w (n_collect st))
                (tick_collect st)) as (Hpost & Hcollect & _ & _).
  destruct (check_alerts cfg w (collect_metrics w (n_collect st))
              (tick_collect st)) as [st1 r] eqn:Hcheck.
  cbn [fst snd] in *. rewrite <- Hres.
  destruct r as [[] | e]; cbn.
  - destruct (endpoint_post w (n_post st1)) as [| e] eqn:Hanswer;
      rewrite Hpost in Hanswer; cbn in Hanswer; rewrite Hanswer; cbn;
      rewrite Hcollect, Hpost; auto.
  - rewrite Hcollect, Hpost. auto.
Qed.

Lemma attempt_posts_at_most_once (attempt : Z) (st : state) :
  (n_post (fst (attempt_body cfg w attempt st)) <= S (n_post st))%nat.
Proof.
  destruct (attempt_body_spec attempt st) as (_ & _ & Hpost).
  rewrite Hpost. destruct (evaluation cfg _); lia.
Qed.

Lemma time_sleep_counters (seconds : Q) (st : state) :
  n_post (fst (time_sleep w seconds st)) = n_post st
  /\ n_collect (fst (time_sleep w seconds st)) = n_collect st.
Proof. unfold time_sleep. destruct (sleep_check w seconds); auto. Qed.

(** A delay between 0 and [sleep_always] seconds is slept. *)
Lemma sleep_check_short (seconds : Q) :
  (0 <= seconds)%Q -> (seconds <= sleep_always)%Q ->
  sleep_check w seconds = Ok tt.
Proof.
  intros Hlow Hhigh. unfold sleep_check, sleep_always in *.
  assert (Hfits : Qgtb (seconds * 1000000000) 9223372036854775807 = false)
    by (apply Qgtb_false; lra).
  assert (Habove : Qltb (seconds * 1000000000) (-9223372036854775808) = false)
    by (apply Qltb_false; lra).
  assert (Hpositive : Qltb seconds 0 = false) by (apply Qltb_false; exact Hlow).
  assert (Hshort : Qgtb seconds 100000000 = false)
    by (apply Qgtb_false; exact Hhigh).
  rewrite Hfits, Habove, Hpositive, Hshort. reflexivity.
Qed.

(** A delay that [time.sleep] accepts leaves its mark in the trace. *)
Lemma time_sleep_accepted (seconds : Q) (st : state) :
  sleep_check w seconds = Ok tt ->
  time_sleep w seconds st = (emit (Sleep seconds) st, Ok tt).
Proof. intros Hcheck. unfold time_sleep. rewrite Hcheck. reflexivity. Qed.

Lemma time_sleep_refused (seconds : Q) (st : state) (e : exn) :
  sleep_check w seconds = Raise e ->
  time_sleep w seconds st = (st, Raise e).
Proof. intros Hcheck. unfold time_sleep. rewrite Hcheck. reflexivity. Qed.

(** Five seconds are always slept. *)
Lemma time_sleep_5 (st : state) :
  time_sleep w 5 st = (emit (Sleep 5) st, Ok tt).
Proof. reflexivity. Qed.

(** The loop never makes more POSTs than it has iterations. *)
Lemma attempts_posts_bounded (remaining : nat) :
  forall (attempt : Z) (st : state),
    (n_post (fst (attempts_from cfg w remaining attempt st))
     <= n_post st + remaining)%nat.
Proof.
  induction remaining as [| remaining IH]; intros attempt st;
    cbn [attempts_from].
  - cbn. lia.
  - pose proof (attempt_posts_at_most_once attempt st) as Hone.
    destruct (attempt_body cfg w attempt st) as [st1 r]. cbn [fst] in Hone.
    destruct r as [[] | e]; [cbn; lia |].
    destruct e; try (cbn; lia).
    destruct (attempt <? max_retries cfg - 1).
    + pose proof (time_sleep_counters (retry_delay cfg)
                    (emit (LogNetworkError attempt RequestException) st1))
        as [Hsleep _].
      destruct (time_sleep w (retry_delay cfg) _) as [st2 slept].
      cbn [fst] in Hsleep. cbn in Hsleep.
      destruct slept as [[] | e].
      * specialize (IH (attempt + 1) st2). lia.
      * cbn. lia.
    + match goal with
      | |- context [attempts_from _ _ _ _ ?st2] =>
          specialize (IH (attempt + 1) st2); cbn in IH
      end.
      cbn in *. lia.
Qed.

(** With a delay that [time.sleep] accepts nothing escapes the loop. *)
Lemma attempts_never_raise (remaining : nat) :
  sleep_check w (retry_delay cfg) = Ok tt ->
  forall (attempt : Z) (st : state),
    exists b, snd (attempts_from cfg w remaining attempt st) = Ok b.
Proof.
  intros Hdelay.
  induction remaining as [| remaining IH]; intros attempt st;
    cbn [attempts_from].
  - eauto.
  - destruct (attempt_body cfg w attempt st) as [st1 r].
    destruct r as [[] | e]; [cbn; eauto |].
    destruct e; try (cbn; eauto; fail).
    destruct (attempt <? max_retries cfg - 1).
    + rewrite (time_sleep_accepted _ _ Hdelay). apply IH.
    + apply IH.
Qed.

(** One transport-level failure costs one iteration, one collection and one
    POST, and hands over to the rest of the loop. *)
Lemma transport_failure_step (remaining : nat) (attempt : Z) (st : state) :
  sleep_check w (retry_delay cfg) = Ok tt ->
  attempt_result cfg w (n_collect st) (n_post st) = Raise RequestException ->
  exists st',
    attempts_from cfg w (S remaining) attempt st
    = attempts_from cfg w remaining (attempt + 1) st'
    /\ n_collect st' = S (n_collect st)
    /\ n_post st' = S (n_post st).
Proof.
  intros Hdelay Hfail.
  destruct (attempt_body_spec attempt st) as (Hres & Hcollect & Hpost).
  assert (Heval : exists u, evaluation cfg (collect_metrics w (n_collect st))
                            = Ok u).
  { unfold attempt_result in Hfail.
    destruct (evaluation cfg (collect_metrics w (n_collect st))) as [u | e]
      eqn:Heval; [eauto |].
    exfalso. unfold evaluation in Heval.
    destruct (alerts_enabled cfg); cbn in Heval; [| discriminate].
    destruct (alerts_triggered cfg _) eqn:Htrig; [discriminate |].
    assert (e = RequestException) by congruence. subst e.
    inversion Heval; subst.
    exact (alerts_triggered_error cfg _ _ Htrig eq_refl). }
  destruct Heval as [u Heval]. rewrite Heval in Hpost.
  cbn [attempts_from].
  destruct (attempt_body cfg w attempt st) as [st1 r]. cbn [fst snd] in *.
  rewrite Hres, Hfail.
  destruct (attempt <? max_retries cfg - 1).
  - rewrite (time_sleep_accepted _ _ Hdelay). eexists.
    split; [reflexivity |]. cbn. auto.
  - eexists. split; [reflexivity |]. cbn. auto.
Qed.

Lemma transport_failures_skip (j : nat) :
  sleep_check w (retry_delay cfg) = Ok tt ->
  forall (remaining : nat) (attempt : Z) (st : state),
    transport_failures cfg w st j ->
    exists st',
      attempts_from cfg w (j + remaining) attempt st
      = attempts_from cfg w remaining (attempt + Z.of_nat j) st'
      /\ n_collect st' = (n_collect st + j)%nat
      /\ n_post st' = (n_post st + j)%nat.
Proof.
  intros Hdelay. induction j as [| j IH]; intros remaining attempt st Hfails.
  - exists st. cbn. rewrite Z.add_0_r, !Nat.add_0_r. auto.
  - assert (Hfirst : attempt_result cfg w (n_collect st) (n_post st)
                     = Raise RequestException).
    { specialize (Hfails 0%nat). rewrite !Nat.add_0_r in Hfails.
      apply Hfails. lia. }
    destruct (transport_failure_step (j + remaining) attempt st Hdelay Hfirst)
      as (st1 & Hstep & Hcollect1 & Hpost1).
    destruct (IH remaining (attempt + 1) st1) as (st' & Hrest & Hcollect & Hpost).
    { intros i Hi. rewrite Hcollect1, Hpost1.
      specialize (Hfails (S i)).
      replace (S (n_collect st) + i)%nat with (n_collect st + S i)%nat by lia.
      replace (S (n_post st) + i)%nat with (n_post st + S i)%nat by lia.
      apply Hfails. lia. }
    exists st'. change (S j + remaining)%nat with (S (j + remaining)).
    rewrite Hstep, Hrest.
    replace (attempt + 1 + Z.of_nat j) with (attempt + Z.of_nat (S j)) by lia.
    split; [reflexivity |]. lia.
Qed.

Lemma attempt_succeeds (remaining : nat) (attempt : Z) (st : state) :
  attempt_result cfg w (n_collect st) (n_post st) = Ok tt ->
  snd (attempts_from cfg w (S remaining) attempt st) = Ok true
  /\ n_post (fst (attempts_from cfg w (S remaining) attempt st))
     = S (n_post st).
Proof.
  intros Hok.
  destruct (attempt_body_spec attempt st) as (Hres & _ & Hpost).
  assert (Heval : exists u, evaluation cfg (collect_metrics w (n_collect st))
                            = Ok u).
  { unfold attempt_result in Hok.
    destruct (evaluation cfg _); [eauto | discriminate]. }
  destruct Heval as [u Heval]. rewrite Heval in Hpost.
  cbn [attempts_from].
  destruct (attempt_body cfg w attempt st) as [st1 r]. cbn [fst snd] in *.
  rewrite Hres, Hok. cbn. auto.
Qed.

Lemma attempt_aborts (remaining : nat) (attempt : Z) (st : state) (e : exn) :
  attempt_result cfg w (n_collect st) (n_post st) = Raise e ->
  e <> RequestException ->
  snd (attempts_from cfg w (S remaining) attempt st) = Ok false
  /\ n_collect (fst (attempts_from cfg w (S remaining) attempt st))
     = S (n_collect st)
  /\ (n_post (fst (attempts_from cfg w (S remaining) attempt st))
      <= S (n_post st))%nat.
Proof.
  intros Hraise Hlocal.
  destruct (attempt_body_spec attempt st) as (Hres & Hcollect & _).
  pose proof (attempt_posts_at_most_once attempt st) as Hpost.
  cbn [attempts_from].
  destruct (attempt_body cfg w attempt st) as [st1 r]. cbn [fst snd] in *.
  rewrite Hres, Hraise.
  destruct e; try contradiction; cbn; auto.
Qed.

(** C2, amended.  [send_metrics] makes at most [max_retries] POSTs.  When
    [time.sleep] accepts the configured [retry_delay], as it does every
    delay between 0 and 10^8 seconds: it returns and never raises; if the
    first k-1 attempts end in transport-level errors and the k-th succeeds
    (k <= max_retries) it returns true after exactly k POSTs; if all
    [max_retries] attempts end in transport-level errors it returns false;
    and an attempt that ends in any other error makes it return false at
    once, without a further attempt. *)
Theorem send_metrics_bounded_retry (st : state) :
  let n := Z.to_nat (max_retries cfg) in
  let out := send_metrics cfg w st in
  (n_post (fst out) <= n_post st + n)%nat
  /\ ((0 <= retry_delay cfg)%Q -> (retry_delay cfg <= sleep_always)%Q ->
      sleep_check w (retry_delay cfg) = Ok tt)
  /\ (sleep_check w (retry_delay cfg) = Ok tt ->
      (exists b, snd out = Ok b)
      /\ (forall k, (1 <= k <= n)%nat ->
            transport_failures cfg w st (k - 1) ->
            attempt_result cfg w (n_collect st + (k - 1)) (n_post st + (k - 1))
            = Ok tt ->
            snd out = Ok true /\ n_post (fst out) = (n_post st + k)%nat)
      /\ (transport_failures cfg w st n ->
            snd out = Ok false /\ n_post (fst out) = (n_post st + n)%nat)
      /\ (forall k e, (1 <= k <= n)%nat ->
            transport_failures cfg w st (k - 1) ->
            attempt_result cfg w (n_collect st + (k - 1)) (n_post st + (k - 1))
            = Raise e ->
            e <> RequestException ->
            snd out = Ok false
            /\ n_collect (fst out) = (n_collect st + k)%nat
            /\ (n_post (fst out) <= n_post st + k)%nat)).
Proof.
  cbv zeta. unfold send_metrics.
  set (n := Z.to_nat (max_retries cfg)).
  split; [apply attempts_posts_bounded |].
  split; [apply sleep_check_short |].
  intros Hdelay. split; [apply attempts_never_raise, Hdelay |].
  split; [| split].
  - intros k Hk Hfails Hok.
    destruct (transport_failures_skip (k - 1) Hdelay (S (n - k)) 0 st Hfails)
      as (st' & Hskip & Hcollect & Hpost).
    replace (k - 1 + S (n - k))%nat with n in Hskip by lia.
    rewrite Hskip. rewrite <- Hcollect, <- Hpost in Hok.
    destruct (attempt_succeeds (n - k) (0 + Z.of_nat (k - 1)) st' Hok)
      as [Hret Hcount].
    split; [exact Hret |]. rewrite Hcount, Hpost. lia.
  - intros Hfails.
    destruct (transport_failures_skip n Hdelay 0%nat 0 st Hfails)
      as (st' & Hskip & _ & Hpost).
    rewrite Nat.add_0_r in Hskip. rewrite Hskip. cbn. auto.
  - intros k e Hk Hfails Hraise Hlocal.
    destruct (transport_failures_skip (k - 1) Hdelay (S (n - k)) 0 st Hfails)
      as (st' & Hskip & Hcollect & Hpost).
    replace (k - 1 + S (n - k))%nat with n in Hskip by lia.
    rewrite Hskip. rewrite <- Hcollect, <- Hpost in Hraise.
    destruct (attempt_aborts (n - k) (0 + Z.of_nat (k - 1)) st' e Hraise Hlocal)
      as (Hret & Hcount & Hbound).
    split; [exact Hret |]. rewrite Hcount, Hcollect. split; lia.
Qed.

End Delivery.

Section DeliveryExamples.

Import Collector Spec.

Lemma send_metrics_bounded_retry_witness :
  sleep_check (Concrete.host [] Concrete.flaky)
    (retry_delay Concrete.test_config) = Ok tt
  /\ snd (send_metrics (py := Concrete.builtins) Concrete.test_config
            (Concrete.host [] Concrete.flaky) initial_state) = Ok true
  /\ n_post (fst (send_metrics (py := Concrete.builtins) Concrete.test_config
                    (Concrete.host [] Concrete.flaky) initial_state)) = 3%nat.
Proof.
  assert (Hdelay : sleep_check (Concrete.host [] Concrete.flaky)
                     (retry_delay Concrete.test_config) = Ok tt)
    by reflexivity.
  split; [exact Hdelay |].
  refine (proj1 (proj2 (proj2 (proj2
            (send_metrics_bounded_retry (py := Concrete.builtins)
               Concrete.test_config (Concrete.host [] Concrete.flaky) initial_state))
            Hdelay)) 3%nat _ _ _).
  - vm_compute. lia.
  - intros i Hi. destruct i as [| [| i]]; [reflexivity | reflexivity | lia].
  - reflexivity.
Defined.

(** The sleep between two attempts is made inside the handler, and what it
    raises leaves [send_metrics].  Against the endpoint that would succeed
    on the third attempt: with [retry_delay: -1] the sleep raises
    ValueError, with [retry_delay: 10000000000] it raises OverflowError,
    each time after a single POST. *)
Lemma send_metrics_bounded_retry_counterexample :
  let negative := Concrete.with_delivery 3 (-1) Concrete.test_config in
  let huge := Concrete.with_delivery 3 10000000000 Concrete.test_config in
  let run cfg :=
    send_metrics (py := Concrete.builtins) cfg (Concrete.host [] Concrete.flaky)
      initial_state in
  max_retries negative = 3 /\ max_retries huge = 3
  /\ endpoint_post (Concrete.host [] Concrete.flaky) 0 = Raises RequestException
  /\ endpoint_post (Concrete.host [] Concrete.flaky) 1 = Raises RequestException
  /\ endpoint_post (Concrete.host [] Concrete.flaky) 2 = Returns
  /\ snd (run negative) = Raise ValueError
  /\ n_post (fst (run negative)) = 1%nat
  /\ snd (run huge) = Raise OverflowError
  /\ n_post (fst (run huge)) = 1%nat.
Proof. cbv zeta. repeat split. Qed.

End DeliveryExamples.

(** ** The scheduler *)

Section Scheduler.

Import Collector Spec.
Context `{py : Builtins}.
Variable cfg : config.
Variable w : world.

Lemma py_max_0 (x : Q) : (py_max 0 x == Qmax 0 x)%Q.
Proof.
  unfold py_max. destruct (Qgtb x 0) eqn:Hx.
  - apply Qgtb_true in Hx. symmetry. apply Q.max_r. lra.
  - apply Qgtb_false in Hx. symmetry. apply Q.max_l. exact Hx.
Qed.

(** C7, amended.  Every cycle does one [send_metrics] and ends in one of
    three ways.  When the delivery step returns and the interval is not yet
    used up, the scheduler sleeps for the remainder [T - elapsed], where
    [elapsed] is the difference of the two clock readings around the step,
    provided [time.sleep] accepts it, as it does every remainder of up to
    10^8 seconds; when the step returns with [elapsed >= T] it does not
    sleep and logs the warning instead: in both cases it has slept
    [max(0, T - elapsed)].  When the delivery step raises, or [time.sleep]
    refuses the remainder, the handler of the loop logs the error and
    sleeps five seconds, whatever the interval.  The delivery step returns
    whenever [time.sleep] accepts the configured [retry_delay].  In every
    case the loop then goes straight back to its test and, if still
    running, into the next cycle. *)
Theorem cycle_sleeps_remainder (st : state) :
  let work := send_metrics cfg w (tick_time st) in
  let elapsed := (time_time w (n_time (fst work)) - time_time w (n_time st))%Q in
  let T := interval_seconds cfg in
  (exists tail,
     trace (cycle cfg w st) = (trace (fst work) ++ tail)%list
     /\ (forall success, snd work = Ok success ->
           ((elapsed < T)%Q -> sleep_check w (T - elapsed) = Ok tt ->
            tail = [Sleep (T - elapsed)]
            /\ (slept tail == Qmax 0 (T - elapsed))%Q)
           /\ ((T <= elapsed)%Q ->
               tail = [LogSlow elapsed]
               /\ (slept tail == Qmax 0 (T - elapsed))%Q)
           /\ (forall e, (elapsed < T)%Q ->
                 sleep_check w (T - elapsed) = Raise e ->
                 tail = [LogLoopError e; Sleep 5]))
     /\ (forall e, snd work = Raise e -> tail = [LogLoopError e; Sleep 5]))
  /\ (sleep_check w (retry_delay cfg) = Ok tt ->
      exists success, snd work = Ok success)
  /\ ((0 <= T - elapsed)%Q -> (T - elapsed <= sleep_always)%Q ->
      sleep_check w (T - elapsed) = Ok tt)
  /\ (forall fuel st0,
        running_at w (n_loop st0) = true ->
        run cfg w (S fuel) st0 = run cfg w fuel (cycle cfg w (tick_loop st0))).
Proof.
  cbv zeta.
  split; [| split; [intros Hdelay; apply attempts_never_raise, Hdelay |
                    split; [apply sleep_check_short |]]].
  - unfold cycle, cycle_body.
    destruct (send_metrics cfg w (tick_time st)) as [st1 r]. cbn [fst snd].
    destruct r as [success | e].
    + set (elapsed := (time_time w (n_time st1) - time_time w (n_time st))%Q).
      set (remainder := (interval_seconds cfg - elapsed)%Q).
      pose proof (py_max_0 remainder) as Hmax.
      unfold py_max in *.
      destruct (Qgtb remainder 0) eqn:Hpos.
      * rewrite Hpos. apply Qgtb_true in Hpos.
        destruct (sleep_check w remainder) as [[] | e] eqn:Hcheck.
        -- rewrite (time_sleep_accepted w _ _ Hcheck).
           exists [Sleep remainder]. cbn.
           split; [reflexivity |]. split; [| discriminate].
           intros _ _. split; [| split].
           ++ intros _ _. split; [reflexivity |]. rewrite <- Hmax. lra.
           ++ intros Hlate. subst remainder. lra.
           ++ intros e _ Hrefused. discriminate Hrefused.
        -- rewrite (time_sleep_refused w _ _ _ Hcheck), time_sleep_5.
           exists [LogLoopError e; Sleep 5]. cbn. rewrite <- app_assoc.
           split; [reflexivity |]. split; [| discriminate].
           intros _ _. split; [| split].
           ++ intros _ Haccepted. discriminate Haccepted.
           ++ intros Hlate. subst remainder. lra.
           ++ intros e' _ Hrefused. inversion Hrefused. reflexivity.
      * assert (Hzero : Qgtb 0 0 = false) by reflexivity.
        rewrite Hzero. apply Qgtb_false in Hpos.
        exists [LogSlow elapsed]. cbn.
        split; [reflexivity |]. split; [| discriminate].
        intros _ _. split; [| split].
        -- intros Hearly. subst remainder. lra.
        -- intros _. split; [reflexivity |]. rewrite <- Hmax. reflexivity.
        -- intros e Hearly. subst remainder. lra.
    + rewrite time_sleep_5. exists [LogLoopError e; Sleep 5]. cbn.
      rewrite <- app_assoc. split; [reflexivity |].
      split; [discriminate |]. intros e' He'. inversion He'. reflexivity.
  - intros fuel st0 Hrunning. cbn [run]. rewrite Hrunning. reflexivity.
Qed.

(** The error path of a cycle: when [send_metrics] raises, the handler of
    [run] logs the error and pauses five seconds, whatever the interval. *)
Lemma cycle_error_pause (st : state) (e : exn) :
  snd (send_metrics cfg w (tick_time st)) = Raise e ->
  trace (cycle cfg w st)
  = (trace (fst (send_metrics cfg w (tick_time st)))
       ++ [LogLoopError e; Sleep 5])%list.
Proof.
  intros Hraise. unfold cycle, cycle_body.
  destruct (send_metrics cfg w (tick_time st)) as [st1 r]. cbn [fst snd] in *.
  subst r. rewrite time_sleep_5. cbn. rewrite <- app_assoc. reflexivity.
Qed.

(** With a delay that [time.sleep] accepts the delivery step of every cycle
    returns. *)
Lemma every_cycle_measured (st : state) :
  sleep_check w (retry_delay cfg) = Ok tt ->
  exists success, snd (send_metrics cfg w (tick_time st)) = Ok success.
Proof. intros Hdelay. apply attempts_never_raise, Hdelay. Qed.

End Scheduler.

Section SchedulerExamples.

Import Collector Spec.

(** Interval 30 s.  On the host whose clock advances one second per reading
    the cycle sleeps 29 s; on the host whose clock advances ten minutes per
    reading it logs the warning and does not sleep. *)
Lemma cycle_sleeps_remainder_witness :
  snd (send_metrics (py := Concrete.builtins) Concrete.test_config
         (Concrete.host [] Concrete.always_up) (tick_time initial_state)) = Ok true
  /\ List.filter (fun e => match e with Sleep _ | LogSlow _ => true | _ => false end)
       (trace (cycle (py := Concrete.builtins) Concrete.test_config
                 (Concrete.host [] Concrete.always_up) initial_state))
     = [Sleep 29]
  /\ List.filter (fun e => match e with Sleep _ | LogSlow _ => true | _ => false end)
       (trace (cycle (py := Concrete.builtins) Concrete.test_config
                 (Concrete.slow_host [] Concrete.always_up) initial_state))
     = [LogSlow 600].
Proof.
  assert (Hwork : snd (send_metrics (py := Concrete.builtins)
                         Concrete.test_config (Concrete.host [] Concrete.always_up)
                         (tick_time initial_state)) = Ok true)
    by (vm_compute; reflexivity).
  assert (Hslow : snd (send_metrics (py := Concrete.builtins)
                         Concrete.test_config (Concrete.slow_host [] Concrete.always_up)
                         (tick_time initial_state)) = Ok true)
    by (vm_compute; reflexivity).
  split; [exact Hwork |]. split.
  - destruct (proj1 (cycle_sleeps_remainder (py := Concrete.builtins)
                       Concrete.test_config (Concrete.host [] Concrete.always_up)
                       initial_state))
      as (tail & Htrace & Hreturned & _).
    destruct (Hreturned true Hwork) as (Hearly & _ & _).
    destruct (Hearly ltac:(vm_compute; reflexivity)
                ltac:(vm_compute; reflexivity)) as [Htail _].
    rewrite Htrace, Htail. vm_compute. reflexivity.
  - destruct (proj1 (cycle_sleeps_remainder (py := Concrete.builtins)
                       Concrete.test_config (Concrete.slow_host [] Concrete.always_up)
                       initial_state))
      as (tail & Htrace & Hreturned & _).
    destruct (Hreturned true Hslow) as (_ & Hlate & _).
    destruct (Hlate ltac:(vm_compute; discriminate)) as [Htail _].
    rewrite Htrace, Htail. vm_compute. reflexivity.
Defined.

(** Interval 30 s, clock readings one second apart.  With [retry_delay: -1]
    and an endpoint that fails at first, the sleep between the attempts
    raises, [send_metrics] raises with it, and the cycle ends in a sleep of
    5 s where [max(0, T - elapsed)] is 29 s.  With an interval of
    10000000000 s and an endpoint that answers, [time.sleep] refuses the
    remainder and the cycle again ends in a sleep of 5 s. *)
Lemma cycle_sleeps_remainder_counterexample :
  let pauses :=
    List.filter (fun e => match e with
                          | Sleep _ | LogSlow _ | LogLoopError _ => true
                          | _ => false
                          end) in
  let negative := Concrete.with_delivery 3 (-1) Concrete.test_config in
  let long := Concrete.with_interval 10000000000 Concrete.test_config in
  interval_seconds negative = 30%Q
  /\ (time_time (Concrete.host [] Concrete.flaky) 1
      - time_time (Concrete.host [] Concrete.flaky) 0 == 1)%Q
  /\ pauses (trace (cycle (py := Concrete.builtins) negative
                      (Concrete.host [] Concrete.flaky) initial_state))
     = [LogLoopError ValueError; Sleep 5]
  /\ ~ (slept (trace (cycle (py := Concrete.builtins) negative
                        (Concrete.host [] Concrete.flaky) initial_state))
        == Qmax 0 (30 - 1))%Q
  /\ snd (send_metrics (py := Concrete.builtins) long
            (Concrete.host [] Concrete.always_up) (tick_time initial_state))
     = Ok true
  /\ pauses (trace (cycle (py := Concrete.builtins) long
                      (Concrete.host [] Concrete.always_up) initial_state))
     = [LogLoopError OverflowError; Sleep 5]
  /\ ~ (slept (trace (cycle (py := Concrete.builtins) long
                        (Concrete.host [] Concrete.always_up) initial_state))
        == Qmax 0 (10000000000 - 1))%Q.
Proof.
  cbv zeta.
  split; [reflexivity |]. split; [reflexivity |]. split; [reflexivity |].
  split; [vm_compute; discriminate |]. split; [reflexivity |].
  split; [reflexivity |]. vm_compute. discriminate.
Qed.

End SchedulerExamples.

(** ** The ingestion store and endpoint *)

Section Ingestion.

Import Server Spec.
Context `{parser : IsoParser} `{encoder : JsonEncoder}.

(** Case analysis along the steps of [store_metrics]: connection, the three
    encodings, the insert, the commit. *)
Ltac store_cases env payload :=
  unfold store_metrics, _get_connection, store_body, execute_insert, commit,
    encodes, write_fails;
  destruct (connect_fails env); cbn;
  [| destruct (dumps_disks (SystemMetrics.disk (MetricsPayload.metrics payload)));
     cbn;
     [ destruct (SystemMetrics.network (MetricsPayload.metrics payload))
         as [n |];
       [destruct (dumps_network n) |];
       cbn;
       (destruct (dumps_payload payload); cbn;
        [destruct (execute_fails env); cbn;
         [| destruct (commit_fails env); cbn] |])
     |] ].

Lemma store_metrics_result (env : environment) (payload : MetricsPayload.t)
    (db : database) :
  snd (store_metrics env payload db)
  = negb (write_fails env) && encodes payload.
Proof.
  store_cases env payload; rewrite ?andb_false_r, ?andb_true_r;
    reflexivity.
Qed.

Lemma store_metrics_failure (env : environment) (payload : MetricsPayload.t)
    (db : database) :
  snd (store_metrics env payload db) = false ->
  fst (store_metrics env payload db) = db.
Proof. store_cases env payload; try reflexivity; discriminate. Qed.

Lemma store_metrics_success (env : environment) (payload : MetricsPayload.t)
    (db : database) :
  snd (store_metrics env payload db) = true ->
  exists r,
    fst (store_metrics env payload db)
    = {| rows := (rows db ++ [r])%list; sequence := sequence db + 1 |}
    /\ id r = sequence db + 1
    /\ hostname r = MetricsPayload.hostname payload
    /\ timestamp r = SystemMetrics.timestamp (MetricsPayload.metrics payload)
    /\ cpu_percent r
       = CPUMetrics.percent (SystemMetrics.cpu (MetricsPayload.metrics payload))
    /\ memory_percent r
       = MemoryMetrics.percent
           (SystemMetrics.memory (MetricsPayload.metrics payload))
    /\ swap_percent r
       = SwapMetrics.percent (SystemMetrics.swap (MetricsPayload.metrics payload))
    /\ created_at r = current_timestamp env.
Proof.
  store_cases env payload; try discriminate; intros _; eexists;
    (split; [reflexivity |]); cbn; repeat split.
Qed.

(** C3.  [store_metrics] returns false exactly when an encoding or one of
    the SQLite calls fails, and then the database is what it was before;
    when it returns true the database holds exactly one more row, the one
    built from the payload, under the next id. *)
Theorem store_metrics_all_or_nothing (env : environment)
    (payload : MetricsPayload.t) (db : database) :
  let out := store_metrics env payload db in
  (snd out = false <-> write_fails env = true \/ encodes payload = false)
  /\ (snd out = false -> fst out = db)
  /\ (snd out = true ->
      exists r,
        rows (fst out) = (rows db ++ [r])%list
        /\ length (rows (fst out)) = S (length (rows db))
        /\ id r = sequence db + 1
        /\ hostname r = MetricsPayload.hostname payload
        /\ timestamp r
           = SystemMetrics.timestamp (MetricsPayload.metrics payload)).
Proof.
  cbv zeta. split; [| split].
  - rewrite store_metrics_result.
    destruct (write_fails env), (encodes payload); cbn; intuition congruence.
  - apply store_metrics_failure.
  - intros Hok.
    destruct (store_metrics_success env payload db Hok)
      as (r & Hdb & Hid & Hhost & Hstamp & _).
    exists r. rewrite Hdb. cbn. rewrite length_app. cbn.
    repeat split; try assumption. lia.
Qed.

Lemma between_0_100_spec (x : Q) :
  between_0_100 x = true -> (0 <= x)%Q /\ (x <= 100)%Q.
Proof.
  unfold between_0_100. intros Hx. apply andb_prop in Hx as [Hlow Hhigh].
  split; apply Qle_bool_iff; assumption.
Qed.

(** What a payload that passes validation satisfies, as far as the listed
    failures are concerned. *)
Lemma valid_payload_fields (p : MetricsPayload.t) :
  MetricsPayload.valid p = true ->
  let m := MetricsPayload.metrics p in
  SystemMetrics.validate_timestamp (SystemMetrics.timestamp m) = true
  /\ between_0_100 (CPUMetrics.percent (SystemMetrics.cpu m)) = true
  /\ between_0_100 (MemoryMetrics.percent (SystemMetrics.memory m)) = true
  /\ 0 < MemoryMetrics.total (SystemMetrics.memory m)
  /\ between_0_100 (SwapMetrics.percent (SystemMetrics.swap m)) = true
  /\ 0 <= SwapMetrics.total (SystemMetrics.swap m)
  /\ forall d, In d (SystemMetrics.disk m) ->
       between_0_100 (DiskMetrics.percent d) = true /\ 0 < DiskMetrics.total d.
Proof.
  intros Hvalid. cbv zeta.
  unfold MetricsPayload.valid, SystemMetrics.valid, CPUMetrics.valid,
    MemoryMetrics.valid, SwapMetrics.valid in Hvalid.
  repeat match goal with
         | Hc : _ && _ = true |- _ => apply andb_prop in Hc as [? ?]
         end.
  split; [assumption |]. split; [assumption |]. split; [assumption |].
  split; [apply Z.ltb_lt; assumption |]. split; [assumption |].
  split; [apply Z.leb_le; assumption |].
  intros d Hin.
  match goal with
  | Hd : forallb DiskMetrics.valid _ = true |- _ =>
      rewrite forallb_forall in Hd; specialize (Hd d Hin);
      unfold DiskMetrics.valid in Hd
  end.
  repeat match goal with
         | Hc : _ && _ = true |- _ => apply andb_prop in Hc as [? ?]
         end.
  split; [assumption | apply Z.ltb_lt; assumption].
Qed.

Lemma listed_failure_invalid (p : MetricsPayload.t) :
  listed_failure p -> MetricsPayload.valid p = false.
Proof.
  intros Hfail. destruct (MetricsPayload.valid p) eqn:Hvalid; [| reflexivity].
  exfalso.
  destruct (valid_payload_fields p Hvalid)
    as (Hstamp & Hcpu & Hmem & Hmemtotal & Hswap & Hswaptotal & Hdisk).
  apply between_0_100_spec in Hcpu, Hmem, Hswap.
  destruct Hfail as [Hout | Hout | Hout | d Hin Hout | Htotal | d Hin Htotal
                    | Htotal | Hparse];
    try (destruct Hout; lra); try lia.
  - destruct (Hdisk d Hin) as [Hpercent _].
    apply between_0_100_spec in Hpercent. destruct Hout; lra.
  - destruct (Hdisk d Hin) as [_ Hpositive]. lia.
  - unfold SystemMetrics.validate_timestamp in Hstamp.
    rewrite Hparse in Hstamp. discriminate.
Qed.

(** C8.  A request body that fails validation, in particular one with a
    percent outside [0, 100], a memory or disk total that is not positive,
    or a timestamp that does not parse, is answered with status 422, a
    client error, and leaves the server as it was: [store_metrics] is not
    called and no row is added. *)
Theorem invalid_payload_never_stored :
  (forall p, listed_failure p -> fails_validation (Payload p))
  /\ (forall env b srv,
        fails_validation b ->
        post_ingest env b srv = (srv, 422)
        /\ client_error (snd (post_ingest env b srv))
        /\ store_calls (fst (post_ingest env b srv)) = store_calls srv
        /\ rows (db (fst (post_ingest env b srv))) = rows (db srv)).
Proof.
  split.
  - intros p Hfail. apply listed_failure_invalid, Hfail.
  - intros env b srv Hfails.
    assert (Hout : post_ingest env b srv = (srv, 422)).
    { destruct b as [| p]; cbn in *; [reflexivity |]. rewrite Hfails.
      reflexivity. }
    rewrite Hout. unfold client_error. cbn. repeat split; lia.
Qed.

(** C10.  When a payload passes validation and [store_metrics] returns
    false, the 500 that the endpoint raises inside its [try] is caught by
    its own [except Exception] and replaced by a 400: the response of
    POST /ingest has status 400, a client error. *)
Theorem storage_failure_answered_400 (env : environment)
    (p : MetricsPayload.t) (srv : server) :
  MetricsPayload.valid p = true ->
  snd (store_metrics env p (db srv)) = false ->
  snd (ingest_try env p srv) = Raise (HTTPException 500)
  /\ snd (ingest_metrics env p srv) = Raise (HTTPException 400)
  /\ snd (post_ingest env (Payload p) srv) = 400
  /\ client_error (snd (post_ingest env (Payload p) srv))
  /\ store_calls (fst (post_ingest env (Payload p) srv)) = S (store_calls srv)
  /\ db (fst (post_ingest env (Payload p) srv)) = db srv.
Proof.
  intros Hvalid Hfalse.
  pose proof (store_metrics_failure env p (db srv) Hfalse) as Hsame.
  unfold post_ingest, ingest_metrics, ingest_try, client_error.
  rewrite Hvalid.
  destruct (store_metrics env p (db srv)) as [db' success].
  cbn [fst snd] in *. subst success db'. cbn. repeat split; lia.
Qed.

End Ingestion.

Section IngestionExamples.

Import Server Spec.

Example sample_payload_valid :
  MetricsPayload.valid (parser := Concrete.iso_parser) Concrete.good = true.
Proof. vm_compute. reflexivity. Qed.

(** A swap total of zero passes validation: the model of swap declares
    [ge=0] where those of memory and disk declare [gt=0]. *)
Example zero_swap_total_accepted :
  SwapMetrics.total (SystemMetrics.swap (MetricsPayload.metrics Concrete.good)) = 0
  /\ post_ingest (parser := Concrete.iso_parser)
       (encoder := Concrete.json_encoder) Concrete.healthy (Payload Concrete.good)
       Concrete.empty_server
     = ({| db := {| rows := rows (db (fst (ingest_metrics
                                              (encoder := Concrete.json_encoder)
                                              Concrete.healthy Concrete.good
                                              Concrete.empty_server)));
                    sequence := 1 |};
           store_calls := 1 |}, 200).
Proof. vm_compute. auto. Qed.

Lemma store_metrics_all_or_nothing_witness :
  snd (store_metrics (encoder := Concrete.json_encoder) Concrete.commit_broken
         Concrete.good (db Concrete.empty_server)) = false
  /\ fst (store_metrics (encoder := Concrete.json_encoder)
            Concrete.commit_broken Concrete.good (db Concrete.empty_server))
     = db Concrete.empty_server
  /\ snd (store_metrics (encoder := Concrete.json_encoder) Concrete.healthy
            Concrete.good (db Concrete.empty_server)) = true
  /\ length (rows (fst (store_metrics (encoder := Concrete.json_encoder)
                          Concrete.healthy Concrete.good (db Concrete.empty_server))))
     = 1%nat.
Proof.
  assert (Hbroken : snd (store_metrics (encoder := Concrete.json_encoder)
                           Concrete.commit_broken Concrete.good
                           (db Concrete.empty_server)) = false)
    by reflexivity.
  assert (Hhealthy : snd (store_metrics (encoder := Concrete.json_encoder)
                            Concrete.healthy Concrete.good (db Concrete.empty_server))
                     = true) by reflexivity.
  split; [exact Hbroken |]. split; [| split; [exact Hhealthy |]].
  - exact (proj1 (proj2 (store_metrics_all_or_nothing
                           (encoder := Concrete.json_encoder)
                           Concrete.commit_broken Concrete.good
                           (db Concrete.empty_server))) Hbroken).
  - destruct (proj2 (proj2 (store_metrics_all_or_nothing
                              (encoder := Concrete.json_encoder)
                              Concrete.healthy Concrete.good (db Concrete.empty_server)))
                Hhealthy) as (r & _ & Hlength & _).
    exact Hlength.
Defined.

Lemma invalid_payload_never_stored_witness :
  let bad := Concrete.sample_payload "2024-01-01T12:00:00+00:00" 150 in
  listed_failure (parser := Concrete.iso_parser) bad
  /\ post_ingest (parser := Concrete.iso_parser)
       (encoder := Concrete.json_encoder) Concrete.healthy (Payload bad)
       Concrete.empty_server
     = (Concrete.empty_server, 422).
Proof.
  cbv zeta.
  assert (Hbad : listed_failure (parser := Concrete.iso_parser)
                   (Concrete.sample_payload "2024-01-01T12:00:00+00:00" 150)).
  { apply cpu_percent_out_of_range. right. reflexivity. }
  split; [exact Hbad |].
  destruct (invalid_payload_never_stored (parser := Concrete.iso_parser)
              (encoder := Concrete.json_encoder)) as [Hlisted Hrejected].
  exact (proj1 (Hrejected Concrete.healthy _ Concrete.empty_server
                  (Hlisted _ Hbad))).
Defined.

Lemma storage_failure_answered_400_witness :
  MetricsPayload.valid (parser := Concrete.iso_parser) Concrete.good = true
  /\ snd (store_metrics (encoder := Concrete.json_encoder)
            Concrete.commit_broken Concrete.good (db Concrete.empty_server)) = false
  /\ snd (post_ingest (parser := Concrete.iso_parser)
            (encoder := Concrete.json_encoder) Concrete.commit_broken
            (Payload Concrete.good) Concrete.empty_server) = 400.
Proof.
  assert (Hvalid : MetricsPayload.valid (parser := Concrete.iso_parser) Concrete.good
                   = true) by (vm_compute; reflexivity).
  assert (Hfalse : snd (store_metrics (encoder := Concrete.json_encoder)
                          Concrete.commit_broken Concrete.good
                          (db Concrete.empty_server)) = false) by reflexivity.
  split; [exact Hvalid |]. split; [exact Hfalse |].
  exact (proj1 (proj2 (proj2 (storage_failure_answered_400
                                (parser := Concrete.iso_parser)
                                (encoder := Concrete.json_encoder)
                                Concrete.commit_broken Concrete.good
                                Concrete.empty_server Hvalid Hfalse)))).
Defined.

End IngestionExamples.

(** ** The read path and retention of the store *)

Section StoreQueries.

Import Server Queries.
Context `{parser : IsoParser} `{encoder : JsonEncoder} `{engine : Engine}.
Variable OverflowError : exn.

Lemma get_recent_metrics_readable env now hostname hours db since :
  readable env ->
  since_time now hours = Some since ->
  get_recent_metrics OverflowError env now hostname hours db
  = firstn 1000 (order_by_created_desc
                   (List.filter (selected hostname since) (rows db))).
Proof.
  intros [Hconnect Hexecute] Hsince.
  unfold get_recent_metrics, _get_connection.
  rewrite Hconnect, Hsince, Hexecute. reflexivity.
Qed.

Lemma get_recent_metrics_unreadable env now hostname hours db :
  connect_fails env = true \/ execute_fails env = true
  \/ since_time now hours = None ->
  get_recent_metrics OverflowError env now hostname hours db = [].
Proof.
  intros Hfail. unfold get_recent_metrics, _get_connection.
  destruct (connect_fails env); [reflexivity |].
  destruct (since_time now hours); cbn; [| reflexivity].
  destruct (execute_fails env); [reflexivity |].
  destruct Hfail as [Hf | [Hf | Hf]]; discriminate.
Qed.

Lemma get_summary_stats_unreadable env now hostname hours db :
  connect_fails env = true \/ execute_fails env = true
  \/ since_time now hours = None ->
  get_summary_stats OverflowError env now hostname hours db = None.
Proof.
  intros Hfail. unfold get_summary_stats, _get_connection.
  destruct (connect_fails env); [reflexivity |].
  destruct (since_time now hours); cbn; [| reflexivity].
  destruct (execute_fails env); [reflexivity |].
  destruct Hfail as [Hf | [Hf | Hf]]; discriminate.
Qed.

Lemma sorted_split {A} (R : A -> A -> Prop) (l1 l2 : list A) :
  StronglySorted R (l1 ++ l2) ->
  StronglySorted R l1 /\ forall x y, In x l1 -> In y l2 -> R x y.
Proof.
  induction l1 as [| a l1 IH]; cbn; intros Hsorted.
  - split; [constructor | intros x y []].
  - inversion Hsorted as [| ? ? Hrest Hall]; subst.
    destruct (IH Hrest) as [Hl1 Hcross].
    rewrite List.Forall_forall in Hall.
    split.
    + constructor; [exact Hl1 |]. apply List.Forall_forall.
      intros x Hx. apply Hall, in_or_app. left. exact Hx.
    + intros x y [-> | Hx] Hy.
      * apply Hall, in_or_app. right. exact Hy.
      * apply Hcross; assumption.
Qed.

Lemma get_recent_metrics_length env now hostname hours db since :
  orders_newest_first ->
  readable env ->
  since_time now hours = Some since ->
  length (get_recent_metrics OverflowError env now hostname hours db)
  = Nat.min 1000
      (length (List.filter (selected hostname since) (rows db))).
Proof.
  intros [Hperm _] Hread Hsince.
  rewrite (get_recent_metrics_readable _ _ _ _ _ _ Hread Hsince).
  rewrite length_firstn, (Permutation_length (Hperm _)). reflexivity.
Qed.

(** X1.  When the read goes through, [get_recent_metrics] returns rows of
    the table that lie in the window and belong to the host asked for, newest
    first and at most 1000 of them: all of them when no more than 1000 match,
    and otherwise none that is older than a matching row it leaves out. *)
Theorem recent_metrics_selects_newest env now hostname hours db since :
  orders_newest_first ->
  readable env ->
  since_time now hours = Some since ->
  let found := get_recent_metrics OverflowError env now hostname hours db in
  let matching := List.filter (selected hostname since) (rows db) in
  length found = Nat.min 1000 (length matching)
  /\ (forall r, In r found -> In r (rows db) /\ selected hostname since r = true)
  /\ StronglySorted (fun r1 r2 => created_at r2 <= created_at r1) found
  /\ (forall r r', In r found -> In r' matching -> ~ In r' found ->
        created_at r' <= created_at r)
  /\ ((length matching <= 1000)%nat -> forall r, In r matching -> In r found).
Proof.
  intros [Hperm Hsorted] Hread Hsince. cbv zeta.
  rewrite (get_recent_metrics_readable _ _ _ _ _ _ Hread Hsince).
  set (matching := List.filter (selected hostname since) (rows db)).
  specialize (Hperm matching). specialize (Hsorted matching).
  set (ordered := order_by_created_desc matching) in *.
  pose proof (firstn_skipn 1000 ordered) as Hsplit.
  rewrite <- Hsplit in Hsorted.
  apply sorted_split in Hsorted as [Hfirst Hcross].
  split; [| split; [| split; [| split]]].
  - rewrite length_firstn, (Permutation_length Hperm). reflexivity.
  - intros r Hr.
    assert (Hin : In r matching).
    { eapply Permutation_in; [exact Hperm |].
      rewrite <- Hsplit. apply in_or_app. left. exact Hr. }
    apply filter_In in Hin. exact Hin.
  - exact Hfirst.
  - intros r r' Hr Hr' Hout. apply Hcross; [exact Hr |].
    assert (Hin : In r' (firstn 1000 ordered ++ skipn 1000 ordered)).
    { rewrite Hsplit. eapply Permutation_in; [symmetry; exact Hperm | exact Hr']. }
    apply in_app_or in Hin as [Hin | Hin]; [contradiction | exact Hin].
  - intros Hfew r Hr.
    rewrite firstn_all2 by (rewrite (Permutation_length Hperm); exact Hfew).
    eapply Permutation_in; [symmetry; exact Hperm | exact Hr].
Qed.

(** X2.  The read path hides its failures: when the database cannot be
    opened, when the SELECT fails, or when the start of the window falls
    outside the range of [datetime] (a window that reaches before year 1 in
    particular), GET /metrics answers 200 with no rows and
    GET /metrics/summary answers 200 with an empty summary, whatever the
    table holds. *)
Theorem read_failures_answer_empty env now hostname hours srv :
  connect_fails env = true \/ execute_fails env = true
  \/ now - hours * 3600000000 < datetime_min
  \/ datetime_max < now - hours * 3600000000 ->
  get_metrics OverflowError env now hostname hours srv = (200, (0%nat, []))
  /\ get_metrics_summary OverflowError env now hostname hours srv = (200, None).
Proof.
  intros Hfail.
  assert (Hunreadable : connect_fails env = true \/ execute_fails env = true
                        \/ since_time now hours = None).
  { destruct Hfail as [Hf | [Hf | Hrange]]; [auto | auto |].
    right. right. unfold since_time, timedelta_hours, datetime_sub.
    destruct (_ && _); [| reflexivity].
    destruct (datetime_min <=? now - hours * 3600000000) eqn:Hlow;
      [| reflexivity].
    destruct (now - hours * 3600000000 <=? datetime_max) eqn:Hhigh;
      [| reflexivity].
    apply Z.leb_le in Hlow, Hhigh. lia. }
  unfold get_metrics, get_metrics_summary.
  rewrite (get_recent_metrics_unreadable _ _ _ _ _ Hunreadable),
    (get_summary_stats_unreadable _ _ _ _ _ Hunreadable).
  split; reflexivity.
Qed.

Lemma max_fold_spec (rest : list Q) :
  forall x : Q,
    let m := fold_left (fun m y => if Qgtb y m then y else m) rest x in
    (m = x \/ In m rest) /\ (x <= m)%Q /\ forall y, In y rest -> (y <= m)%Q.
Proof.
  induction rest as [| y rest IH]; intros x; cbn.
  - split; [auto |]. split; [apply Qle_refl | intros y []].
  - destruct (IH (if Qgtb y x then y else x)) as (Hin & Hlow & Hall).
    destruct (Qgtb y x) eqn:Hcmp.
    + apply Qgtb_true in Hcmp. split; [destruct Hin; auto |].
      split; [lra |]. intros z [<- | Hz]; [exact Hlow | apply Hall, Hz].
    + apply Qgtb_false in Hcmp. split; [destruct Hin; auto |].
      split; [exact Hlow |]. intros z [<- | Hz]; [lra | apply Hall, Hz].
Qed.

Lemma max_of_spec (column : list Q) (m : Q) :
  max_of column = Some m ->
  In m column /\ forall x, In x column -> (x <= m)%Q.
Proof.
  destruct column as [| x rest]; cbn; [discriminate |].
  intros Hm. inversion Hm as [Hfold]. clear Hm.
  destruct (max_fold_spec rest x) as (Hin & Hlow & Hall). cbv zeta in *.
  split.
  - destruct Hin as [-> | Hin]; auto.
  - intros z [<- | Hz]; [exact Hlow | apply Hall, Hz].
Qed.

Lemma get_summary_stats_readable env now hostname hours db since :
  readable env ->
  since_time now hours = Some since ->
  let found := List.filter (selected hostname since) (rows db) in
  get_summary_stats OverflowError env now hostname hours db
  = Some {| total_records := length found;
            avg_cpu := avg_of (map cpu_percent found);
            max_cpu := max_of (map cpu_percent found);
            avg_memory := avg_of (map memory_percent found);
            max_memory := max_of (map memory_percent found);
            avg_swap := avg_of (map swap_percent found);
            max_swap := max_of (map swap_percent found) |}.
Proof.
  intros [Hconnect Hexecute] Hsince.
  unfold get_summary_stats, _get_connection.
  rewrite Hconnect, Hsince, Hexecute. reflexivity.
Qed.

(** X3.  When the read goes through, the summary counts every row of the
    window, also beyond the 1000 that GET /metrics returns; each maximum it
    reports is the value of a counted row and bounds the values of all of
    them; and over an empty window it reports the count 0 with every average
    and maximum absent. *)
Theorem summary_counts_whole_window env now hostname hours db since :
  readable env ->
  since_time now hours = Some since ->
  let matching := List.filter (selected hostname since) (rows db) in
  exists stats,
    get_summary_stats OverflowError env now hostname hours db = Some stats
    /\ total_records stats = length matching
    /\ (orders_newest_first ->
        length (get_recent_metrics OverflowError env now hostname hours db)
        = Nat.min 1000 (total_records stats))
    /\ (forall m, max_cpu stats = Some m ->
          (exists r, In r matching /\ cpu_percent r = m)
          /\ forall r, In r matching -> (cpu_percent r <= m)%Q)
    /\ (forall m, max_memory stats = Some m ->
          (exists r, In r matching /\ memory_percent r = m)
          /\ forall r, In r matching -> (memory_percent r <= m)%Q)
    /\ (forall m, max_swap stats = Some m ->
          (exists r, In r matching /\ swap_percent r = m)
          /\ forall r, In r matching -> (swap_percent r <= m)%Q)
    /\ (matching = [] ->
        total_records stats = 0%nat
        /\ avg_cpu stats = None /\ max_cpu stats = None
        /\ avg_memory stats = None /\ max_memory stats = None
        /\ avg_swap stats = None /\ max_swap stats = None).
Proof.
  intros Hread Hsince. cbv zeta.
  rewrite (get_summary_stats_readable _ _ _ _ _ _ Hread Hsince). cbv zeta.
  set (matching := List.filter (selected hostname since) (rows db)).
  assert (Hcolumn : forall (column : row -> Q) m,
            max_of (map column matching) = Some m ->
            (exists r, In r matching /\ column r = m)
            /\ forall r, In r matching -> (column r <= m)%Q).
  { intros column m Hm. apply max_of_spec in Hm as [Hin Hall]. split.
    - apply in_map_iff in Hin as (r & Hr & Hin). eauto.
    - intros r Hr. apply Hall, in_map, Hr. }
  eexists. split; [reflexivity |]. cbn.
  split; [reflexivity |].
  split.
  { intros Horder.
    exact (get_recent_metrics_length env now hostname hours db
             since Horder Hread Hsince). }
  split; [apply Hcolumn |]. split; [apply Hcolumn |]. split; [apply Hcolumn |].
  intros Hempty. rewrite Hempty. cbn. auto 10.
Qed.

Lemma filter_partition_length {A} (f : A -> bool) (l : list A) :
  (length (List.filter f l)
   + length (List.filter (fun x => negb (f x)) l) = length l)%nat.
Proof.
  induction l as [| x l IH]; cbn; [reflexivity |].
  destruct (f x); cbn; lia.
Qed.

Lemma filter_none {A} (f : A -> bool) (l : list A) :
  List.filter f (List.filter (fun x => negb (f x)) l) = [].
Proof.
  induction l as [| x l IH]; cbn; [reflexivity |].
  destruct (f x) eqn:Hx; cbn; [exact IH |]. rewrite Hx. exact IH.
Qed.

Lemma filter_fixed {A} (f : A -> bool) (l : list A) :
  List.filter f l = [] -> List.filter (fun x => negb (f x)) l = l.
Proof.
  induction l as [| x l IH]; cbn; [reflexivity |].
  destruct (f x); cbn; [discriminate |]. intros H. f_equal. apply IH, H.
Qed.

(** The two ways in which [cleanup_old_data] ends. *)
Lemma cleanup_old_data_cases env now days_to_keep db :
  (cleanup_old_data OverflowError env now days_to_keep db = (db, 0%nat)
   /\ (connect_fails env = true \/ execute_fails env = true
       \/ commit_fails env = true \/ cutoff_date now days_to_keep = None))
  \/ (exists cutoff,
        writable env
        /\ cutoff_date now days_to_keep = Some cutoff
        /\ cleanup_old_data OverflowError env now days_to_keep db
           = ({| rows := List.filter (fun r => negb (older_than cutoff r))
                           (rows db);
                 sequence := sequence db |},
              length (List.filter (older_than cutoff) (rows db)))).
Proof.
  unfold cleanup_old_data, _get_connection, cleanup_body, commit, writable.
  destruct (connect_fails env); [left; auto |].
  destruct (cutoff_date now days_to_keep) as [cutoff |]; [| left; auto 6].
  destruct (execute_fails env); [left; auto |].
  destruct (commit_fails env); [left; auto 6 |].
  right. exists cutoff. cbn. auto.
Qed.

(** X4.  [cleanup_old_data] reports exactly the rows it removed and leaves
    the id counter alone.  When every call goes through it removes the rows
    older than the cutoff and no other, keeping the rest in their order;
    when the connection, the DELETE, the commit or the date arithmetic fails
    it reports 0 and the table is what it was, a DELETE that was not
    committed being rolled back.  A second cleanup with the same clock
    reading finds nothing left to remove. *)
Theorem cleanup_removes_only_older env now days_to_keep db :
  let out := cleanup_old_data OverflowError env now days_to_keep db in
  (snd out + length (rows (fst out)) = length (rows db))%nat
  /\ sequence (fst out) = sequence db
  /\ (connect_fails env = true \/ execute_fails env = true
      \/ commit_fails env = true \/ cutoff_date now days_to_keep = None ->
      out = (db, 0%nat))
  /\ (forall cutoff,
        writable env -> cutoff_date now days_to_keep = Some cutoff ->
        rows (fst out)
        = List.filter (fun r => negb (older_than cutoff r)) (rows db)
        /\ snd out = length (List.filter (older_than cutoff) (rows db)))
  /\ cleanup_old_data OverflowError env now days_to_keep (fst out)
     = (fst out, 0%nat).
Proof.
  cbv zeta.
  destruct (cleanup_old_data_cases env now days_to_keep db)
    as [[Hout Hwhy] | (cutoff & Hwrite & Hcut & Hout)].
  - rewrite Hout. cbn [fst snd].
    split; [reflexivity |]. split; [reflexivity |]. split; [reflexivity |].
    split; [| exact Hout].
    intros cutoff (Hc & He & Hm) Hcut.
    destruct Hwhy as [H | [H | [H | H]]]; congruence.
  - rewrite Hout. cbn [fst snd rows sequence].
    split; [apply filter_partition_length |]. split; [reflexivity |].
    split.
    { destruct Hwrite as (Hc & He & Hm).
      intros [H | [H | [H | H]]]; congruence. }
    split.
    { intros cutoff' _ Hcut'. rewrite Hcut in Hcut'.
      inversion Hcut'. subst cutoff'. auto. }
    destruct (cleanup_old_data_cases env now days_to_keep
                {| rows := List.filter (fun r => negb (older_than cutoff r))
                             (rows db);
                   sequence := sequence db |})
      as [[Hagain _] | (cutoff' & _ & Hcut' & Hagain)]; [exact Hagain |].
    rewrite Hagain. cbn [rows sequence].
    rewrite Hcut in Hcut'. inversion Hcut'. subst cutoff'.
    rewrite filter_none. cbn [length].
    rewrite (filter_fixed _ _ (filter_none (older_than cutoff) (rows db))).
    reflexivity.
Qed.

Lemma StronglySorted_filter {A} (R : A -> A -> Prop) (f : A -> bool)
    (l : list A) :
  StronglySorted R l -> StronglySorted R (List.filter f l).
Proof.
  induction 1 as [| x l Hsorted IH Hall]; cbn; [constructor |].
  destruct (f x); [| exact IH].
  constructor; [exact IH |].
  rewrite List.Forall_forall in *. intros y Hy.
  apply List.filter_In in Hy as [Hy _]. auto.
Qed.

Lemma StronglySorted_snoc {A} (R : A -> A -> Prop) (l : list A) (x : A) :
  StronglySorted R l -> Forall (fun y => R y x) l ->
  StronglySorted R (l ++ [x]).
Proof.
  induction 1 as [| y l Hsorted IH Hall]; intros Hbelow; cbn.
  - repeat constructor.
  - inversion Hbelow as [| ? ? Hy Hrest]; subst.
    constructor; [apply IH, Hrest |].
    apply List.Forall_app. split; [exact Hall |].
    constructor; [exact Hy | constructor].
Qed.

(** What one operation does to a table whose ids are in order. *)
Lemma apply_operation_step db op :
  well_formed db ->
  let db' := apply_operation OverflowError db op in
  well_formed db'
  /\ sequence db <= sequence db'
  /\ forall r, In r (rows db') -> In r (rows db) \/ sequence db < id r.
Proof.
  intros (Hsorted & Hbound & Hcounter). cbv zeta.
  destruct op as [env payload | env now d].
  - cbn [apply_operation].
    destruct (snd (store_metrics env payload db)) eqn:Hok.
    + destruct (store_metrics_success env payload db Hok)
        as (r & Hdb & Hid & _).
      rewrite Hdb. unfold well_formed. cbn [rows sequence].
      split; [split; [| split] |]; [| | | split].
      * apply StronglySorted_snoc; [exact Hsorted |].
        rewrite List.Forall_forall in *. intros y Hy.
        specialize (Hbound y Hy). lia.
      * apply List.Forall_app. split.
        -- rewrite List.Forall_forall in *. intros y Hy.
           specialize (Hbound y Hy). lia.
        -- constructor; [lia | constructor].
      * lia.
      * lia.
      * intros y Hy. apply in_app_or in Hy as [Hy | [<- | []]]; [auto |].
        right. lia.
    + rewrite (store_metrics_failure env payload db Hok).
      split; [repeat split; assumption |]. split; [lia | auto].
  - cbn [apply_operation].
    destruct (cleanup_old_data_cases env now d db)
      as [[Hout _] | (cutoff & _ & _ & Hout)]; rewrite Hout; cbn [fst].
    + split; [repeat split; assumption |]. split; [lia | auto].
    + unfold well_formed. cbn [rows sequence].
      split; [split; [| split] |]; [| | | split].
      * apply StronglySorted_filter, Hsorted.
      * rewrite List.Forall_forall in *. intros y Hy.
        apply List.filter_In in Hy as [Hy _]. auto.
      * exact Hcounter.
      * lia.
      * intros y Hy. apply List.filter_In in Hy as [Hy _]. auto.
Qed.

Lemma well_formed_NoDup db :
  well_formed db -> List.NoDup (map id (rows db)).
Proof.
  intros [Hsorted _]. induction Hsorted as [| x l Hsorted IH Hall]; cbn.
  - constructor.
  - constructor; [| exact IH].
    intros Hin. apply in_map_iff in Hin as (y & Hy & Hin).
    rewrite List.Forall_forall in Hall. specialize (Hall y Hin). lia.
Qed.

Lemma apply_operations_invariant ops :
  forall db,
    well_formed db ->
    well_formed (apply_operations OverflowError db ops)
    /\ sequence db <= sequence (apply_operations OverflowError db ops)
    /\ forall r, In r (rows (apply_operations OverflowError db ops)) ->
         In r (rows db) \/ sequence db < id r.
Proof.
  unfold apply_operations.
  induction ops as [| op ops IH]; intros db Hwf; cbn [fold_left].
  - split; [exact Hwf |]. split; [lia | auto].
  - destruct (apply_operation_step db op Hwf) as (Hwf' & Hseq & Hrows).
    destruct (IH _ Hwf') as (Hwf'' & Hseq' & Hrows').
    split; [exact Hwf'' |]. split; [lia |].
    intros r Hr. destruct (Hrows' r Hr) as [Hin | Hnew].
    + destruct (Hrows r Hin); [auto | right; lia].
    + right. lia.
Qed.

(** Every table that the operations can produce from the one that
    [_init_database] creates has its ids in order. *)
Lemma reachable_tables_well_formed ops :
  well_formed (apply_operations OverflowError empty_database ops).
Proof.
  apply apply_operations_invariant. unfold well_formed, empty_database. cbn.
  split; [constructor |]. split; [constructor | lia].
Qed.

(** X5.  Ids are never handed out twice.  Starting from a table whose ids
    are in increasing order and below the counter, after any sequence of
    stores and cleanups, failed or not, the table is again of that kind, its
    ids are pairwise different, the counter has not gone back, and every row
    is either a row that was there before or carries an id above the old
    counter: the id of a removed row is not given to a later one. *)
Theorem ids_never_reused db ops :
  well_formed db ->
  let db' := apply_operations OverflowError db ops in
  well_formed db'
  /\ List.NoDup (map id (rows db'))
  /\ sequence db <= sequence db'
  /\ forall r, In r (rows db') -> In r (rows db) \/ sequence db < id r.
Proof.
  intros Hwf. cbv zeta.
  destruct (apply_operations_invariant ops db Hwf) as (Hwf' & Hseq & Hrows).
  split; [exact Hwf' |]. split; [apply well_formed_NoDup, Hwf' |].
  split; assumption.
Qed.

Lemma since_time_value now hours since :
  since_time now hours = Some since -> since = now - hours * 3600000000.
Proof.
  unfold since_time, timedelta_hours, datetime_sub.
  destruct (_ && _); [| discriminate]. destruct (_ && _); [| discriminate].
  intros H. inversion H. reflexivity.
Qed.

Lemma cutoff_date_value now days_to_keep cutoff :
  cutoff_date now days_to_keep = Some cutoff ->
  cutoff = now - days_to_keep * 86400000000.
Proof.
  unfold cutoff_date, timedelta_days, datetime_sub.
  destruct (_ && _); [| discriminate]. destruct (_ && _); [| discriminate].
  intros H. inversion H. reflexivity.
Qed.

Lemma selected_in_window hostname since r :
  selected hostname since r = true -> in_window since r = true.
Proof.
  unfold selected. destruct hostname as [[| c h] |]; try tauto.
  intros H. apply andb_prop in H as [_ H]. exact H.
Qed.

Lemma selected_own_host since r :
  in_window since r = true ->
  selected (Some (Server.hostname r)) since r = true.
Proof.
  intros Hwin. unfold selected.
  destruct (Server.hostname r) as [| c h] eqn:Hhost; [exact Hwin |].
  rewrite String.eqb_refl. exact Hwin.
Qed.

(** X6.  A stored payload is the first thing read back.  When
    [store_metrics] has returned true at a database time later than that of
    every row present and later than the start of the window, a read that
    goes through, for all hosts or for the host of the payload, returns the
    new row first, with the id, the host and the values of the payload. *)
Theorem stored_row_read_back_first env env' payload db now hostname hours
    since :
  orders_newest_first ->
  readable env' ->
  snd (store_metrics env payload db) = true ->
  since_time now hours = Some since ->
  datetime_seconds since < current_timestamp env ->
  (forall r, In r (rows db) -> created_at r < current_timestamp env) ->
  hostname = None \/ hostname = Some (MetricsPayload.hostname payload) ->
  exists r rest,
    get_recent_metrics OverflowError env' now hostname hours
      (fst (store_metrics env payload db)) = r :: rest
    /\ id r = sequence db + 1
    /\ Server.hostname r = MetricsPayload.hostname payload
    /\ Server.timestamp r
       = SystemMetrics.timestamp (MetricsPayload.metrics payload)
    /\ cpu_percent r
       = CPUMetrics.percent (SystemMetrics.cpu (MetricsPayload.metrics payload))
    /\ created_at r = current_timestamp env.
Proof.
  intros [Hperm Hsorted] Hread Hok Hsince Hlater Holder Hhost.
  destruct (store_metrics_success env payload db Hok)
    as (r0 & Hdb & Hid & Hname & Hstamp & Hcpu & _ & _ & Hcreated).
  rewrite (get_recent_metrics_readable _ _ _ _ _ _ Hread Hsince), Hdb.
  cbn [rows].
  set (matching := List.filter (selected hostname since) (rows db ++ [r0])).
  assert (Hselected : selected hostname since r0 = true).
  { assert (Hwin : in_window since r0 = true)
      by (unfold in_window; apply Z.ltb_lt; lia).
    destruct Hhost as [-> | ->]; [exact Hwin |].
    rewrite <- Hname. apply selected_own_host, Hwin. }
  assert (Hin0 : In r0 (order_by_created_desc matching)).
  { apply (Permutation_in _ (Permutation_sym (Hperm matching))).
    apply List.filter_In. split; [| exact Hselected].
    apply in_or_app. right. left. reflexivity. }
  specialize (Hsorted matching).
  destruct (order_by_created_desc matching) as [| h t] eqn:Hordered;
    [destruct Hin0 |].
  assert (Hh : In h matching).
  { apply (Permutation_in _ (Hperm matching)). rewrite Hordered. left.
    reflexivity. }
  apply List.filter_In in Hh as [Hh _].
  assert (Hhead : h = r0).
  { apply in_app_or in Hh as [Hh | [Hh | []]]; [| auto].
    exfalso. specialize (Holder h Hh).
    destruct Hin0 as [Heq | Htail]; [subst h; lia |].
    inversion Hsorted as [| ? ? _ Hall]; subst.
    rewrite List.Forall_forall in Hall. specialize (Hall r0 Htail). lia. }
  subst h. exists r0, (firstn 999 t).
  split; [reflexivity |]. auto.
Qed.

Lemma filter_filter_implied {A} (f g : A -> bool) (l : list A) :
  (forall x, f x = true -> g x = true) ->
  List.filter f (List.filter g l) = List.filter f l.
Proof.
  intros Himplied. induction l as [| x l IH]; cbn; [reflexivity |].
  destruct (g x) eqn:Hg; cbn.
  - rewrite IH. reflexivity.
  - destruct (f x) eqn:Hf; [| exact IH].
    rewrite (Himplied x Hf) in Hg. discriminate.
Qed.

(** X7.  A cleanup does not touch what the reads of the same instant see.
    With a [datetime] of SQLite that is monotone, after
    [cleanup_old_data(days_to_keep)], failed or not, [get_recent_metrics]
    and [get_summary_stats] over a window of at most [24 * days_to_keep]
    hours return what they would have returned before it. *)
Theorem cleanup_spares_the_window env env' now days_to_keep hours hostname
    db :
  (forall a b, a <= b -> datetime_seconds a <= datetime_seconds b) ->
  hours <= 24 * days_to_keep ->
  let db' := fst (cleanup_old_data OverflowError env now days_to_keep db) in
  get_recent_metrics OverflowError env' now hostname hours db'
  = get_recent_metrics OverflowError env' now hostname hours db
  /\ get_summary_stats OverflowError env' now hostname hours db'
     = get_summary_stats OverflowError env' now hostname hours db.
Proof.
  intros Hmono Hhours. cbv zeta.
  destruct (cleanup_old_data_cases env now days_to_keep db)
    as [[Hout _] | (cutoff & _ & Hcut & Hout)]; rewrite Hout; cbn [fst];
    [split; reflexivity |].
  unfold get_recent_metrics, get_summary_stats, _get_connection.
  destruct (connect_fails env'); [split; reflexivity |].
  destruct (since_time now hours) as [since |] eqn:Hsince;
    [| split; reflexivity].
  destruct (execute_fails env'); [split; reflexivity |].
  cbn [connect in_transaction rows].
  rewrite filter_filter_implied; [split; reflexivity |].
  intros r Hr. apply selected_in_window in Hr.
  unfold in_window in Hr. apply Z.ltb_lt in Hr.
  apply since_time_value in Hsince. apply cutoff_date_value in Hcut.
  assert (Hle : datetime_seconds cutoff <= datetime_seconds since)
    by (apply Hmono; lia).
  unfold older_than. apply negb_true_iff, Z.ltb_ge. lia.
Qed.

(** How [post_ingest] ends, with the row it stores. *)
Lemma post_ingest_cases env b srv :
  (exists p r,
     b = Payload p /\ MetricsPayload.valid p = true
     /\ snd (store_metrics env p (db srv)) = true
     /\ fst (store_metrics env p (db srv))
        = {| rows := (rows (db srv) ++ [r])%list;
             sequence := sequence (db srv) + 1 |}
     /\ post_ingest env b srv
        = ({| db := fst (store_metrics env p (db srv));
              store_calls := S (store_calls srv) |}, 200))
  \/ (exists p,
        b = Payload p /\ MetricsPayload.valid p = true
        /\ snd (store_metrics env p (db srv)) = false
        /\ post_ingest env b srv
           = ({| db := db srv; store_calls := S (store_calls srv) |}, 400))
  \/ (Spec.fails_validation b /\ post_ingest env b srv = (srv, 422)).
Proof.
  destruct b as [| p]; [right; right; split; [exact I | reflexivity] |].
  unfold post_ingest, Spec.fails_validation.
  destruct (MetricsPayload.valid p) eqn:Hvalid;
    [| right; right; split; reflexivity].
  unfold ingest_metrics, ingest_try.
  destruct (store_metrics env p (db srv)) as [db' success] eqn:Hstore.
  assert (Hsnd : snd (store_metrics env p (db srv)) = success)
    by (rewrite Hstore; reflexivity).
  assert (Hfst : fst (store_metrics env p (db srv)) = db')
    by (rewrite Hstore; reflexivity).
  destruct success; cbn.
  - left. destruct (store_metrics_success env p (db srv) Hsnd)
      as (r & Hdb & _).
    exists p, r. rewrite <- Hfst. auto 6.
  - right. left. exists p.
    rewrite <- Hfst, (store_metrics_failure env p (db srv) Hsnd). auto 6.
Qed.

(** X8.  POST /ingest answers 200, 400 or 422 and nothing else: the 500
    that the endpoint function raises on a failed store never reaches the
    client.  The table has one more row exactly when the answer is 200, and
    is what it was otherwise; [store_metrics] has been called once unless
    the answer is 422. *)
Theorem ingest_answers_200_400_422 env b srv :
  let out := post_ingest env b srv in
  (snd out = 200 \/ snd out = 400 \/ snd out = 422)
  /\ (snd out = 200 <->
      exists r, rows (db (fst out)) = (rows (db srv) ++ [r])%list)
  /\ (snd out <> 200 -> db (fst out) = db srv)
  /\ (snd out = 422 <-> store_calls (fst out) = store_calls srv)
  /\ (snd out <> 422 -> store_calls (fst out) = S (store_calls srv)).
Proof.
  cbv zeta.
  assert (Hgrow : forall (l : list row) r, l <> (l ++ [r])%list).
  { intros l r H. apply (f_equal (@length row)) in H.
    rewrite length_app in H. cbn in H. lia. }
  destruct (post_ingest_cases env b srv)
    as [(p & r & _ & _ & _ & Hdb & Hout) | [(p & _ & _ & _ & Hout)
                                            | [_ Hout]]];
    rewrite Hout; cbn [fst snd db store_calls].
  - rewrite Hdb. cbn [rows].
    split; [auto |]. split; [split; eauto |].
    split; [congruence |]. split; [split; [discriminate | lia] | reflexivity].
  - split; [auto |].
    split; [split; [discriminate | intros [r Hr]; destruct (Hgrow _ _ Hr)] |].
    split; [reflexivity |]. split; [split; [discriminate | lia] | reflexivity].
  - split; [auto |].
    split; [split; [discriminate | intros [r Hr]; destruct (Hgrow _ _ Hr)] |].
    split; [reflexivity |]. split; [tauto | congruence].
Qed.

(** The row that a successful [store_metrics] appends, column by column. *)
Lemma store_metrics_columns env payload db r :
  snd (store_metrics env payload db) = true ->
  rows (fst (store_metrics env payload db)) = (rows db ++ [r])%list ->
  Server.hostname r = MetricsPayload.hostname payload
  /\ cpu_percent r
     = CPUMetrics.percent (SystemMetrics.cpu (MetricsPayload.metrics payload))
  /\ memory_percent r
     = MemoryMetrics.percent
         (SystemMetrics.memory (MetricsPayload.metrics payload))
  /\ swap_percent r
     = SwapMetrics.percent (SystemMetrics.swap (MetricsPayload.metrics payload))
  /\ memory_total r
     = MemoryMetrics.total (SystemMetrics.memory (MetricsPayload.metrics payload))
  /\ memory_used r
     = MemoryMetrics.used (SystemMetrics.memory (MetricsPayload.metrics payload)).
Proof.
  unfold store_metrics, _get_connection, store_body, execute_insert, commit.
  destruct (connect_fails env); cbn; [discriminate |].
  destruct (dumps_disks _); cbn; [| discriminate].
  destruct (match SystemMetrics.network (MetricsPayload.metrics payload) with
            | Some n => _
            | None => _
            end); cbn; [| discriminate].
  destruct (dumps_payload payload); cbn; [| discriminate].
  destruct (execute_fails env); cbn; [discriminate |].
  destruct (commit_fails env); cbn; [discriminate |].
  intros _ Hrows. apply app_inv_head in Hrows. inversion Hrows. cbn.
  repeat split.
Qed.

Lemma valid_payload_in_range env p db r :
  MetricsPayload.valid p = true ->
  snd (store_metrics env p db) = true ->
  rows (fst (store_metrics env p db)) = (rows db ++ [r])%list ->
  in_range r.
Proof.
  intros Hvalid Hok Hrows.
  destruct (store_metrics_columns env p db r Hok Hrows)
    as (Hhost & Hcpu & Hmem & Hswap & Htotal & Hused).
  unfold in_range. rewrite Hhost, Hcpu, Hmem, Hswap, Htotal, Hused.
  unfold MetricsPayload.valid, SystemMetrics.valid, CPUMetrics.valid,
    MemoryMetrics.valid, SwapMetrics.valid in Hvalid.
  repeat match goal with
         | Hc : _ && _ = true |- _ => apply andb_prop in Hc as [? ?]
         end.
  repeat match goal with
         | Hc : between_0_100 _ = true |- _ =>
             apply between_0_100_spec in Hc as [? ?]
         | Hc : (_ <? _) = true |- _ => apply Z.ltb_lt in Hc
         | Hc : (_ <=? _) = true |- _ => apply Z.leb_le in Hc
         | Hc : (_ <=? _)%nat = true |- _ => apply Nat.leb_le in Hc
         end.
  repeat (split; [assumption |]). assumption.
Qed.

Lemma handle_in_range srv req :
  Forall in_range (rows (db srv)) ->
  Forall in_range (rows (db (handle OverflowError srv req))).
Proof.
  intros Hrange. destruct req as [env b | env now d]; cbn [handle].
  - destruct (post_ingest_cases env b srv)
      as [(p & r & _ & Hvalid & Hok & Hdb & Hout) | [(p & _ & _ & _ & Hout)
                                                     | [_ Hout]]];
      rewrite Hout; cbn [fst db]; [| assumption | assumption].
    rewrite Hdb. cbn [rows]. apply List.Forall_app. split; [exact Hrange |].
    constructor; [| constructor].
    apply (valid_payload_in_range env p (db srv) r Hvalid Hok).
    rewrite Hdb. reflexivity.
  - unfold cleanup_data.
    destruct (cleanup_old_data_cases env now d (db srv))
      as [[Hout _] | (cutoff & _ & _ & Hout)]; rewrite Hout; cbn [fst db rows];
      [exact Hrange |].
    rewrite List.Forall_forall in *. intros r Hr.
    apply List.filter_In in Hr as [Hr _]. auto.
Qed.

(** X9.  What enters through POST /ingest stays within the bounds of the
    models.  If every row of the table is within them, then after any
    sequence of POST /ingest and POST /cleanup requests every row still is:
    percentages between 0 and 100, a positive memory total, a host name of 1
    to 255 characters.  The maxima of a summary over such a table therefore
    lie between 0 and 100. *)
Theorem stored_rows_within_bounds srv reqs :
  Forall in_range (rows (db srv)) ->
  let srv' := handle_all OverflowError srv reqs in
  Forall in_range (rows (db srv'))
  /\ forall env now hostname hours stats,
       get_summary_stats OverflowError env now hostname hours (db srv')
       = Some stats ->
       (forall m, max_cpu stats = Some m -> (0 <= m)%Q /\ (m <= 100)%Q)
       /\ (forall m, max_memory stats = Some m -> (0 <= m)%Q /\ (m <= 100)%Q)
       /\ (forall m, max_swap stats = Some m -> (0 <= m)%Q /\ (m <= 100)%Q).
Proof.
  intros Hrange. cbv zeta.
  assert (Hall : Forall in_range (rows (db (handle_all OverflowError srv reqs)))).
  { unfold handle_all. revert srv Hrange.
    induction reqs as [| req reqs IH]; intros srv Hrange; cbn [fold_left];
      [exact Hrange |].
    apply IH, handle_in_range, Hrange. }
  split; [exact Hall |].
  intros env now hostname hours stats Hstats.
  set (table := db (handle_all OverflowError srv reqs)) in *.
  unfold get_summary_stats, _get_connection in Hstats.
  destruct (connect_fails env); [discriminate |].
  destruct (since_time now hours) as [since |]; [| discriminate].
  destruct (execute_fails env); [discriminate |].
  cbn [connect in_transaction] in Hstats. inversion Hstats. cbn.
  assert (Hcolumn : forall (column : row -> Q) m,
            (forall r, in_range r ->
                       (0 <= column r)%Q /\ (column r <= 100)%Q) ->
            max_of (map column
                      (List.filter (selected hostname since) (rows table)))
            = Some m ->
            (0 <= m)%Q /\ (m <= 100)%Q).
  { intros column m Hbounds Hm. apply max_of_spec in Hm as [Hin _].
    apply in_map_iff in Hin as (r & <- & Hin).
    apply List.filter_In in Hin as [Hin _]. apply Hbounds.
    rewrite List.Forall_forall in Hall. apply Hall, Hin. }
  split; [| split]; intros m Hm; apply (Hcolumn _ m) in Hm; try exact Hm;
    unfold in_range; tauto.
Qed.

Lemma replace_Z_app a b :
  replace_Z (a ++ b) = replace_Z a ++ replace_Z b.
Proof.
  induction a as [| c a IH]; [reflexivity |].
  change (String c a ++ b) with (String c (a ++ b)). cbn [replace_Z].
  rewrite IH. destruct (Ascii.eqb c "Z"); reflexivity.
Qed.

Lemma replace_Z_idempotent v :
  replace_Z (replace_Z v) = replace_Z v.
Proof.
  induction v as [| c v IH]; cbn; [reflexivity |].
  destruct (Ascii.eqb c "Z") eqn:Hc.
  - rewrite replace_Z_app, IH. reflexivity.
  - cbn. rewrite Hc, IH. reflexivity.
Qed.

(** X10.  The timestamp validator reads every [Z] as [+00:00], wherever it
    stands and however many there are: a text with a [Z] in it is accepted
    exactly when the text with [+00:00] in that place is, and a text is
    accepted exactly when its replaced form is. *)
Theorem every_Z_read_as_utc_offset (a b v : string) :
  SystemMetrics.validate_timestamp (a ++ "Z" ++ b)
  = SystemMetrics.validate_timestamp (a ++ "+00:00" ++ b)
  /\ SystemMetrics.validate_timestamp (replace_Z v)
     = SystemMetrics.validate_timestamp v.
Proof.
  unfold SystemMetrics.validate_timestamp. split.
  - rewrite !replace_Z_app. reflexivity.
  - rewrite replace_Z_idempotent. reflexivity.
Qed.

End StoreQueries.

Section StoreQueriesExamples.

Import Server Queries.

Lemma insert_desc_permutation r l :
  Permutation (Samples.insert_desc r l) (r :: l).
Proof.
  induction l as [| x l IH]; cbn; [apply Permutation_refl |].
  destruct (created_at x <? created_at r); [apply Permutation_refl |].
  apply (Permutation_trans (perm_skip x IH)). apply perm_swap.
Qed.

Lemma sort_desc_permutation l : Permutation (Samples.sort_desc l) l.
Proof.
  induction l as [| x l IH]; cbn; [constructor |].
  apply (Permutation_trans (insert_desc_permutation x _)).
  apply perm_skip, IH.
Qed.

Lemma insert_desc_sorted r l :
  StronglySorted (fun r1 r2 => created_at r2 <= created_at r1) l ->
  StronglySorted (fun r1 r2 => created_at r2 <= created_at r1)
    (Samples.insert_desc r l).
Proof.
  induction 1 as [| x l Hsorted IH Hall]; cbn.
  - repeat constructor.
  - rewrite List.Forall_forall in Hall.
    destruct (created_at x <? created_at r) eqn:Hcmp.
    + apply Z.ltb_lt in Hcmp. constructor; [constructor; [exact Hsorted |] |].
      * rewrite List.Forall_forall. exact Hall.
      * rewrite List.Forall_forall. intros y [<- | Hy]; [lia |].
        specialize (Hall y Hy). lia.
    + apply Z.ltb_ge in Hcmp. constructor; [exact IH |].
      rewrite List.Forall_forall. intros y Hy.
      apply (Permutation_in _ (insert_desc_permutation r l)) in Hy.
      destruct Hy as [<- | Hy]; [exact Hcmp | apply Hall, Hy].
Qed.

Lemma sort_desc_sorted l :
  StronglySorted (fun r1 r2 => created_at r2 <= created_at r1)
    (Samples.sort_desc l).
Proof.
  induction l as [| x l IH]; cbn; [constructor | apply insert_desc_sorted, IH].
Qed.

Lemma samples_engine_orders : orders_newest_first (engine := Samples.engine).
Proof. split; [exact sort_desc_permutation | exact sort_desc_sorted]. Qed.

Lemma samples_engine_monotone (a b : Z) :
  a <= b ->
  datetime_seconds (Engine := Samples.engine) a
  <= datetime_seconds (Engine := Samples.engine) b.
Proof. intros Hle. cbn. apply Z.div_le_mono; lia. Qed.

Lemma later_readable : readable Samples.later.
Proof. split; reflexivity. Qed.

Lemma three_rows_well_formed : well_formed Samples.three_rows.
Proof.
  unfold well_formed, Samples.three_rows. cbn [rows sequence].
  split; [| split; [| lia]].
  - repeat (constructor; [| repeat (constructor; [cbn; lia |])]); constructor.
  - repeat (constructor; [cbn; lia |]). constructor.
Qed.

Lemma recent_metrics_selects_newest_witness :
  orders_newest_first (engine := Samples.engine)
  /\ readable Samples.later
  /\ since_time Samples.an_hour_later 24 = Some 1699917200000000
  /\ length (get_recent_metrics (engine := Samples.engine) ValueError
               Samples.later Samples.an_hour_later (Some "a") 24
               Samples.three_rows)
     = 2%nat.
Proof.
  assert (Hsince : since_time Samples.an_hour_later 24
                   = Some 1699917200000000) by (vm_compute; reflexivity).
  split; [exact samples_engine_orders |]. split; [exact later_readable |].
  split; [exact Hsince |].
  refine (eq_trans
            (proj1 (recent_metrics_selects_newest (engine := Samples.engine)
                      ValueError Samples.later Samples.an_hour_later (Some "a")
                      24 Samples.three_rows 1699917200000000
                      samples_engine_orders later_readable Hsince)) _).
  vm_compute. reflexivity.
Defined.

Lemma read_failures_answer_empty_witness :
  execute_fails Samples.select_broken = true
  /\ get_metrics (engine := Samples.engine) ValueError Samples.select_broken
       Samples.an_hour_later None 24
       {| db := Samples.three_rows; store_calls := 3 |}
     = (200, (0%nat, [])).
Proof.
  split; [reflexivity |].
  exact (proj1 (read_failures_answer_empty (engine := Samples.engine)
                  ValueError Samples.select_broken Samples.an_hour_later None
                  24 {| db := Samples.three_rows; store_calls := 3 |}
                  (or_intror (or_introl eq_refl)))).
Defined.

Lemma summary_counts_whole_window_witness :
  readable Samples.later
  /\ since_time Samples.an_hour_later 24 = Some 1699917200000000
  /\ exists stats,
       get_summary_stats (engine := Samples.engine) ValueError Samples.later
         Samples.an_hour_later (Some "a") 24 Samples.three_rows = Some stats
       /\ total_records stats = 2%nat.
Proof.
  assert (Hsince : since_time Samples.an_hour_later 24
                   = Some 1699917200000000) by (vm_compute; reflexivity).
  split; [exact later_readable |]. split; [exact Hsince |].
  destruct (summary_counts_whole_window (engine := Samples.engine) ValueError
              Samples.later Samples.an_hour_later (Some "a") 24
              Samples.three_rows 1699917200000000 later_readable Hsince)
    as (stats & Hstats & Hcount & _).
  exists stats. split; [exact Hstats |].
  refine (eq_trans Hcount _). vm_compute. reflexivity.
Defined.

Lemma ids_never_reused_witness :
  well_formed Samples.three_rows
  /\ List.NoDup
       (map id
          (rows (apply_operations (encoder := Concrete.json_encoder)
                   (engine := Samples.engine) ValueError Samples.three_rows
                   Samples.empty_then_store)))
  /\ forall r,
       In r (rows (apply_operations (encoder := Concrete.json_encoder)
                     (engine := Samples.engine) ValueError Samples.three_rows
                     Samples.empty_then_store)) ->
       In r (rows Samples.three_rows) \/ 3 < id r.
Proof.
  split; [exact three_rows_well_formed |].
  destruct (ids_never_reused (encoder := Concrete.json_encoder)
              (engine := Samples.engine) ValueError Samples.three_rows
              Samples.empty_then_store three_rows_well_formed)
    as (_ & Hnodup & _ & Hrows).
  split; [exact Hnodup | exact Hrows].
Defined.

Lemma stored_row_read_back_first_witness :
  snd (store_metrics (encoder := Concrete.json_encoder) Samples.later
         Concrete.good Samples.three_rows) = true
  /\ exists r rest,
       get_recent_metrics (engine := Samples.engine) ValueError Samples.later
         Samples.an_hour_later None 24
         (fst (store_metrics (encoder := Concrete.json_encoder) Samples.later
                 Concrete.good Samples.three_rows))
       = r :: rest
       /\ id r = 4.
Proof.
  assert (Hok : snd (store_metrics (encoder := Concrete.json_encoder)
                       Samples.later Concrete.good Samples.three_rows) = true)
    by reflexivity.
  assert (Hsince : since_time Samples.an_hour_later 24
                   = Some 1699917200000000) by (vm_compute; reflexivity).
  assert (Hlater : datetime_seconds (Engine := Samples.engine)
                     1699917200000000
                   < current_timestamp Samples.later)
    by (vm_compute; reflexivity).
  assert (Holder : forall r, In r (rows Samples.three_rows) ->
                             created_at r < current_timestamp Samples.later).
  { intros r [<- | [<- | [<- | []]]]; vm_compute; reflexivity. }
  split; [exact Hok |].
  destruct (stored_row_read_back_first (encoder := Concrete.json_encoder)
              (engine := Samples.engine) ValueError Samples.later
              Samples.later Concrete.good Samples.three_rows
              Samples.an_hour_later None 24 1699917200000000
              samples_engine_orders later_readable Hok Hsince Hlater Holder
              (or_introl eq_refl))
    as (r & rest & Hfound & Hid & _).
  exists r, rest. split; [exact Hfound | exact Hid].
Defined.

Lemma cleanup_spares_the_window_witness :
  snd (cleanup_old_data (engine := Samples.engine) ValueError Samples.later
         Samples.a_day_later 1 Samples.three_rows) = 1%nat
  /\ get_recent_metrics (engine := Samples.engine) ValueError Samples.later
       Samples.a_day_later None 24
       (fst (cleanup_old_data (engine := Samples.engine) ValueError
               Samples.later Samples.a_day_later 1 Samples.three_rows))
     = get_recent_metrics (engine := Samples.engine) ValueError Samples.later
         Samples.a_day_later None 24 Samples.three_rows.
Proof.
  split; [vm_compute; reflexivity |].
  refine (proj1 (cleanup_spares_the_window (engine := Samples.engine)
                   ValueError Samples.later Samples.later Samples.a_day_later
                   1 24 None Samples.three_rows samples_engine_monotone _)).
  lia.
Defined.

Lemma stored_rows_within_bounds_witness :
  Forall in_range (rows (db Concrete.empty_server))
  /\ Forall in_range
       (rows (db (handle_all (parser := Concrete.iso_parser)
                    (encoder := Concrete.json_encoder)
                    (engine := Samples.engine) ValueError
                    Concrete.empty_server Samples.ingest_and_clean))).
Proof.
  assert (Hempty : Forall in_range (rows (db Concrete.empty_server)))
    by constructor.
  split; [exact Hempty |].
  exact (proj1 (stored_rows_within_bounds (parser := Concrete.iso_parser)
                  (encoder := Concrete.json_encoder)
                  (engine := Samples.engine) ValueError Concrete.empty_server
                  Samples.ingest_and_clean Hempty)).
Defined.

End StoreQueriesExamples.

(** ** The collector's loop *)

Section CollectorProgress.

Import Collector Spec Progress.
Context `{py : Builtins}.
Variable cfg : config.
Variable w : world.

Lemma continues_refl st : continues st st.
Proof. split; [exists []; rewrite app_nil_r; reflexivity | auto]. Qed.

Lemma continues_trans st1 st2 st3 :
  continues st1 st2 -> continues st2 st3 -> continues st1 st3.
Proof.
  intros [[new1 Htrace1] Hkeys1] [[new2 Htrace2] Hkeys2]. split.
  - exists (new1 ++ new2)%list. rewrite Htrace2, Htrace1, <- app_assoc.
    reflexivity.
  - auto.
Qed.

Lemma advances_refl st : advances st st.
Proof. split; [apply continues_refl | reflexivity]. Qed.

Lemma advances_trans st1 st2 st3 :
  advances st1 st2 -> advances st2 st3 -> advances st1 st3.
Proof.
  intros [Hc1 Hl1] [Hc2 Hl2].
  split; [eapply continues_trans; eassumption | congruence].
Qed.

Lemma advances_emit e st : advances st (emit e st).
Proof. split; [split; [exists [e]; reflexivity | auto] | reflexivity]. Qed.

(** A step that leaves trace, cooldown map and loop counter alone. *)
Lemma advances_same st st' :
  trace st' = trace st -> alert_cooldown st' = alert_cooldown st ->
  n_loop st' = n_loop st -> advances st st'.
Proof.
  intros Htrace Hcool Hloop. split; [split |]; [| | exact Hloop].
  - exists []. rewrite app_nil_r. exact Htrace.
  - rewrite Hcool. auto.
Qed.

Lemma _send_alert_advances message st :
  advances st (_send_alert cfg w st message).
Proof.
  destruct (in_cooldown cfg (py_hash message) (utcnow w (n_utcnow st)) st)
    eqn:Hcool.
  - rewrite (_send_alert_suppressed _ _ _ _ Hcool).
    apply advances_same; reflexivity.
  - destruct (_send_alert_fires _ _ _ _ Hcool)
      as (new & Htrace & _ & _ & Hmap & _ & _ & _ & _ & Hloop).
    split; [split |]; [eauto | | exact Hloop].
    intros key Hkey. rewrite Hmap. apply lookup_insert_is_Some.
    destruct (decide (py_hash message = key)); auto.
Qed.

Lemma check_alerts_advances metrics st :
  advances st (fst (check_alerts cfg w metrics st)).
Proof.
  unfold check_alerts.
  destruct (alerts_enabled cfg); cbn; [| apply advances_refl].
  destruct (alerts_triggered cfg metrics) as [alerts | e]; cbn;
    [| apply advances_refl].
  revert st. induction alerts as [| message rest IH]; intros st; cbn.
  - apply advances_refl.
  - eapply advances_trans; [apply _send_alert_advances | apply IH].
Qed.

Lemma attempt_body_advances attempt st :
  advances st (fst (attempt_body cfg w attempt st)).
Proof.
  unfold attempt_body.
  pose proof (check_alerts_advances (collect_metrics w (n_collect st))
                (tick_collect st)) as Hcheck.
  destruct (check_alerts cfg w _ (tick_collect st)) as [st1 r].
  cbn [fst] in Hcheck.
  assert (Hfirst : advances st st1).
  { eapply advances_trans; [| exact Hcheck].
    apply advances_same; reflexivity. }
  destruct r as [[] | e]; [| exact Hfirst].
  assert (Hposted : advances st (emit (EndpointPost
            [("hostname",
              default (VStr (hostname w))
                (dict_get (collect_metrics w (n_collect st)) "hostname"));
             ("metrics", VDict (collect_metrics w (n_collect st)))])
            (tick_post st1))).
  { eapply advances_trans; [exact Hfirst |].
    eapply advances_trans; [| apply advances_emit].
    apply advances_same; reflexivity. }
  destruct (endpoint_post w (n_post st1)); cbn [fst]; [| exact Hposted].
  eapply advances_trans; [exact Hposted | apply advances_emit].
Qed.

Lemma time_sleep_advances seconds st :
  advances st (fst (time_sleep w seconds st)).
Proof.
  unfold time_sleep. destruct (sleep_check w seconds); cbn;
    [apply advances_emit | apply advances_refl].
Qed.

Lemma attempts_from_advances remaining :
  forall attempt st,
    advances st (fst (attempts_from cfg w remaining attempt st)).
Proof.
  induction remaining as [| remaining IH]; intros attempt st;
    cbn [attempts_from]; [apply advances_refl |].
  pose proof (attempt_body_advances attempt st) as Hbody.
  destruct (attempt_body cfg w attempt st) as [st1 r]. cbn [fst] in Hbody.
  destruct r as [[] | e]; [exact Hbody |].
  assert (Hother : forall e', advances st (emit (LogUnexpected e') st1))
    by (intros e'; eapply advances_trans; [exact Hbody | apply advances_emit]).
  destruct e; try apply Hother.
  assert (Hlogged : advances st
                      (emit (LogNetworkError attempt RequestException) st1))
    by (eapply advances_trans; [exact Hbody | apply advances_emit]).
  destruct (attempt <? max_retries cfg - 1).
  - pose proof (time_sleep_advances (retry_delay cfg)
                  (emit (LogNetworkError attempt RequestException) st1))
      as Hsleep.
    destruct (time_sleep w (retry_delay cfg) _) as [st2 slept].
    cbn [fst] in Hsleep.
    assert (Hslept : advances st st2)
      by (eapply advances_trans; eassumption).
    destruct slept as [[] | e]; [| exact Hslept].
    eapply advances_trans; [exact Hslept | apply IH].
  - eapply advances_trans; [| apply IH].
    eapply advances_trans; [exact Hlogged | apply advances_emit].
Qed.

Lemma cycle_advances st : advances st (cycle cfg w st).
Proof.
  unfold cycle, cycle_body.
  pose proof (attempts_from_advances (Z.to_nat (max_retries cfg)) 0
                (tick_time st)) as Hsend.
  fold (send_metrics cfg w (tick_time st)) in Hsend.
  destruct (send_metrics cfg w (tick_time st)) as [st1 r]. cbn [fst] in Hsend.
  assert (Hsent : advances st st1).
  { eapply advances_trans; [| exact Hsend]. apply advances_same; reflexivity. }
  destruct r as [success | e].
  - match goal with
    | |- context [if Qgtb ?x 0 then _ else _] => destruct (Qgtb x 0)
    end.
    + match goal with
      | |- context [time_sleep w ?x ?st2] =>
          pose proof (time_sleep_advances x st2) as Hsleep;
          destruct (time_sleep w x st2) as [st3 [[] | e]]
      end; cbn [fst] in *.
      * eapply advances_trans; [exact Hsent |].
        eapply advances_trans; [| exact Hsleep].
        apply advances_same; reflexivity.
      * eapply advances_trans; [exact Hsent |].
        eapply advances_trans; [apply advances_same; reflexivity |].
        eapply advances_trans; [exact Hsleep |].
        eapply advances_trans; [apply (advances_emit (LogLoopError e)) |].
        apply time_sleep_advances.
    + eapply advances_trans; [exact Hsent |].
      eapply advances_trans; [| apply advances_emit].
      apply advances_same; reflexivity.
  - eapply advances_trans; [exact Hsent |].
    eapply advances_trans; [apply (advances_emit (LogLoopError e)) |].
    apply time_sleep_advances.
Qed.

Lemma run_continues fuel :
  forall st, continues st (run cfg w fuel st).
Proof.
  induction fuel as [| fuel IH]; intros st; cbn [run];
    [apply continues_refl |].
  destruct (running_at w (n_loop st)).
  - eapply continues_trans; [| apply IH].
    eapply continues_trans; [| apply cycle_advances].
    split; [exists []; rewrite app_nil_r; reflexivity | auto].
  - split; [exists [LogStopped]; reflexivity | auto].
Qed.

(** X11.  The loop stops when it is told to.  If the flag is set at the
    next k tests and cleared at the one after, the loop goes through exactly
    k iterations, logs that it has stopped and returns, and it has then
    tested the flag k + 1 times; tests that would have come later play no
    part. *)
Theorem run_stops_when_told (k fuel : nat) (st : state) :
  (forall i, (i < k)%nat -> running_at w (n_loop st + i) = true) ->
  running_at w (n_loop st + k) = false ->
  (k < fuel)%nat ->
  run cfg w fuel st
  = emit LogStopped
      (tick_loop (Nat.iter k (fun s => cycle cfg w (tick_loop s)) st))
  /\ n_loop (run cfg w fuel st) = (n_loop st + k + 1)%nat.
Proof.
  revert fuel st. induction k as [| k IH]; intros fuel st Hon Hoff Hfuel.
  - destruct fuel as [| fuel]; [lia |]. cbn [run Nat.iter].
    rewrite Nat.add_0_r in Hoff. rewrite Hoff. cbn. split; [reflexivity | lia].
  - destruct fuel as [| fuel]; [lia |]. cbn [run].
    assert (Hfirst : running_at w (n_loop st) = true).
    { specialize (Hon 0%nat). rewrite Nat.add_0_r in Hon. apply Hon. lia. }
    rewrite Hfirst.
    destruct (cycle_advances (tick_loop st)) as [_ Hloop]. cbn in Hloop.
    destruct (IH fuel (cycle cfg w (tick_loop st))) as [Hrun Hcount].
    + intros i Hi. rewrite Hloop.
      replace (S (n_loop st) + i)%nat with (n_loop st + S i)%nat by lia.
      apply Hon. lia.
    + rewrite Hloop.
      replace (S (n_loop st) + k)%nat with (n_loop st + S k)%nat by lia.
      exact Hoff.
    + lia.
    + split; [rewrite Hrun, Nat.iter_succ_r; reflexivity |].
      rewrite Hcount, Hloop. lia.
Qed.

(** X12.  The process never forgets.  Whatever the world does and however
    long the loop runs, the trace of what has happened is only ever
    extended, and no key is ever removed from the cooldown map: an entry
    written for a message stays for the life of the process. *)
Theorem run_never_forgets (fuel : nat) (st : state) (key last : Z) :
  alert_cooldown st !! key = Some last ->
  (exists new, trace (run cfg w fuel st) = (trace st ++ new)%list)
  /\ is_Some (alert_cooldown (run cfg w fuel st) !! key).
Proof.
  intros Hkey. destruct (run_continues fuel st) as [Htrace Hkeys].
  split; [exact Htrace |]. apply Hkeys. rewrite Hkey. eauto.
Qed.

(** X13.  A snapshot that the threshold check cannot read is never sent.
    When the check raises on the collected snapshot, [send_metrics] ends at
    once: it has collected once, has logged the error, has made no POST and
    no further attempt, has fired no alert, not even for a family that was
    over its threshold and checked before the bad one, and returns false. *)
Theorem unreadable_snapshot_not_sent (st : state) (e : exn) :
  0 < max_retries cfg ->
  evaluation cfg (collect_metrics w (n_collect st)) = Raise e ->
  send_metrics cfg w st
  = (emit (LogUnexpected e) (tick_collect st), Ok false).
Proof.
  intros Hretries Heval. unfold send_metrics.
  destruct (Z.to_nat (max_retries cfg)) as [| n] eqn:Hn; [lia |].
  cbn [attempts_from]. unfold attempt_body, check_alerts.
  unfold evaluation in Heval.
  destruct (alerts_enabled cfg); cbn in *; [| discriminate].
  destruct (alerts_triggered cfg (collect_metrics w (n_collect st)))
    as [alerts | e'] eqn:Htriggered; [discriminate |].
  inversion Heval. subst e'.
  pose proof (alerts_triggered_error cfg _ _ Htriggered) as Hlocal.
  destruct e; try reflexivity. contradiction.
Qed.

Lemma send_channel_pauses message st channel :
  omap pause (trace (send_channel cfg w message st channel))
  = omap pause (trace st).
Proof.
  unfold send_channel.
  destruct (String.eqb channel "slack").
  { unfold _send_slack_alert.
    destruct (slack_webhook_url cfg) as [[| c url] |]; cbn;
      rewrite ?omap_app; cbn; rewrite ?app_nil_r; try reflexivity.
    destruct (slack_post w (n_slack st)); cbn;
      rewrite ?omap_app; cbn; rewrite ?omap_app; cbn; rewrite ?app_nil_r;
      reflexivity. }
  destruct (String.eqb channel "email"); cbn;
    rewrite ?omap_app; cbn; rewrite ?app_nil_r; reflexivity.
Qed.

Lemma _send_alert_pauses message st :
  omap pause (trace (_send_alert cfg w st message)) = omap pause (trace st).
Proof.
  unfold _send_alert. destruct (in_cooldown _ _ _ _); [reflexivity |].
  match goal with
  | |- context [fold_left _ _ ?st1] =>
      transitivity (omap pause (trace st1));
        [generalize st1 | cbn; rewrite omap_app; cbn; apply app_nil_r]
  end.
  induction (channels cfg) as [| channel rest IH]; intros st1;
    cbn [fold_left]; [reflexivity |].
  rewrite IH. apply send_channel_pauses.
Qed.

Lemma check_alerts_pauses metrics st :
  omap pause (trace (fst (check_alerts cfg w metrics st)))
  = omap pause (trace st).
Proof.
  unfold check_alerts. destruct (alerts_enabled cfg); cbn; [| reflexivity].
  destruct (alerts_triggered cfg metrics) as [alerts | e]; cbn;
    [| reflexivity].
  revert st. induction alerts as [| message rest IH]; intros st; cbn;
    [reflexivity |].
  rewrite IH. apply _send_alert_pauses.
Qed.

Lemma attempt_body_pauses attempt st :
  omap pause (trace (fst (attempt_body cfg w attempt st)))
  = omap pause (trace st).
Proof.
  unfold attempt_body.
  pose proof (check_alerts_pauses (collect_metrics w (n_collect st))
                (tick_collect st)) as Hcheck.
  destruct (check_alerts cfg w _ (tick_collect st)) as [st1 r].
  cbn [fst] in Hcheck. cbn in Hcheck.
  destruct r as [[] | e]; [| exact Hcheck].
  destruct (endpoint_post w (n_post st1)); cbn;
    rewrite ?omap_app; cbn; rewrite ?omap_app; cbn; rewrite ?app_nil_r;
    exact Hcheck.
Qed.

(** A transport-level failure, with what the handler leaves in the
    trace. *)
Lemma failed_attempt_handler (remaining : nat) (attempt : Z) (st : state) :
  sleep_check w (retry_delay cfg) = Ok tt ->
  attempt_result cfg w (n_collect st) (n_post st) = Raise RequestException ->
  exists st',
    attempts_from cfg w (S remaining) attempt st
    = attempts_from cfg w remaining (attempt + 1) st'
    /\ n_collect st' = S (n_collect st)
    /\ n_post st' = S (n_post st)
    /\ trace st'
       = (trace (fst (attempt_body cfg w attempt st))
            ++ [LogNetworkError attempt RequestException;
                if attempt <? max_retries cfg - 1
                then Sleep (retry_delay cfg) else LogGaveUp])%list.
Proof.
  intros Hdelay Hfail.
  destruct (attempt_body_spec cfg w attempt st) as (Hres & Hcollect & Hpost).
  assert (Heval : exists u, evaluation cfg (collect_metrics w (n_collect st))
                            = Ok u).
  { unfold attempt_result in Hfail.
    destruct (evaluation cfg (collect_metrics w (n_collect st))) as [u | e]
      eqn:Heval; [eauto |].
    exfalso. unfold evaluation in Heval.
    destruct (alerts_enabled cfg); cbn in Heval; [| discriminate].
    destruct (alerts_triggered cfg _) eqn:Htrig; [discriminate |].
    assert (e = RequestException) by congruence. subst e.
    inversion Heval; subst.
    exact (alerts_triggered_error cfg _ _ Htrig eq_refl). }
  destruct Heval as [u Heval]. rewrite Heval in Hpost.
  cbn [attempts_from].
  destruct (attempt_body cfg w attempt st) as [st1 r]. cbn [fst snd] in *.
  rewrite Hres, Hfail.
  destruct (attempt <? max_retries cfg - 1).
  - rewrite (time_sleep_accepted w _ _ Hdelay). eexists.
    split; [reflexivity |]. cbn. rewrite <- app_assoc. auto.
  - eexists. split; [reflexivity |]. cbn. rewrite <- app_assoc. auto.
Qed.

Lemma transport_failures_pauses (j : nat) :
  sleep_check w (retry_delay cfg) = Ok tt ->
  forall (remaining : nat) (attempt : Z) (st : state),
    attempt + Z.of_nat j <= max_retries cfg - 1 ->
    transport_failures cfg w st j ->
    exists st',
      attempts_from cfg w (j + remaining) attempt st
      = attempts_from cfg w remaining (attempt + Z.of_nat j) st'
      /\ n_collect st' = (n_collect st + j)%nat
      /\ n_post st' = (n_post st + j)%nat
      /\ omap pause (trace st')
         = (omap pause (trace st) ++ repeat (retry_delay cfg) j)%list.
Proof.
  intros Hdelay.
  induction j as [| j IH]; intros remaining attempt st Hroom Hfails.
  - exists st. cbn. rewrite Z.add_0_r, !Nat.add_0_r, app_nil_r. auto.
  - assert (Hfirst : attempt_result cfg w (n_collect st) (n_post st)
                     = Raise RequestException).
    { specialize (Hfails 0%nat). rewrite !Nat.add_0_r in Hfails.
      apply Hfails. lia. }
    destruct (failed_attempt_handler (j + remaining) attempt st Hdelay Hfirst)
      as (st1 & Hstep & Hcollect1 & Hpost1 & Htrace1).
    assert (Hearly : (attempt <? max_retries cfg - 1) = true)
      by (apply Z.ltb_lt; lia).
    rewrite Hearly in Htrace1.
    destruct (IH remaining (attempt + 1) st1)
      as (st' & Hrest & Hcollect & Hpost & Hpauses); [lia | |].
    { intros i Hi. rewrite Hcollect1, Hpost1.
      specialize (Hfails (S i)).
      replace (S (n_collect st) + i)%nat with (n_collect st + S i)%nat by lia.
      replace (S (n_post st) + i)%nat with (n_post st + S i)%nat by lia.
      apply Hfails. lia. }
    exists st'. change (S j + remaining)%nat with (S (j + remaining)).
    rewrite Hstep, Hrest.
    replace (attempt + 1 + Z.of_nat j) with (attempt + Z.of_nat (S j)) by lia.
    split; [reflexivity |]. split; [lia |]. split; [lia |].
    rewrite Hpauses, Htrace1, omap_app, attempt_body_pauses. cbn.
    rewrite <- app_assoc. reflexivity.
Qed.

(** X14.  [send_metrics] sleeps between attempts and nowhere else.  With a
    delay that [time.sleep] accepts, which is neither negative nor too long
    for it: when the k-th attempt is the first to succeed, it has slept
    k - 1 times, each time for [retry_delay]; when all [max_retries]
    attempts end in transport-level errors it has slept [max_retries - 1]
    times, and after the last attempt it does not sleep but logs that it
    gives up, as the last thing it does. *)
Theorem retry_sleeps_between_attempts (st : state) :
  let n := Z.to_nat (max_retries cfg) in
  let out := send_metrics cfg w st in
  sleep_check w (retry_delay cfg) = Ok tt ->
  (forall k, (1 <= k <= n)%nat ->
     transport_failures cfg w st (k - 1) ->
     attempt_result cfg w (n_collect st + (k - 1)) (n_post st + (k - 1))
     = Ok tt ->
     omap pause (trace (fst out))
     = (omap pause (trace st) ++ repeat (retry_delay cfg) (k - 1))%list)
  /\ ((1 <= n)%nat ->
      transport_failures cfg w st n ->
      omap pause (trace (fst out))
      = (omap pause (trace st) ++ repeat (retry_delay cfg) (n - 1))%list
      /\ exists before,
           trace (fst out)
           = (before ++ [LogNetworkError (max_retries cfg - 1)
                           RequestException; LogGaveUp])%list).
Proof.
  cbv zeta. intros Hdelay. unfold send_metrics.
  set (n := Z.to_nat (max_retries cfg)). split.
  - intros k Hk Hfails Hok.
    destruct (transport_failures_pauses (k - 1) Hdelay (S (n - k)) 0 st)
      as (st' & Hskip & Hcollect & Hpost & Hpauses); [lia | exact Hfails |].
    replace (k - 1 + S (n - k))%nat with n in Hskip by lia.
    rewrite Hskip. rewrite <- Hcollect, <- Hpost in Hok.
    cbn [attempts_from].
    destruct (attempt_body_spec cfg w (0 + Z.of_nat (k - 1)) st')
      as (Hres & _ & _).
    pose proof (attempt_body_pauses (0 + Z.of_nat (k - 1)) st') as Hquiet.
    destruct (attempt_body cfg w (0 + Z.of_nat (k - 1)) st') as [st1 r].
    cbn [fst snd] in *. rewrite Hres, Hok. cbn [fst].
    rewrite Hquiet. exact Hpauses.
  - intros Hn Hfails.
    destruct (transport_failures_pauses (n - 1) Hdelay 1%nat 0 st)
      as (st' & Hskip & Hcollect & Hpost & Hpauses); [lia | |].
    { intros i Hi. apply Hfails. lia. }
    replace (n - 1 + 1)%nat with n in Hskip by lia.
    rewrite Hskip.
    assert (Hlast : attempt_result cfg w (n_collect st') (n_post st')
                    = Raise RequestException).
    { rewrite Hcollect, Hpost. apply Hfails. lia. }
    destruct (failed_attempt_handler 0 (0 + Z.of_nat (n - 1)) st' Hdelay Hlast)
      as (st'' & Hstep & _ & _ & Htrace).
    rewrite Hstep. cbn [attempts_from fst].
    assert (Hfinal : (0 + Z.of_nat (n - 1) <? max_retries cfg - 1) = false)
      by (apply Z.ltb_ge; lia).
    rewrite Hfinal in Htrace.
    replace (0 + Z.of_nat (n - 1)) with (max_retries cfg - 1) in Htrace by lia.
    split; [| eauto].
    rewrite Htrace, omap_app, attempt_body_pauses. cbn.
    rewrite app_nil_r. exact Hpauses.
Qed.

Lemma attempts_counts (remaining : nat) :
  forall (attempt : Z) (st : state),
    let out := attempts_from cfg w remaining attempt st in
    (n_post st <= n_post (fst out))%nat
    /\ (n_post (fst out) + n_collect st
        <= n_collect (fst out) + n_post st)%nat
    /\ (n_collect (fst out) <= n_collect st + remaining)%nat
    /\ ((0 < remaining)%nat -> (n_collect st < n_collect (fst out))%nat).
Proof.
  induction remaining as [| remaining IH]; intros attempt st; cbv zeta;
    cbn [attempts_from].
  - cbn. lia.
  - destruct (attempt_body_spec cfg w attempt st) as (_ & Hcollect & Hpost).
    assert (Hposts : (n_post st <= n_post (fst (attempt_body cfg w attempt st))
                      <= S (n_post st))%nat)
      by (rewrite Hpost; destruct (evaluation cfg _); lia).
    clear Hpost.
    destruct (attempt_body cfg w attempt st) as [st1 r]. cbn [fst] in *.
    destruct r as [[] | e]; [cbn; lia |].
    destruct e; try (cbn; lia).
    destruct (attempt <? max_retries cfg - 1).
    + pose proof (time_sleep_counters w (retry_delay cfg)
                    (emit (LogNetworkError attempt RequestException) st1))
        as [Hsleep1 Hsleep2].
      destruct (time_sleep w (retry_delay cfg) _) as [st2 slept].
      cbn [fst] in *. cbn in Hsleep1, Hsleep2.
      destruct slept as [[] | e].
      * specialize (IH (attempt + 1) st2). cbv zeta in IH. lia.
      * cbn. lia.
    + match goal with
      | |- context [attempts_from _ _ _ _ ?st2] =>
          specialize (IH (attempt + 1) st2); cbv zeta in IH; cbn in IH
      end.
      cbn in *. lia.
Qed.

(** X15.  Every POST of [send_metrics] follows a collection of its own.
    Whatever happens, the POSTs made never outnumber the collections made,
    the collections never outnumber [max_retries], neither counter goes
    back, and a snapshot is collected at all exactly when [max_retries] is
    positive: with [max_retries] at 0 or below nothing is collected and
    nothing is sent. *)
Theorem every_post_has_its_collection (st : state) :
  let out := send_metrics cfg w st in
  (n_post st <= n_post (fst out))%nat
  /\ (n_post (fst out) - n_post st
      <= n_collect (fst out) - n_collect st)%nat
  /\ (n_collect (fst out) - n_collect st <= Z.to_nat (max_retries cfg))%nat
  /\ (0 < max_retries cfg <-> (n_collect st < n_collect (fst out))%nat)
  /\ (max_retries cfg <= 0 -> out = (st, Ok false)).
Proof.
  cbv zeta. unfold send_metrics.
  destruct (attempts_counts (Z.to_nat (max_retries cfg)) 0 st)
    as (Hposts & Hpairs & Hbound & Hsome). cbv zeta in *.
  split; [exact Hposts |]. split; [lia |]. split; [lia |]. split.
  - split; [intros Hpos; apply Hsome; lia |].
    intros Hmore. destruct (Z.to_nat (max_retries cfg)) eqn:Hn; [| lia].
    cbn in Hmore. lia.
  - intros Hnone. replace (Z.to_nat (max_retries cfg)) with 0%nat by lia.
    reflexivity.
Qed.

(** X16.  A negative [retry_delay] turns every failed attempt into a failed
    cycle.  When the first attempt of a cycle ends in a transport-level
    error and another attempt is due, the sleep raises, ValueError for a
    negative length and OverflowError for one below the range of
    [time.sleep], and the exception leaves [send_metrics]; the loop logs it
    and pauses five seconds, not the configured interval, after one POST. *)
Theorem negative_delay_fails_the_cycle (st : state) :
  (retry_delay cfg < 0)%Q ->
  1 < max_retries cfg ->
  attempt_result cfg w (n_collect st) (n_post st) = Raise RequestException ->
  let e :=
    if Qltb (retry_delay cfg * 1000000000) (-9223372036854775808)
    then OverflowError else ValueError in
  snd (send_metrics cfg w (tick_time st)) = Raise e
  /\ n_post (cycle cfg w st) = S (n_post st)
  /\ exists before,
       trace (cycle cfg w st)
       = (before ++ [LogNetworkError 0 RequestException;
                     LogLoopError e; Sleep 5])%list.
Proof.
  intros Hdelay Hretries Hfail e.
  assert (Hcheck : sleep_check w (retry_delay cfg) = Raise e).
  { unfold sleep_check. subst e.
    assert (Hfits : Qgtb (retry_delay cfg * 1000000000) 9223372036854775807
                    = false) by (apply Qgtb_false; lra).
    rewrite Hfits. cbn [orb].
    destruct (Qltb (retry_delay cfg * 1000000000) (-9223372036854775808));
      [reflexivity |].
    apply Qltb_true in Hdelay. rewrite Hdelay. reflexivity. }
  assert (Hsend : exists st1,
             send_metrics cfg w (tick_time st)
             = (emit (LogNetworkError 0 RequestException) st1, Raise e)
             /\ n_post st1 = S (n_post st)).
  { unfold send_metrics.
    destruct (Z.to_nat (max_retries cfg)) as [| n] eqn:Hn; [lia |].
    cbn [attempts_from].
    destruct (attempt_body_spec cfg w 0 (tick_time st)) as (Hres & _ & Hpost).
    cbn [n_collect n_post tick_time] in Hres, Hpost.
    assert (Heval : exists u, evaluation cfg (collect_metrics w (n_collect st))
                              = Ok u).
    { unfold attempt_result in Hfail.
      destruct (evaluation cfg (collect_metrics w (n_collect st))) as [u | e']
        eqn:Heval; [eauto |].
      exfalso. unfold evaluation in Heval.
      destruct (alerts_enabled cfg); cbn in Heval; [| discriminate].
      destruct (alerts_triggered cfg _) eqn:Htrig; [discriminate |].
      assert (e' = RequestException) by congruence. subst e'.
      inversion Heval; subst.
      exact (alerts_triggered_error cfg _ _ Htrig eq_refl). }
    destruct Heval as [u Heval]. rewrite Heval in Hpost.
    destruct (attempt_body cfg w 0 (tick_time st)) as [st1 r].
    cbn [fst snd] in *. rewrite Hres, Hfail.
    assert (Hearly : (0 <? max_retries cfg - 1) = true)
      by (apply Z.ltb_lt; lia).
    rewrite Hearly, (time_sleep_refused w _ _ _ Hcheck).
    exists st1. auto. }
  destruct Hsend as (st1 & Hsend & Hpost).
  split; [rewrite Hsend; reflexivity |].
  unfold cycle, cycle_body. rewrite Hsend, time_sleep_5.
  cbn. split; [exact Hpost |].
  exists (trace st1). rewrite <- !app_assoc. reflexivity.
Qed.

Lemma _send_alert_keeps_recent lo hi message st :
  quiet cfg w lo hi ->
  all_recent cfg w lo hi st ->
  (lo <= n_utcnow st < hi)%nat ->
  let st' := _send_alert cfg w st message in
  all_recent cfg w lo hi st'
  /\ n_utcnow st' = S (n_utcnow st)
  /\ is_Some (alert_cooldown st' !! py_hash message)
  /\ forall key, is_Some (alert_cooldown st !! key) ->
                 is_Some (alert_cooldown st' !! key).
Proof.
  intros Hquiet Hrecent Hnow. cbv zeta.
  destruct (in_cooldown cfg (py_hash message) (utcnow w (n_utcnow st)) st)
    eqn:Hcool.
  - rewrite (_send_alert_suppressed _ _ _ _ Hcool). cbn.
    split; [exact Hrecent |]. split; [reflexivity |]. split; [| auto].
    unfold in_cooldown in Hcool.
    destruct (alert_cooldown st !! py_hash message); [eauto | discriminate].
  - destruct (_send_alert_fires _ _ _ _ Hcool)
      as (new & _ & _ & _ & Hmap & Hcount & _).
    unfold all_recent. rewrite Hmap, Hcount.
    split; [| split; [reflexivity | split]].
    + intros key last j Hkey Hj.
      destruct (decide (py_hash message = key)) as [<- | Hother].
      * rewrite lookup_insert_eq in Hkey. inversion Hkey. subst last.
        apply Hquiet; lia.
      * rewrite lookup_insert_ne in Hkey by exact Hother.
        eapply Hrecent; eassumption.
    + rewrite lookup_insert_eq. eauto.
    + intros key Hkey. apply lookup_insert_is_Some.
      destruct (decide (py_hash message = key)); auto.
Qed.

Lemma first_pass_records lo hi alerts :
  quiet cfg w lo hi ->
  forall st,
    all_recent cfg w lo hi st ->
    (lo <= n_utcnow st)%nat -> (n_utcnow st + length alerts <= hi)%nat ->
    let st' := fold_left (_send_alert cfg w) alerts st in
    all_recent cfg w lo hi st'
    /\ n_utcnow st' = (n_utcnow st + length alerts)%nat
    /\ (forall m, In m alerts -> is_Some (alert_cooldown st' !! py_hash m))
    /\ forall key, is_Some (alert_cooldown st !! key) ->
                   is_Some (alert_cooldown st' !! key).
Proof.
  intros Hquiet. induction alerts as [| message rest IH];
    intros st Hrecent Hlo Hhi; cbn [fold_left length] in *.
  - split; [exact Hrecent |]. split; [lia |]. split; [intros m [] | auto].
  - destruct (_send_alert_keeps_recent lo hi message st Hquiet Hrecent)
      as (Hrecent1 & Hcount1 & Hown & Hkeys1); [lia |].
    destruct (IH (_send_alert cfg w st message) Hrecent1)
      as (Hrecent2 & Hcount2 & Hrest & Hkeys2); [lia | lia |].
    split; [exact Hrecent2 |]. split; [lia |]. split; [| auto].
    intros m [<- | Hm]; [apply Hkeys2, Hown | apply Hrest, Hm].
Qed.

Lemma second_pass_silent lo hi alerts :
  forall st,
    all_recent cfg w lo hi st ->
    (forall m, In m alerts -> is_Some (alert_cooldown st !! py_hash m)) ->
    (lo <= n_utcnow st)%nat -> (n_utcnow st + length alerts <= hi)%nat ->
    trace (fold_left (_send_alert cfg w) alerts st) = trace st
    /\ alert_cooldown (fold_left (_send_alert cfg w) alerts st)
       = alert_cooldown st.
Proof.
  induction alerts as [| message rest IH];
    intros st Hrecent Hknown Hlo Hhi; cbn [fold_left length] in *;
    [auto |].
  assert (Hcool : in_cooldown cfg (py_hash message) (utcnow w (n_utcnow st)) st
                  = true).
  { unfold in_cooldown.
    destruct (Hknown message (or_introl eq_refl)) as [last Hlast].
    rewrite Hlast. apply Qltb_true. eapply Hrecent; [exact Hlast | lia]. }
  rewrite (_send_alert_suppressed _ _ _ _ Hcool).
  destruct (IH (tick_utcnow st)) as [Htrace Hmap].
  - exact Hrecent.
  - intros m Hm. apply Hknown. right. exact Hm.
  - cbn. lia.
  - cbn. lia.
  - rewrite Htrace, Hmap. auto.
Qed.

(** X17.  Checking the same snapshot twice within the cooldown window fires
    nothing the second time.  When the clock readings of two consecutive
    [check_alerts] on one snapshot lie within one window of each other and
    of every entry already in the cooldown map, in particular on a fresh
    collector, the second call adds nothing to the trace and leaves the
    cooldown map as the first call left it. *)
Theorem repeated_check_is_silent metrics alerts (st : state) :
  alerts_triggered cfg metrics = Ok alerts ->
  let hi := (n_utcnow st + 2 * length alerts)%nat in
  quiet cfg w (n_utcnow st) hi ->
  all_recent cfg w (n_utcnow st) hi st ->
  let first := fst (check_alerts cfg w metrics st) in
  let second := fst (check_alerts cfg w metrics first) in
  trace second = trace first
  /\ alert_cooldown second = alert_cooldown first.
Proof.
  intros Htriggered hi Hquiet Hrecent. cbv zeta. unfold check_alerts.
  destruct (alerts_enabled cfg); cbn; [| auto].
  rewrite Htriggered. cbn.
  destruct (first_pass_records (n_utcnow st) hi alerts Hquiet st Hrecent)
    as (Hrecent1 & Hcount1 & Hknown & _); [lia | subst hi; lia |].
  cbv zeta in *.
  apply (second_pass_silent (n_utcnow st) hi); [assumption | assumption | |];
    subst hi; lia.
Qed.

Lemma _send_alert_logs message st :
  exists new,
    trace (_send_alert cfg w st message) = (trace st ++ new)%list
    /\ (omap logged_alert new = []
        \/ omap logged_alert new = [message])
    /\ (alert_cooldown st !! py_hash message = None ->
        omap logged_alert new = [message])
    /\ forall key,
         alert_cooldown (_send_alert cfg w st message) !! key = None ->
         alert_cooldown st !! key = None /\ key <> py_hash message.
Proof.
  destruct (in_cooldown cfg (py_hash message) (utcnow w (n_utcnow st)) st)
    eqn:Hcool.
  - rewrite (_send_alert_suppressed _ _ _ _ Hcool). exists []. cbn.
    rewrite app_nil_r. split; [reflexivity |]. split; [auto |]. split.
    + intros Hnone. unfold in_cooldown in Hcool. rewrite Hnone in Hcool.
      discriminate.
    + intros key Hkey. split; [exact Hkey |]. intros ->.
      unfold in_cooldown in Hcool. rewrite Hkey in Hcool. discriminate.
  - destruct (_send_alert_fires _ _ _ _ Hcool)
      as (new & Htrace & _ & Hlog & Hmap & _).
    exists (LogAlert message :: new). cbn. rewrite Hlog, Hmap.
    split; [exact Htrace |]. split; [auto |]. split; [auto |].
    intros key Hkey. apply lookup_insert_None in Hkey as [Hkey Hother]. auto.
Qed.

(** X18.  [check_alerts] logs only what the threshold check has triggered,
    and in its order: the alerts that one call logs form a subsequence of
    the triggered messages (CPU, memory, the mounts in their order, swap),
    none at all when alerting is disabled or the check raises.  When no
    triggered message has an entry in the cooldown map and their hashes are
    pairwise different, every one of them is logged. *)
Theorem logged_alerts_follow_the_check metrics (st : state) :
  exists new,
    trace (fst (check_alerts cfg w metrics st)) = (trace st ++ new)%list
    /\ match alerts_triggered cfg metrics with
       | Ok alerts =>
           sublist (omap logged_alert new) alerts
           /\ (alerts_enabled cfg = false -> new = [])
           /\ (alerts_enabled cfg = true ->
               (forall m, In m alerts ->
                          alert_cooldown st !! py_hash m = None) ->
               List.NoDup (map py_hash alerts) ->
               omap logged_alert new = alerts)
       | Raise _ => new = []
       end.
Proof.
  unfold check_alerts. destruct (alerts_enabled cfg); cbn.
  - destruct (alerts_triggered cfg metrics) as [alerts | e]; cbn;
      [| exists []; rewrite app_nil_r; auto].
    revert st. induction alerts as [| message rest IH]; intros st;
      cbn [fold_left].
    { exists []. rewrite app_nil_r. cbn.
      split; [reflexivity |]. split; [constructor |].
      split; [discriminate | reflexivity]. }
    destruct (_send_alert_logs message st)
      as (new1 & Htrace1 & Hcases & Hfresh & Hkeys).
    destruct (IH (_send_alert cfg w st message))
      as (new2 & Htrace2 & Hsub & _ & Hall).
    exists (new1 ++ new2)%list. rewrite Htrace2, Htrace1, <- app_assoc.
    split; [reflexivity |]. rewrite omap_app.
    split; [| split; [discriminate |]].
    + destruct Hcases as [-> | ->]; cbn;
        [apply sublist_cons | apply sublist_skip]; exact Hsub.
    + intros _ Hnone Hdistinct. cbn in Hdistinct.
      apply List.NoDup_cons_iff in Hdistinct as [Hnew Hdistinct].
      rewrite (Hfresh (Hnone message (or_introl eq_refl))). cbn. f_equal.
      apply Hall; [reflexivity | | exact Hdistinct].
      intros m Hm.
      destruct (_send_alert_fires cfg w message st) as (_ & _ & _ & _ & Hmap & _).
      { unfold in_cooldown. rewrite (Hnone message (or_introl eq_refl)).
        reflexivity. }
      rewrite Hmap. apply lookup_insert_None.
      split; [apply Hnone; right; exact Hm |].
      intros Heq. apply Hnew. rewrite Heq. apply in_map, Hm.
  - exists []. rewrite app_nil_r. split; [reflexivity |].
    destruct (alerts_triggered cfg metrics); [| reflexivity].
    cbn. split; [apply sublist_nil_l |].
    split; [reflexivity | discriminate].
Qed.

End CollectorProgress.

(** ** What the evaluator fires *)

Section EvaluatorFires.

Import Collector Spec Progress.
Context `{py : Builtins}.
Variable cfg : config.
Variable w : world.

Lemma prefix_app (label rest : string) :
  String.prefix label (label ++ rest) = true.
Proof.
  induction label as [| a label IH]; [destruct rest; reflexivity |].
  change (String a label ++ rest) with (String a (label ++ rest)).
  cbn [String.prefix]. destruct (ascii_dec a a); [exact IH | contradiction].
Qed.

Lemma labelled_own (label : string) (l : list string) :
  (forall m, In m l -> exists rest, m = label ++ rest) ->
  labelled label l = l.
Proof.
  unfold labelled. induction l as [| m l IH]; intros Hown; cbn;
    [reflexivity |].
  destruct (Hown m (or_introl eq_refl)) as [rest ->].
  rewrite prefix_app, IH; [reflexivity |].
  intros m' Hm'. apply Hown. right. exact Hm'.
Qed.

Lemma labelled_foreign (label other : string) (l : list string) :
  (forall rest, String.prefix label (other ++ rest) = false) ->
  (forall m, In m l -> exists rest, m = other ++ rest) ->
  labelled label l = [].
Proof.
  intros Hdiffer. unfold labelled.
  induction l as [| m l IH]; intros Hother; cbn; [reflexivity |].
  destruct (Hother m (or_introl eq_refl)) as [rest ->].
  rewrite Hdiffer. apply IH. intros m' Hm'. apply Hother. right. exact Hm'.
Qed.

Lemma labelled_app (label : string) (l1 l2 : list string) :
  labelled label (l1 ++ l2) = (labelled label l1 ++ labelled label l2)%list.
Proof. apply List.filter_app. Qed.

Lemma check_scalar_labels key label metrics l :
  check_scalar cfg key label metrics = Ok l ->
  forall m, In m l -> exists rest, m = label ++ rest.
Proof.
  unfold check_scalar.
  destruct (thresholds cfg !! key) as [limit |];
    [| intros Hl; inversion Hl; intros m []].
  destruct (dict_get metrics key) as [[| q | s | l' | d] |];
    try discriminate; try (intros Hl; inversion Hl; intros m []).
  destruct (default (VNum 0) (dict_get d "percent")) as [| percent | | |];
    try discriminate.
  destruct (Qgtb percent limit); intros Hl; inversion Hl;
    [| intros m []].
  intros m [<- | []]. eauto.
Qed.

Lemma check_mounts_labels limit mounts :
  forall l, check_mounts limit mounts = Ok l ->
  forall m, In m l -> exists rest, m = disk_label ++ rest.
Proof.
  induction mounts as [| disk mounts IH]; cbn; intros l Hl.
  - inversion Hl. intros m [].
  - destruct (check_mount limit disk) as [here |] eqn:Hhere; cbn in Hl;
      [| discriminate].
    destruct (check_mounts limit mounts) as [later |]; cbn in Hl;
      [| discriminate].
    inversion Hl. subst l. intros m Hm.
    apply in_app_or in Hm as [Hm | Hm]; [| eapply IH; eauto].
    unfold check_mount in Hhere.
    destruct disk as [| q | s | l' | d]; try (inversion Hhere; subst; destruct Hm).
    destruct (dict_get d "percent") as [[| percent | | |] |];
      try discriminate; try (inversion Hhere; subst; destruct Hm).
    destruct (Qgtb percent limit); inversion Hhere; subst; [| destruct Hm].
    destruct Hm as [<- | []]. unfold disk_label. eauto.
Qed.

Lemma check_disk_labels metrics l :
  check_disk cfg metrics = Ok l ->
  forall m, In m l -> exists rest, m = disk_label ++ rest.
Proof.
  unfold check_disk.
  destruct (thresholds cfg !! "disk") as [limit |];
    [| intros Hl; inversion Hl; intros m []].
  destruct (dict_get metrics "disk") as [v |];
    [| intros Hl; inversion Hl; intros m []].
  destruct (py_iter v) as [disks |]; cbn; [| discriminate].
  apply check_mounts_labels.
Qed.

Lemma check_mounts_ok_typed limit mounts :
  forall l, check_mounts limit mounts = Ok l ->
  forallb mount_typed mounts = true.
Proof.
  induction mounts as [| disk mounts IH]; cbn; intros l Hl; [reflexivity |].
  destruct (check_mount limit disk) as [here |] eqn:Hhere; cbn in Hl;
    [| discriminate].
  destruct (check_mounts limit mounts) as [later |] eqn:Hlater; cbn in Hl;
    [| discriminate].
  rewrite (IH later eq_refl), andb_true_r.
  unfold check_mount in Hhere. unfold mount_typed, mount_percent.
  destruct disk as [| q | s | l' | d]; try reflexivity.
  destruct (dict_get d "percent") as [[| percent | | |] |];
    try discriminate; reflexivity.
Qed.

(** The alerts that the check triggers, family by family. *)
Lemma alerts_triggered_families metrics alerts :
  alerts_triggered cfg metrics = Ok alerts ->
  exists a_cpu a_mem a_disk a_swap,
    check_cpu cfg metrics = Ok a_cpu
    /\ check_memory cfg metrics = Ok a_mem
    /\ check_disk cfg metrics = Ok a_disk
    /\ check_swap cfg metrics = Ok a_swap
    /\ alerts = (a_cpu ++ a_mem ++ a_disk ++ a_swap)%list
    /\ labelled (family_label Cpu) alerts = a_cpu
    /\ labelled (family_label Memory) alerts = a_mem
    /\ labelled disk_label alerts = a_disk
    /\ labelled (family_label Swap) alerts = a_swap.
Proof.
  unfold alerts_triggered.
  destruct (check_cpu cfg metrics) as [a_cpu |] eqn:Hcpu; cbn;
    [| discriminate].
  destruct (check_memory cfg metrics) as [a_mem |] eqn:Hmem; cbn;
    [| discriminate].
  destruct (check_disk cfg metrics) as [a_disk |] eqn:Hdisk; cbn;
    [| discriminate].
  destruct (check_swap cfg metrics) as [a_swap |] eqn:Hswap; cbn;
    [| discriminate].
  intros Halerts. inversion Halerts.
  exists a_cpu, a_mem, a_disk, a_swap.
  do 5 (split; [reflexivity |]).
  pose proof (check_scalar_labels _ _ _ _ Hcpu) as Lcpu.
  pose proof (check_scalar_labels _ _ _ _ Hmem) as Lmem.
  pose proof (check_disk_labels _ _ Hdisk) as Ldisk.
  pose proof (check_scalar_labels _ _ _ _ Hswap) as Lswap.
  rewrite !labelled_app. cbn [family_label].
  rewrite (labelled_own _ _ Lcpu), (labelled_own _ _ Lmem),
    (labelled_own _ _ Ldisk), (labelled_own _ _ Lswap).
  rewrite (labelled_foreign "High CPU usage: " "High memory usage: " a_mem
             (fun rest => eq_refl) Lmem),
    (labelled_foreign "High CPU usage: " disk_label a_disk
       (fun rest => eq_refl) Ldisk),
    (labelled_foreign "High CPU usage: " "High swap usage: " a_swap
       (fun rest => eq_refl) Lswap),
    (labelled_foreign "High memory usage: " "High CPU usage: " a_cpu
       (fun rest => eq_refl) Lcpu),
    (labelled_foreign "High memory usage: " disk_label a_disk
       (fun rest => eq_refl) Ldisk),
    (labelled_foreign "High memory usage: " "High swap usage: " a_swap
       (fun rest => eq_refl) Lswap),
    (labelled_foreign disk_label "High CPU usage: " a_cpu
       (fun rest => eq_refl) Lcpu),
    (labelled_foreign disk_label "High memory usage: " a_mem
       (fun rest => eq_refl) Lmem),
    (labelled_foreign disk_label "High swap usage: " a_swap
       (fun rest => eq_refl) Lswap),
    (labelled_foreign "High swap usage: " "High CPU usage: " a_cpu
       (fun rest => eq_refl) Lcpu),
    (labelled_foreign "High swap usage: " "High memory usage: " a_mem
       (fun rest => eq_refl) Lmem),
    (labelled_foreign "High swap usage: " disk_label a_disk
       (fun rest => eq_refl) Ldisk).
  rewrite ?app_nil_r. cbn [app]. auto.
Qed.

Lemma labelled_scalar (f : scalar_family) metrics alerts :
  alerts_triggered cfg metrics = Ok alerts ->
  check_scalar cfg (family_key f) (family_label f) metrics
  = Ok (labelled (family_label f) alerts).
Proof.
  intros Halerts.
  destruct (alerts_triggered_families metrics alerts Halerts)
    as (a_cpu & a_mem & a_disk & a_swap & Hcpu & Hmem & _ & Hswap & _
        & Lcpu & Lmem & _ & Lswap).
  destruct f; cbn [family_key family_label] in *.
  - rewrite Lcpu. exact Hcpu.
  - rewrite Lmem. exact Hmem.
  - rewrite Lswap. exact Hswap.
Qed.

Lemma check_alerts_enabled metrics alerts st :
  alerts_enabled cfg = true ->
  alerts_triggered cfg metrics = Ok alerts ->
  check_alerts cfg w metrics st
  = (fold_left (_send_alert cfg w) alerts st, Ok tt).
Proof.
  intros Henabled Halerts. unfold check_alerts.
  rewrite Henabled, Halerts. reflexivity.
Qed.

Lemma sublist_labelled (label : string) (l1 l2 : list string) :
  sublist l1 l2 -> sublist (labelled label l1) (labelled label l2).
Proof.
  unfold labelled. induction 1 as [| x l1 l2 Hsub IH | x l1 l2 Hsub IH]; cbn.
  - constructor.
  - destruct (String.prefix label x); [apply sublist_skip |]; exact IH.
  - destruct (String.prefix label x); [apply sublist_cons |]; exact IH.
Qed.

(** What the loop of line 232 logs: a subsequence of the triggered
    messages, and all of them when none has an entry in the cooldown map
    and their hashes are pairwise different. *)
Lemma alerts_sent_logged (alerts : list string) :
  forall st,
  exists new,
    trace (fold_left (_send_alert cfg w) alerts st) = (trace st ++ new)%list
    /\ sublist (omap logged_alert new) alerts
    /\ ((forall m, In m alerts -> alert_cooldown st !! py_hash m = None) ->
        List.NoDup (map py_hash alerts) ->
        omap logged_alert new = alerts).
Proof.
  induction alerts as [| message rest IH]; intros st; cbn [fold_left].
  - exists []. rewrite app_nil_r. cbn.
    split; [reflexivity |]. split; [constructor | reflexivity].
  - destruct (_send_alert_logs cfg w message st)
      as (new1 & Htrace1 & Hcases & Hfresh & Hkeys).
    destruct (IH (_send_alert cfg w st message))
      as (new2 & Htrace2 & Hsub & Hall).
    exists (new1 ++ new2)%list. rewrite Htrace2, Htrace1, <- app_assoc.
    split; [reflexivity |]. rewrite omap_app. split.
    + destruct Hcases as [-> | ->]; cbn;
        [apply sublist_cons | apply sublist_skip]; exact Hsub.
    + intros Hnone Hdistinct. cbn in Hdistinct.
      apply List.NoDup_cons_iff in Hdistinct as [Hnew Hdistinct].
      rewrite (Hfresh (Hnone message (or_introl eq_refl))). cbn. f_equal.
      apply Hall; [| exact Hdistinct].
      intros m Hm.
      destruct (_send_alert_fires cfg w message st)
        as (_ & _ & _ & _ & Hmap & _).
      { unfold in_cooldown. rewrite (Hnone message (or_introl eq_refl)).
        reflexivity. }
      rewrite Hmap. apply lookup_insert_None.
      split; [apply Hnone; right; exact Hm |].
      intros Heq. apply Hnew. rewrite Heq. apply in_map, Hm.
Qed.

(** What [check_alerts] logs for the messages of one label. *)
Lemma check_alerts_fires (label : string) metrics alerts st :
  alerts_enabled cfg = true ->
  alerts_triggered cfg metrics = Ok alerts ->
  exists new,
    trace (fst (check_alerts cfg w metrics st)) = (trace st ++ new)%list
    /\ sublist (labelled label (omap logged_alert new))
         (labelled label alerts)
    /\ ((forall m, In m alerts -> alert_cooldown st !! py_hash m = None) ->
        List.NoDup (map py_hash alerts) ->
        labelled label (omap logged_alert new) = labelled label alerts).
Proof.
  intros Henabled Halerts.
  rewrite (check_alerts_enabled metrics alerts st Henabled Halerts).
  destruct (alerts_sent_logged alerts st) as (new & Htrace & Hsub & Hall).
  exists new. split; [exact Htrace |].
  split; [apply sublist_labelled, Hsub |].
  intros Hnone Hdistinct. rewrite (Hall Hnone Hdistinct). reflexivity.
Qed.

(** C4, amended.  When alerting is enabled and the threshold check of the
    snapshot raises no error: for each of the families cpu, memory and swap
    that is present in the snapshot with a numeric [percent] and whose
    threshold is configured, [check_alerts] hands every triggered message to
    [_send_alert], and the messages of the family among them are the one
    message of the family if [percent > threshold] and none otherwise; the
    inequality is strict, so a value equal to the threshold triggers
    nothing.  What the call logs for the family is a part of that, and all
    of it when no triggered message has an entry in the cooldown map and
    the hashes of the triggered messages are pairwise different. *)
Theorem threshold_strict_when_enabled (f : scalar_family)
    (metrics d : list (string * pyval)) (limit p : Q) (alerts : list string)
    (st : state) :
  alerts_enabled cfg = true ->
  alerts_triggered cfg metrics = Ok alerts ->
  thresholds cfg !! family_key f = Some limit ->
  dict_get metrics (family_key f) = Some (VDict d) ->
  dict_get d "percent" = Some (VNum p) ->
  let fired := labelled (family_label f) alerts in
  check_alerts cfg w metrics st
  = (fold_left (_send_alert cfg w) alerts st, Ok tt)
  /\ fired = (if Qgtb p limit then [scalar_message f p limit] else [])
  /\ ((limit < p)%Q <-> fired = [scalar_message f p limit])
  /\ ((p <= limit)%Q <-> fired = [])
  /\ ((p == limit)%Q -> fired = [])
  /\ exists new,
       trace (fst (check_alerts cfg w metrics st)) = (trace st ++ new)%list
       /\ sublist (labelled (family_label f) (omap logged_alert new)) fired
       /\ ((forall m, In m alerts -> alert_cooldown st !! py_hash m = None) ->
           List.NoDup (map py_hash alerts) ->
           labelled (family_label f) (omap logged_alert new) = fired).
Proof.
  intros Henabled Halerts Hlimit Hfamily Hpercent fired.
  assert (Hfired : fired = if Qgtb p limit
                           then [scalar_message f p limit] else []).
  { pose proof (labelled_scalar f metrics alerts Halerts) as Hblock.
    rewrite (check_scalar_present cfg _ _ _ limit d p Hlimit Hfamily Hpercent)
      in Hblock.
    subst fired. unfold scalar_message.
    destruct (Qgtb p limit); inversion Hblock; reflexivity. }
  split; [apply check_alerts_enabled; assumption |].
  split; [exact Hfired |].
  split; [| split; [| split]].
  - rewrite Hfired. split.
    + intros Hover. apply Qgtb_true in Hover. rewrite Hover. reflexivity.
    + intros Hone. apply Qgtb_true.
      destruct (Qgtb p limit); [reflexivity | discriminate].
  - rewrite Hfired. split.
    + intros Hunder. apply Qgtb_false in Hunder. rewrite Hunder. reflexivity.
    + intros Hnone. apply Qgtb_false.
      destruct (Qgtb p limit); [discriminate | reflexivity].
  - intros Hequal. rewrite Hfired.
    assert (Hunder : (p <= limit)%Q) by (rewrite Hequal; apply Qle_refl).
    apply Qgtb_false in Hunder. rewrite Hunder. reflexivity.
  - apply check_alerts_fires; assumption.
Qed.

(** C5, amended.  When alerting is enabled and the threshold check of the
    snapshot raises no error: with a disk threshold configured and a list
    of mounts in the snapshot, [check_alerts] hands every triggered message
    to [_send_alert], and the disk messages among them are exactly one per
    mount whose [percent] is above the threshold, in the order of the
    snapshot, none for a mount at or below it.  What the call logs for disk
    is a part of that, and all of it when no triggered message has an entry
    in the cooldown map and the hashes of the triggered messages are
    pairwise different. *)
Theorem disk_alert_per_mount_when_enabled (metrics : list (string * pyval))
    (limit : Q) (mounts : list pyval) (alerts : list string) (st : state) :
  alerts_enabled cfg = true ->
  alerts_triggered cfg metrics = Ok alerts ->
  thresholds cfg !! "disk" = Some limit ->
  dict_get metrics "disk" = Some (VList mounts) ->
  let over := List.filter (over_threshold limit) mounts in
  let fired := labelled disk_label alerts in
  check_alerts cfg w metrics st
  = (fold_left (_send_alert cfg w) alerts st, Ok tt)
  /\ fired = map (disk_message limit) over
  /\ length fired = length over
  /\ (forall m q, In m mounts -> mount_percent m = Some (VNum q) ->
        (In m over <-> (limit < q)%Q))
  /\ exists new,
       trace (fst (check_alerts cfg w metrics st)) = (trace st ++ new)%list
       /\ sublist (labelled disk_label (omap logged_alert new)) fired
       /\ ((forall m, In m alerts -> alert_cooldown st !! py_hash m = None) ->
           List.NoDup (map py_hash alerts) ->
           labelled disk_label (omap logged_alert new) = fired).
Proof.
  intros Henabled Halerts Hlimit Hdisk over fired.
  assert (Hfired : fired = map (disk_message limit) over).
  { destruct (alerts_triggered_families metrics alerts Halerts)
      as (a_cpu & a_mem & a_disk & a_swap & _ & _ & Hblock & _ & _
          & _ & _ & Ldisk & _).
    subst fired. rewrite Ldisk.
    unfold check_disk in Hblock. rewrite Hlimit, Hdisk in Hblock.
    cbn in Hblock.
    pose proof (check_mounts_ok_typed limit mounts a_disk Hblock) as Htyped.
    rewrite (check_mounts_typed limit mounts Htyped) in Hblock.
    inversion Hblock. reflexivity. }
  split; [apply check_alerts_enabled; assumption |].
  split; [exact Hfired |].
  split; [rewrite Hfired; apply length_map |].
  split; [| apply check_alerts_fires; assumption].
  intros m q Hin Hq. subst over. rewrite List.filter_In.
  unfold over_threshold. rewrite Hq. rewrite Qgtb_true. tauto.
Qed.

End EvaluatorFires.

Section EvaluatorFiresExamples.

Import Collector Spec Progress.

Lemma threshold_strict_when_enabled_witness :
  alerts_enabled Concrete.test_config = true
  /\ alerts_triggered (py := Concrete.builtins) Concrete.test_config
       (Concrete.cpu_at 85)
     = Ok ["High CPU usage: 85.0% (threshold: 80%)"]
  /\ omap logged_alert
       (trace (fst (check_alerts (py := Concrete.builtins)
                      Concrete.test_config
                      (Concrete.host (Concrete.cpu_at 85) Concrete.always_up)
                      (Concrete.cpu_at 85) initial_state)))
     = ["High CPU usage: 85.0% (threshold: 80%)"].
Proof.
  assert (Henabled : alerts_enabled Concrete.test_config = true) by reflexivity.
  assert (Halerts : alerts_triggered (py := Concrete.builtins)
                      Concrete.test_config (Concrete.cpu_at 85)
                    = Ok ["High CPU usage: 85.0% (threshold: 80%)"])
    by (vm_compute; reflexivity).
  assert (Hlimit : thresholds Concrete.test_config !! "cpu" = Some 80%Q)
    by (vm_compute; reflexivity).
  split; [exact Henabled |]. split; [exact Halerts |].
  refine (eq_trans
            (f_equal (fun out => omap logged_alert (trace (fst out)))
               (proj1 (threshold_strict_when_enabled (py := Concrete.builtins)
                         Concrete.test_config
                         (Concrete.host (Concrete.cpu_at 85) Concrete.always_up)
                         Cpu (Concrete.cpu_at 85) [("percent", VNum 85)]
                         80%Q 85%Q _ initial_state Henabled Halerts Hlimit
                         eq_refl eq_refl))) _).
  vm_compute. reflexivity.
Defined.

(** Two snapshots with a cpu reading above the threshold 80 for which
    nothing is fired.  With [alerts.enabled: false], [check_alerts] returns
    at its first test.  With alerting enabled and a memory block that holds
    a text where a number belongs, the memory comparison raises after the
    cpu message has been put on the list and before the loop that sends
    it. *)
Lemma threshold_strict_counterexample :
  let disabled := Concrete.with_alerts_disabled Concrete.test_config in
  thresholds disabled !! "cpu" = Some 80%Q
  /\ dict_get (Concrete.cpu_at 85) "cpu" = Some (VDict [("percent", VNum 85)])
  /\ (80 < 85)%Q
  /\ check_alerts (py := Concrete.builtins) disabled
       (Concrete.host (Concrete.cpu_at 85) Concrete.always_up)
       (Concrete.cpu_at 85) initial_state
     = (initial_state, Ok tt)
  /\ alerts_enabled Concrete.test_config = true
  /\ thresholds Concrete.test_config !! "cpu" = Some 80%Q
  /\ dict_get Samples.bad_memory "cpu" = Some (VDict [("percent", VNum 95)])
  /\ (80 < 95)%Q
  /\ check_alerts (py := Concrete.builtins) Concrete.test_config
       (Concrete.host Samples.bad_memory Concrete.always_up)
       Samples.bad_memory initial_state
     = (initial_state, Raise TypeError).
Proof.
  cbv zeta. split; [vm_compute; reflexivity |]. split; [reflexivity |].
  split; [reflexivity |]. split; [reflexivity |]. split; [reflexivity |].
  split; [vm_compute; reflexivity |]. split; [reflexivity |].
  split; [reflexivity |]. vm_compute. reflexivity.
Qed.

Lemma disk_alert_per_mount_when_enabled_witness :
  alerts_enabled Concrete.test_config = true
  /\ alerts_triggered (py := Concrete.builtins) Concrete.test_config
       Concrete.two_mounts
     = Ok ["High disk usage on /: 95.0% (threshold: 90%)"]
  /\ omap logged_alert
       (trace (fst (check_alerts (py := Concrete.builtins)
                      Concrete.test_config
                      (Concrete.host Concrete.two_mounts Concrete.always_up)
                      Concrete.two_mounts initial_state)))
     = ["High disk usage on /: 95.0% (threshold: 90%)"].
Proof.
  assert (Henabled : alerts_enabled Concrete.test_config = true) by reflexivity.
  assert (Halerts : alerts_triggered (py := Concrete.builtins)
                      Concrete.test_config Concrete.two_mounts
                    = Ok ["High disk usage on /: 95.0% (threshold: 90%)"])
    by (vm_compute; reflexivity).
  assert (Hlimit : thresholds Concrete.test_config !! "disk" = Some 90%Q)
    by (vm_compute; reflexivity).
  split; [exact Henabled |]. split; [exact Halerts |].
  refine (eq_trans
            (f_equal (fun out => omap logged_alert (trace (fst out)))
               (proj1 (disk_alert_per_mount_when_enabled
                         (py := Concrete.builtins) Concrete.test_config
                         (Concrete.host Concrete.two_mounts Concrete.always_up)
                         Concrete.two_mounts 90%Q _ _ initial_state Henabled
                         Halerts Hlimit eq_refl))) _).
  vm_compute. reflexivity.
Defined.

(** The snapshot with one mount at 95% and one at 50% against the threshold
    90, for which no disk alert is emitted: with [alerts.enabled: false],
    and with alerting enabled when the memory block of the same snapshot
    holds a text where a number belongs. *)
Lemma disk_alert_per_mount_counterexample :
  let disabled := Concrete.with_alerts_disabled Concrete.test_config in
  let mistyped :=
    ("memory", VDict [("percent", VStr "high")]) :: Concrete.two_mounts in
  thresholds disabled !! "disk" = Some 90%Q
  /\ List.filter (over_threshold 90)
       [VDict [("mountpoint", VStr "/"); ("percent", VNum 95)];
        VDict [("mountpoint", VStr "/home"); ("percent", VNum 50)]]
     = [VDict [("mountpoint", VStr "/"); ("percent", VNum 95)]]
  /\ check_alerts (py := Concrete.builtins) disabled
       (Concrete.host Concrete.two_mounts Concrete.always_up)
       Concrete.two_mounts initial_state
     = (initial_state, Ok tt)
  /\ alerts_enabled Concrete.test_config = true
  /\ dict_get mistyped "disk" = dict_get Concrete.two_mounts "disk"
  /\ check_alerts (py := Concrete.builtins) Concrete.test_config
       (Concrete.host mistyped Concrete.always_up) mistyped initial_state
     = (initial_state, Raise TypeError).
Proof.
  cbv zeta. split; [vm_compute; reflexivity |].
  split; [vm_compute; reflexivity |]. split; [reflexivity |].
  split; [reflexivity |]. split; [reflexivity |]. vm_compute. reflexivity.
Qed.

End EvaluatorFiresExamples.

(** ** Loading the configuration *)

Section ConfigLoader.

Import Loader.
Variable default_alerts : pyval.
Variable default_metrics : pyval.

Lemma dict_get_app d k v key :
  dict_get (d ++ [(k, v)]) key
  = match dict_get d key with
    | Some x => Some x
    | None => if String.eqb k key then Some v else None
    end.
Proof.
  induction d as [| [k' v'] d IH]; cbn; [reflexivity |].
  destruct (String.eqb k' key); [reflexivity | exact IH].
Qed.

Lemma setdefault_lookup key value d k :
  dict_get (setdefault key value d) k
  = match dict_get d k with
    | Some x => Some x
    | None => if String.eqb key k then Some value else None
    end.
Proof.
  unfold setdefault. destruct (dict_get d key) as [x |] eqn:Hkey.
  - destruct (dict_get d k) eqn:Hk; [reflexivity |].
    destruct (String.eqb_spec key k) as [-> | _]; [congruence | reflexivity].
  - apply dict_get_app.
Qed.

Lemma check_required_dict d :
  check_required (VDict d) required_sections = Some tt
  <-> forall s, In s required_sections -> is_Some (dict_get d s).
Proof.
  unfold required_sections. cbn.
  destruct (dict_get d "endpoint") eqn:H1;
    destruct (dict_get d "interval_seconds") eqn:H2;
    destruct (dict_get d "thresholds") eqn:H3;
    (split;
     [ intros Hcheck; try discriminate;
       intros s [<- | [<- | [<- | []]]]; rewrite ?H1, ?H2, ?H3; eauto
     | intros Hall; try reflexivity; exfalso ]).
  all: first
    [ destruct (Hall "endpoint") as [x Hx];
        [cbn; auto | rewrite H1 in Hx; discriminate]
    | destruct (Hall "interval_seconds") as [x Hx];
        [cbn; auto | rewrite H2 in Hx; discriminate]
    | destruct (Hall "thresholds") as [x Hx];
        [cbn; auto | rewrite H3 in Hx; discriminate] ].
Qed.

(** X19.  [_load_config] returns a configuration exactly when the file
    holds a mapping with the three sections [endpoint], [interval_seconds]
    and [thresholds]; in every other case, a missing or unreadable file, a
    document that is no mapping, a missing section, the process exits with
    status 1.  The configuration returned keeps every entry of the file,
    holds an [alerts] and a [metrics] section, and differs from the file at
    most in those two sections, which are added when the file has none. *)
Theorem load_config_needs_three_sections (file : option (option pyval)) :
  (forall config,
     _load_config default_alerts default_metrics file = Config config <->
     exists d,
       file = Some (Some (VDict d))
       /\ (forall s, In s required_sections -> is_Some (dict_get d s))
       /\ config = setdefault "metrics" default_metrics
                     (setdefault "alerts" default_alerts d))
  /\ (forall code,
        _load_config default_alerts default_metrics file = Exit code ->
        code = 1)
  /\ (forall d config,
        file = Some (Some (VDict d)) ->
        _load_config default_alerts default_metrics file = Config config ->
        (forall k v, dict_get d k = Some v -> dict_get config k = Some v)
        /\ is_Some (dict_get config "alerts")
        /\ is_Some (dict_get config "metrics")
        /\ (forall k, k <> "alerts" -> k <> "metrics" ->
                      dict_get config k = dict_get d k)).
Proof.
  assert (Hiff : forall config,
            _load_config default_alerts default_metrics file = Config config <->
            exists d,
              file = Some (Some (VDict d))
              /\ (forall s, In s required_sections -> is_Some (dict_get d s))
              /\ config = setdefault "metrics" default_metrics
                            (setdefault "alerts" default_alerts d)).
  { intros config. unfold _load_config, load_body. split.
    - destruct file as [[document |] |]; try discriminate.
      destruct (check_required document required_sections) as [[] |] eqn:Hcheck;
        [| discriminate].
      destruct document as [| | | | d]; try discriminate.
      intros Hconfig. inversion Hconfig. exists d.
      split; [reflexivity |]. split; [| reflexivity].
      apply check_required_dict, Hcheck.
    - intros (d & -> & Hall & ->).
      apply check_required_dict in Hall. rewrite Hall. reflexivity. }
  split; [exact Hiff |]. split.
  - unfold _load_config. destruct (load_body _ _ file); [discriminate |].
    intros code Hexit. inversion Hexit. reflexivity.
  - intros d config Hfile Hconfig.
    apply Hiff in Hconfig as (d' & Hfile' & _ & ->).
    rewrite Hfile in Hfile'. inversion Hfile'. subst d'.
    split; [| split; [| split]].
    + intros k v Hk. rewrite !setdefault_lookup, Hk. reflexivity.
    + rewrite !setdefault_lookup.
      destruct (dict_get d "alerts"); cbn; eauto.
    + rewrite !setdefault_lookup.
      destruct (dict_get d "metrics"); cbn; eauto.
    + intros k Halerts Hmetrics. rewrite !setdefault_lookup.
      destruct (dict_get d k); [reflexivity |].
      destruct (String.eqb_spec "alerts" k) as [<- | _]; [contradiction |].
      destruct (String.eqb_spec "metrics" k) as [<- | _]; [contradiction |].
      reflexivity.
Qed.

End ConfigLoader.

(** ** The AlertManager's history *)

Section AlertHistory.

Import Spec.
Import AlertManager.
Variable cfg : config.
Variable w : world.

Lemma string_app_assoc (a b c : string) :
  ((a ++ b) ++ c = a ++ (b ++ c))%string.
Proof.
  induction a as [| x a IH]; [reflexivity |].
  change (String x ((a ++ b) ++ c) = String x (a ++ (b ++ c)))%string.
  rewrite IH. reflexivity.
Qed.

Lemma history_key_collision (x t h : string) :
  history_key (x ++ ":" ++ t) h = history_key t (h ++ ":" ++ x).
Proof.
  unfold history_key. rewrite !string_app_assoc. reflexivity.
Qed.

(** X20.  Two identities can share one history entry.  The key is the host
    name, a colon and the alert type joined into one text, so the alert of
    type [x:t] on host [h] and the alert of type [t] on host [h:x] have the
    same key: once the first has fired, the second, sent within the window,
    is suppressed, although no alert of its identity has been sent. *)
Theorem identities_share_an_entry (x t h m1 m2 s1 s2 : string)
    (v1 t1 v2 t2 : option Q) (st : state) :
  snd (_is_in_cooldown cfg w (x ++ ":" ++ t) h st) = false ->
  let first := send_alert cfg w (x ++ ":" ++ t) m1 h v1 t1 s1 st in
  let fired := fired_at cfg w (x ++ ":" ++ t) h st in
  let now := utcnow w (n_utcnow (fst first)) in
  (seconds_between now fired < cooldown_minutes cfg * 60)%Q ->
  history_key (x ++ ":" ++ t) h = history_key t (h ++ ":" ++ x)
  /\ send_alert cfg w t m2 (h ++ ":" ++ x) v2 t2 s2 (fst first)
     = (emit (LogCooldownSkip t (h ++ ":" ++ x)) (tick_utcnow (fst first)),
        false).
Proof.
  intros Hfree first fired now Hwithin.
  split; [apply history_key_collision |].
  destruct (send_alert_unsuppressed cfg w (x ++ ":" ++ t) m1 h v1 t1 s1 st
              Hfree) as (new & _ & _ & _ & Hhist).
  cbv zeta in Hhist. fold first in Hhist. fold fired in Hhist.
  apply send_alert_suppressed.
  rewrite (history_entry_checked cfg w t (h ++ ":" ++ x) (fst first) fired).
  - cbn [snd]. apply Qltb_true. exact Hwithin.
  - rewrite Hhist, <- history_key_collision. apply lookup_insert_eq.
Qed.

Lemma unknown_channel_logged (a : alert) (st : state) (success : bool)
    (channel : string) :
  channel <> "slack" -> channel <> "email" -> channel <> "webhook" ->
  channel <> "log" ->
  send_channel cfg w a (st, success) channel
  = (emit (LogUnknownChannel channel) st, success).
Proof.
  intros Hslack Hemail Hwebhook Hlog. unfold send_channel.
  destruct (String.eqb_spec channel "slack"); [contradiction |].
  destruct (String.eqb_spec channel "email"); [contradiction |].
  destruct (String.eqb_spec channel "webhook"); [contradiction |].
  destruct (String.eqb_spec channel "log"); [contradiction |].
  reflexivity.
Qed.

Lemma unknown_channels_loop (a : alert) (chans : list string) :
  (forall channel, In channel chans ->
     channel <> "slack" /\ channel <> "email" /\ channel <> "webhook"
     /\ channel <> "log") ->
  forall (st : state) (success : bool),
    let out := fold_left (send_channel cfg w a) chans (st, success) in
    snd out = success
    /\ List.filter delivery (trace (fst out)) = List.filter delivery (trace st)
    /\ n_network (fst out) = n_network st
    /\ alert_history (fst out) = alert_history st.
Proof.
  induction chans as [| channel rest IH]; intros Hunknown st success;
    cbv zeta; cbn [fold_left]; [auto |].
  destruct (Hunknown channel (or_introl eq_refl))
    as (Hslack & Hemail & Hwebhook & Hlog).
  rewrite (unknown_channel_logged a st success channel Hslack Hemail Hwebhook
             Hlog).
  destruct (IH (fun c Hc => Hunknown c (or_intror Hc))
              (emit (LogUnknownChannel channel) st) success)
    as (Hsnd & Htrace & Hnet & Hhist).
  cbv zeta in *. rewrite Hsnd, Htrace, Hnet, Hhist. cbn.
  rewrite List.filter_app. cbn. rewrite app_nil_r. auto.
Qed.

(** X21.  An alert that no channel delivers still counts as sent.  When
    every configured channel name is other than [slack], [email],
    [webhook] and [log], a misspelt name or an empty list, [send_alert]
    delivers nothing and contacts nobody, yet returns true and records the
    alert in the history, so that the next alert of this identity within
    the window is suppressed. *)
Theorem unknown_channels_count_as_sent alert_type message hostname value
    threshold severity (st : state) :
  (forall channel, In channel (channels cfg) ->
     channel <> "slack" /\ channel <> "email" /\ channel <> "webhook"
     /\ channel <> "log") ->
  snd (_is_in_cooldown cfg w alert_type hostname st) = false ->
  let out :=
    send_alert cfg w alert_type message hostname value threshold severity st in
  snd out = true
  /\ List.filter delivery (trace (fst out)) = List.filter delivery (trace st)
  /\ n_network (fst out) = n_network st
  /\ alert_history (fst out) !! history_key alert_type hostname
     = Some (fired_at cfg w alert_type hostname st).
Proof.
  intros Hunknown Hfree. cbv zeta.
  destruct (send_alert_fan_out cfg w alert_type message hostname value
              threshold severity st Hfree) as (new & _ & _ & Hentry & _).
  cbv zeta in Hentry. split; [| split; [| split; [| exact Hentry]]].
  all: unfold send_alert;
    destruct (_is_in_cooldown cfg w alert_type hostname st) as [st0 cooling]
      eqn:Hcheck;
    cbn [snd] in Hfree; subst cooling;
    assert (Hsame : trace st0 = trace st /\ n_network st0 = n_network st)
      by (unfold _is_in_cooldown in Hcheck;
          destruct (alert_history st !! history_key alert_type hostname);
          inversion Hcheck; subst; auto);
    destruct Hsame as [Htrace0 Hnet0];
    match goal with
    | |- context [fold_left (send_channel cfg w ?a) _ (?st1, true)] =>
        destruct (unknown_channels_loop a (channels cfg) Hunknown st1 true)
          as (Hsnd & Htrace & Hnet & _)
    end;
    cbv zeta in *.
  - exact Hsnd.
  - rewrite Htrace. cbn. rewrite Htrace0. reflexivity.
  - rewrite Hnet. cbn. exact Hnet0.
Qed.

(** X22.  [send_alert] touches no entry but its own.  Suppressed or not,
    whatever the channels do, the history entry of every other key is after
    the call what it was before, and the entry of its own key is still
    present if it was. *)
Theorem send_alert_keeps_other_entries alert_type message hostname value
    threshold severity (st : state) (key : string) :
  key <> history_key alert_type hostname ->
  let out :=
    send_alert cfg w alert_type message hostname value threshold severity st in
  alert_history (fst out) !! key = alert_history st !! key
  /\ (is_Some (alert_history st !! history_key alert_type hostname) ->
      is_Some (alert_history (fst out) !! history_key alert_type hostname)).
Proof.
  intros Hother. cbv zeta.
  destruct (snd (_is_in_cooldown cfg w alert_type hostname st)) eqn:Hcool.
  - rewrite (send_alert_suppressed cfg w alert_type message hostname value
               threshold severity st Hcool). cbn. auto.
  - destruct (send_alert_unsuppressed cfg w alert_type message hostname value
                threshold severity st Hcool) as (new & _ & _ & _ & Hhist).
    cbv zeta in Hhist. rewrite Hhist.
    split; [apply lookup_insert_ne; auto |].
    intros _. rewrite lookup_insert_eq. eauto.
Qed.

End AlertHistory.

Section ProgressExamples.

Import Spec Progress.

Lemma run_stops_when_told_witness :
  Collector.n_loop
    (Collector.run (py := Concrete.builtins) Concrete.test_config
       Samples.stopping_host 5 Collector.initial_state)
  = 3%nat.
Proof.
  refine (eq_trans
            (proj2 (run_stops_when_told (py := Concrete.builtins)
                      Concrete.test_config Samples.stopping_host 2 5
                      Collector.initial_state _ _ _)) _).
  - intros i Hi. destruct i as [| [| i]]; [reflexivity | reflexivity | lia].
  - reflexivity.
  - lia.
  - reflexivity.
Defined.

Lemma run_never_forgets_witness :
  is_Some
    (Collector.alert_cooldown
       (Collector.run (py := Concrete.builtins) Concrete.test_config
          Samples.stopping_host 5
          (Collector.set_cooldown 7 0 Collector.initial_state)) !! 7).
Proof.
  refine (proj2 (run_never_forgets (py := Concrete.builtins)
                   Concrete.test_config Samples.stopping_host 5
                   (Collector.set_cooldown 7 0 Collector.initial_state) 7 0 _)).
  apply lookup_insert_eq.
Defined.

Lemma unreadable_snapshot_not_sent_witness :
  evaluation (py := Concrete.builtins) Concrete.test_config Samples.bad_memory
  = Raise TypeError
  /\ Collector.trace
       (fst (Collector.send_metrics (py := Concrete.builtins)
               Concrete.test_config
               (Concrete.host Samples.bad_memory Concrete.always_up)
               Collector.initial_state))
     = [Collector.LogUnexpected TypeError].
Proof.
  assert (Heval : evaluation (py := Concrete.builtins) Concrete.test_config
                    Samples.bad_memory = Raise TypeError)
    by (vm_compute; reflexivity).
  split; [exact Heval |].
  refine (eq_trans
            (f_equal (fun out => Collector.trace (fst out))
               (unreadable_snapshot_not_sent (py := Concrete.builtins)
                  Concrete.test_config
                  (Concrete.host Samples.bad_memory Concrete.always_up)
                  Collector.initial_state TypeError _ Heval)) _).
  - reflexivity.
  - reflexivity.
Defined.

Lemma retry_sleeps_between_attempts_witness :
  omap pause
    (Collector.trace
       (fst (Collector.send_metrics (py := Concrete.builtins)
               Concrete.test_config (Concrete.host [] Concrete.flaky)
               Collector.initial_state)))
  = [1%Q; 1%Q].
Proof.
  assert (Hdelay : Collector.sleep_check (Concrete.host [] Concrete.flaky)
                     (Collector.retry_delay Concrete.test_config) = Ok tt)
    by reflexivity.
  refine (eq_trans
            (proj1 (retry_sleeps_between_attempts (py := Concrete.builtins)
                      Concrete.test_config (Concrete.host [] Concrete.flaky)
                      Collector.initial_state Hdelay) 3%nat _ _ _) _).
  - vm_compute. lia.
  - intros i Hi. destruct i as [| [| i]]; [reflexivity | reflexivity | lia].
  - reflexivity.
  - reflexivity.
Defined.

Lemma negative_delay_fails_the_cycle_witness :
  Collector.n_post
    (Collector.cycle (py := Concrete.builtins)
       (Concrete.with_delivery 3 (-1) Concrete.test_config)
       (Concrete.host [] Concrete.flaky) Collector.initial_state)
  = 1%nat.
Proof.
  refine (proj1 (proj2 (negative_delay_fails_the_cycle
                          (py := Concrete.builtins)
                          (Concrete.with_delivery 3 (-1) Concrete.test_config)
                          (Concrete.host [] Concrete.flaky)
                          Collector.initial_state _ _ _))).
  - vm_compute. reflexivity.
  - reflexivity.
  - vm_compute. reflexivity.
Defined.

Lemma repeated_check_is_silent_witness :
  omap logged_alert
    (Collector.trace
       (fst (Collector.check_alerts (py := Concrete.builtins)
               Concrete.test_config
               (Concrete.host (Concrete.cpu_at 95) Concrete.always_up)
               (Concrete.cpu_at 95)
               (fst (Collector.check_alerts (py := Concrete.builtins)
                       Concrete.test_config
                       (Concrete.host (Concrete.cpu_at 95) Concrete.always_up)
                       (Concrete.cpu_at 95) Collector.initial_state)))))
  = ["High CPU usage: 95.0% (threshold: 80%)"].
Proof.
  refine (eq_trans
            (f_equal (omap logged_alert)
               (proj1 (repeated_check_is_silent (py := Concrete.builtins)
                         Concrete.test_config
                         (Concrete.host (Concrete.cpu_at 95) Concrete.always_up)
                         (Concrete.cpu_at 95)
                         ["High CPU usage: 95.0% (threshold: 80%)"]
                         Collector.initial_state _ _ _))) _).
  - vm_compute. reflexivity.
  - intros i j Hi Hj. cbn in Hi, Hj.
    destruct i as [| [| i]]; [| | lia];
      (destruct j as [| [| j]]; [| | lia]); vm_compute; reflexivity.
  - intros key last j Hkey. cbn in Hkey. rewrite lookup_empty in Hkey.
    discriminate.
  - vm_compute. reflexivity.
Defined.

Lemma identities_share_an_entry_witness :
  snd (AlertManager.send_alert Concrete.router_config Concrete.router_world
         "high" "host web:cpu is high" "web:cpu" None None "warning"
         (fst (AlertManager.send_alert Concrete.router_config
                 Concrete.router_world "cpu:high" "CPU of web is high" "web"
                 None None "warning" AlertManager.initial_state)))
  = false.
Proof.
  refine (f_equal snd
            (proj2 (identities_share_an_entry Concrete.router_config
                      Concrete.router_world "cpu" "high" "web"
                      "CPU of web is high" "host web:cpu is high" "warning"
                      "warning" None None None None
                      AlertManager.initial_state _ _))).
  - vm_compute. reflexivity.
  - vm_compute. reflexivity.
Defined.

Lemma unknown_channels_count_as_sent_witness :
  snd (AlertManager.send_alert Samples.misspelt_router Concrete.router_world
         "cpu_high" "CPU usage is critically high" "test-server" None None
         "critical" AlertManager.initial_state)
  = true.
Proof.
  refine (proj1 (unknown_channels_count_as_sent Samples.misspelt_router
                   Concrete.router_world "cpu_high"
                   "CPU usage is critically high" "test-server" None None
                   "critical" AlertManager.initial_state _ _)).
  - intros channel [<- | [<- | []]]; repeat split; discriminate.
  - vm_compute. reflexivity.
Defined.

Lemma send_alert_keeps_other_entries_witness :
  AlertManager.alert_history
    (fst (AlertManager.send_alert Concrete.router_config Concrete.router_world
            "cpu_high" "CPU usage is critically high" "test-server" None None
            "critical" AlertManager.initial_state)) !! "db-1:disk_full"
  = None.
Proof.
  refine (eq_trans
            (proj1 (send_alert_keeps_other_entries Concrete.router_config
                      Concrete.router_world "cpu_high"
                      "CPU usage is critically high" "test-server" None None
                      "critical" AlertManager.initial_state "db-1:disk_full"
                      _)) _).
  - intros Hsame. vm_compute in Hsame. discriminate.
  - apply lookup_empty.
Defined.

(** Against an endpoint that never answers, the three attempts are
    separated by two sleeps and followed by none. *)
Example retry_gives_up :
  let out :=
    Collector.send_metrics (py := Concrete.builtins) Concrete.test_config
      (Concrete.host [] Samples.always_down) Collector.initial_state in
  snd out = Ok false
  /\ omap pause (Collector.trace (fst out)) = [1%Q; 1%Q]
  /\ List.last (Collector.trace (fst out)) Collector.LogStopped
     = Collector.LogGaveUp.
Proof. vm_compute. auto. Qed.

(** A file with the three required sections gets the two optional ones;
    a document that is a list naming the three sections passes the test of
    line 44 and fails at [setdefault]. *)
Example load_config_samples :
  option_map (map fst)
    match Loader._load_config (VStr "alerts") (VStr "metrics")
            (Some (Some (VDict Samples.minimal_document))) with
    | Loader.Config config => Some config
    | Loader.Exit _ => None
    end
  = Some ["endpoint"; "interval_seconds"; "thresholds"; "alerts"; "metrics"]
  /\ Loader._load_config (VStr "alerts") (VStr "metrics")
       (Some (Some (VList [VStr "endpoint"; VStr "interval_seconds";
                           VStr "thresholds"])))
     = Loader.Exit 1
  /\ Loader._load_config (VStr "alerts") (VStr "metrics") (Some (Some VNone))
     = Loader.Exit 1.
Proof. vm_compute. auto. Qed.

End ProgressExamples.

(** ** The disk block on values that are no list of mounts *)

Section DiskShapes.

Import Collector Spec.
Context `{py : Builtins}.
Variable cfg : config.

Lemma check_mounts_without_percent (limit : Q) (disks : list pyval) :
  (forall disk, In disk disks -> mount_percent disk = None) ->
  check_mounts limit disks = Ok [].
Proof.
  induction disks as [| disk rest IH]; intros Hnone; cbn; [reflexivity |].
  rewrite IH by (intros x Hx; apply Hnone; right; exact Hx). cbn.
  specialize (Hnone disk (or_introl eq_refl)). unfold mount_percent in Hnone.
  unfold check_mount. destruct disk; try reflexivity.
  rewrite Hnone. reflexivity.
Qed.

(** X23.  What the disk block does with a value that is no list of mount
    entries.  With a disk threshold configured: a mapping or a text under
    [disk] is walked key by key or character by character, none of which is
    a mount entry, so no alert is raised and no error either; a list none of
    whose entries is a mapping with a [percent] behaves alike; a number or
    None is not iterable and the check raises TypeError. *)
Theorem disk_block_on_other_shapes (metrics : list (string * pyval))
    (limit : Q) (v : pyval) :
  thresholds cfg !! "disk" = Some limit ->
  dict_get metrics "disk" = Some v ->
  match v with
  | VDict _ | VStr _ => check_disk cfg metrics = Ok []
  | VList l =>
      (forall disk, In disk l -> mount_percent disk = None) ->
      check_disk cfg metrics = Ok []
  | VNum _ | VNone => check_disk cfg metrics = Raise TypeError
  end.
Proof.
  intros Hlimit Hdisk. unfold check_disk. rewrite Hlimit, Hdisk.
  destruct v as [| q | s | l | d]; cbn; try reflexivity.
  - apply check_mounts_without_percent. intros disk Hin.
    apply in_map_iff in Hin as (c & <- & _). reflexivity.
  - apply check_mounts_without_percent.
  - apply check_mounts_without_percent. intros disk Hin.
    apply in_map_iff in Hin as (kv & <- & _). reflexivity.
Qed.

End DiskShapes.

Section DiskShapesExamples.

Import Collector Spec.

Lemma disk_block_on_other_shapes_witness :
  check_disk (py := Concrete.builtins) Concrete.test_config
    [("disk", VDict [("percent", VNum 99)])]
  = Ok [].
Proof.
  exact (disk_block_on_other_shapes (py := Concrete.builtins)
           Concrete.test_config [("disk", VDict [("percent", VNum 99)])]
           90%Q (VDict [("percent", VNum 99)]) eq_refl eq_refl).
Defined.

End DiskShapesExamples.

